(** * DePIN storage aggregator: order lifecycle orchestrator

    A shallow embedding of the allocation orchestrator, confirmation
    poller and sweep ([BlockchainService]), the checkout initiator and
    webhook ingestor ([PaymentService]), [OrderService.cancelOrder], the
    payment controller's webhook route and the Filecoin adapter's status
    probe, followed by the properties of the specification stated over
    them.

    Conventions of the embedding:
    - the relational store is a record of finite maps keyed by row id;
    - [async] methods are state-and-exception computations over a
      [World]: the store plus the effects that leave the process
      (adapter invocations, detached background work);
    - everything the process cannot decide by itself (clock readings,
      the host's time zone, generated ids, adapter and payment-processor
      replies) is an input of the operation that consumes it. *)

From stdpp Require Import gmap strings list fin_maps pretty.
From Stdlib Require Import ZArith Lia.

Open Scope Z_scope.
Open Scope string_scope.

(** ** JavaScript helpers *)

(** Truthiness of an optional string ([undefined], [null] and the empty
    string are falsy). *)
Definition truthy (s : option string) : bool :=
  match s with
  | Some v => negb (String.eqb v "")
  | None => false
  end.

(** [a || b] on an optional string with a string fallback. *)
Definition orElse (s : option string) (d : string) : string :=
  match s with
  | Some v => if String.eqb v "" then d else v
  | None => d
  end.

(** Prisma leaves a column alone when the update carries [undefined]. *)
Definition assign {A} (new old : option A) : option A :=
  match new with
  | Some v => Some v
  | None => old
  end.

(** The [Json] columns hold flat objects. *)
Inductive JsonValue :=
| JNull
| JString (s : string)
| JNumber (n : Z).

Abbreviation Json := (list (string * JsonValue)).

Definition jsonOfString (s : option string) : JsonValue :=
  match s with
  | Some v => JString v
  | None => JNull
  end.

Definition jsonOfNumber (n : option Z) : JsonValue :=
  match n with
  | Some v => JNumber v
  | None => JNull
  end.

(** ** Enumerations of the schema *)

Module OrderStatus.
Inductive t :=
| PENDING_PAYMENT | PAYMENT_PROCESSING | PAYMENT_COMPLETED | PAYMENT_FAILED
| BLOCKCHAIN_PENDING | BLOCKCHAIN_PROCESSING | BLOCKCHAIN_CONFIRMED
| BLOCKCHAIN_FAILED | COMPLETED | CANCELLED | REFUNDED.

#[global] Instance eq_dec : EqDecision t.
Proof. solve_decision. Defined.

Definition to_string (s : t) : string :=
  match s with
  | PENDING_PAYMENT => "PENDING_PAYMENT"
  | PAYMENT_PROCESSING => "PAYMENT_PROCESSING"
  | PAYMENT_COMPLETED => "PAYMENT_COMPLETED"
  | PAYMENT_FAILED => "PAYMENT_FAILED"
  | BLOCKCHAIN_PENDING => "BLOCKCHAIN_PENDING"
  | BLOCKCHAIN_PROCESSING => "BLOCKCHAIN_PROCESSING"
  | BLOCKCHAIN_CONFIRMED => "BLOCKCHAIN_CONFIRMED"
  | BLOCKCHAIN_FAILED => "BLOCKCHAIN_FAILED"
  | COMPLETED => "COMPLETED"
  | CANCELLED => "CANCELLED"
  | REFUNDED => "REFUNDED"
  end.
End OrderStatus.

Module PaymentStatus.
Inductive t :=
| PENDING | PROCESSING | SUCCEEDED | FAILED | CANCELLED | REFUNDED.

#[global] Instance eq_dec : EqDecision t.
Proof. solve_decision. Defined.
End PaymentStatus.

Module TransactionStatus.
Inductive t :=
| PENDING | SUBMITTED | CONFIRMING | CONFIRMED | FAILED | RETRYING.

#[global] Instance eq_dec : EqDecision t.
Proof. solve_decision. Defined.
End TransactionStatus.

Module PlanStatus.
Inductive t := AVAILABLE | UNAVAILABLE | DEPRECATED.

#[global] Instance eq_dec : EqDecision t.
Proof. solve_decision. Defined.
End PlanStatus.

Module NetworkType.
Inductive t := TESTNET | MAINNET.

#[global] Instance eq_dec : EqDecision t.
Proof. solve_decision. Defined.
End NetworkType.

(** ** Rows

    Timestamps are milliseconds since the epoch.  [createdAt] and
    [updatedAt] are never read by the modelled code and are left out. *)

Module User.
Record t := mk {
  id : string;
  email : string;
  name : option string;
  walletAddress : option string;
  stripeCustomerId : option string;
}.

Definition with_stripeCustomerId (v : option string) (u : t) : t :=
  mk (id u) (email u) (name u) (walletAddress u) v.
End User.

Module Provider.
Record t := mk {
  id : string;
  name : string;
  slug : string;
  network : NetworkType.t;
  chainId : option string;
}.
End Provider.

Module StoragePlan.
Record t := mk {
  id : string;
  providerId : string;
  name : string;
  storageSizeGb : Z;
  storageSizeBytes : Z;
  durationDays : Z;
  priceUsdCents : Z;
  status : PlanStatus.t;
  isActive : bool;
}.
End StoragePlan.

Module Order.
Record t := mk {
  id : string;
  orderNumber : string;
  userId : string;
  providerId : string;
  planId : string;
  storageSizeGb : Z;
  durationDays : Z;
  priceUsdCents : Z;
  storageId : option string;
  storageEndpoint : option string;
  storageMetadata : option Json;
  status : OrderStatus.t;
  statusMessage : option string;
  idempotencyKey : option string;
  paidAt : option Z;
  allocatedAt : option Z;
  expiresAt : option Z;
}.

Definition with_status (v : OrderStatus.t) (o : t) : t :=
  mk (id o) (orderNumber o) (userId o) (providerId o) (planId o)
     (storageSizeGb o) (durationDays o) (priceUsdCents o) (storageId o)
     (storageEndpoint o) (storageMetadata o) v (statusMessage o)
     (idempotencyKey o) (paidAt o) (allocatedAt o) (expiresAt o).

Definition with_statusMessage (v : option string) (o : t) : t :=
  mk (id o) (orderNumber o) (userId o) (providerId o) (planId o)
     (storageSizeGb o) (durationDays o) (priceUsdCents o) (storageId o)
     (storageEndpoint o) (storageMetadata o) (status o)
     (assign v (statusMessage o))
     (idempotencyKey o) (paidAt o) (allocatedAt o) (expiresAt o).

Definition with_storage (sid sep : option string) (smeta : option Json)
    (o : t) : t :=
  mk (id o) (orderNumber o) (userId o) (providerId o) (planId o)
     (storageSizeGb o) (durationDays o) (priceUsdCents o)
     (assign sid (storageId o)) (assign sep (storageEndpoint o))
     (assign smeta (storageMetadata o)) (status o) (statusMessage o)
     (idempotencyKey o) (paidAt o) (allocatedAt o) (expiresAt o).

Definition with_paidAt (v : Z) (o : t) : t :=
  mk (id o) (orderNumber o) (userId o) (providerId o) (planId o)
     (storageSizeGb o) (durationDays o) (priceUsdCents o) (storageId o)
     (storageEndpoint o) (storageMetadata o) (status o) (statusMessage o)
     (idempotencyKey o) (Some v) (allocatedAt o) (expiresAt o).

Definition with_allocation (alloc exp : Z) (o : t) : t :=
  mk (id o) (orderNumber o) (userId o) (providerId o) (planId o)
     (storageSizeGb o) (durationDays o) (priceUsdCents o) (storageId o)
     (storageEndpoint o) (storageMetadata o) (status o) (statusMessage o)
     (idempotencyKey o) (paidAt o) (Some alloc) (Some exp).
End Order.

Module Payment.
Record t := mk {
  id : string;
  orderId : string;
  userId : string;
  stripePaymentIntentId : option string;
  stripeSessionId : option string;
  amountCents : Z;
  currency : string;
  status : PaymentStatus.t;
  statusMessage : option string;
  metadata : Json;
  idempotencyKey : option string;
  processedAt : option Z;
}.

Definition with_status (v : PaymentStatus.t) (p : t) : t :=
  mk (id p) (orderId p) (userId p) (stripePaymentIntentId p)
     (stripeSessionId p) (amountCents p) (currency p) v (statusMessage p)
     (metadata p) (idempotencyKey p) (processedAt p).

Definition with_statusMessage (v : option string) (p : t) : t :=
  mk (id p) (orderId p) (userId p) (stripePaymentIntentId p)
     (stripeSessionId p) (amountCents p) (currency p) (status p)
     (assign v (statusMessage p))
     (metadata p) (idempotencyKey p) (processedAt p).

Definition with_stripePaymentIntentId (v : option string) (p : t) : t :=
  mk (id p) (orderId p) (userId p) v
     (stripeSessionId p) (amountCents p) (currency p) (status p)
     (statusMessage p) (metadata p) (idempotencyKey p) (processedAt p).

Definition with_stripeSessionId (v : string) (p : t) : t :=
  mk (id p) (orderId p) (userId p) (stripePaymentIntentId p)
     (Some v) (amountCents p) (currency p) (status p)
     (statusMessage p) (metadata p) (idempotencyKey p) (processedAt p).

Definition with_metadata (v : Json) (p : t) : t :=
  mk (id p) (orderId p) (userId p) (stripePaymentIntentId p)
     (stripeSessionId p) (amountCents p) (currency p) (status p)
     (statusMessage p) v (idempotencyKey p) (processedAt p).

Definition with_processedAt (v : Z) (p : t) : t :=
  mk (id p) (orderId p) (userId p) (stripePaymentIntentId p)
     (stripeSessionId p) (amountCents p) (currency p) (status p)
     (statusMessage p) (metadata p) (idempotencyKey p) (Some v).
End Payment.

Module BlockchainTransaction.
Record t := mk {
  id : string;
  orderId : string;
  providerId : string;
  txHash : option string;
  network : NetworkType.t;
  chainId : option string;
  fromAddress : option string;
  toAddress : option string;
  gasLimit : option string;
  gasPrice : option string;
  gasUsed : option string;
  value : option string;
  data : option string;
  nonce : option Z;
  status : TransactionStatus.t;
  statusMessage : option string;
  confirmations : Z;
  retryCount : Z;
  maxRetries : Z;
  lastRetryAt : option Z;
  blockNumber : option Z;
  blockHash : option string;
  rawResponse : option Json;
  submittedAt : option Z;
  confirmedAt : option Z;
}.

(** Column defaults of the schema for the fields [create] leaves out. *)
Definition create_row (i oid pid : string) (net : NetworkType.t)
    (cid : option string) (st : TransactionStatus.t) : t :=
  mk i oid pid None net cid None None None None None None None None
     st None 0 0 3 None None None None None None.

Definition with_status (v : TransactionStatus.t) (x : t) : t :=
  mk (id x) (orderId x) (providerId x) (txHash x) (network x) (chainId x)
     (fromAddress x) (toAddress x) (gasLimit x) (gasPrice x) (gasUsed x)
     (value x) (data x) (nonce x) v (statusMessage x) (confirmations x)
     (retryCount x) (maxRetries x) (lastRetryAt x) (blockNumber x)
     (blockHash x) (rawResponse x) (submittedAt x) (confirmedAt x).

Definition with_statusMessage (v : option string) (x : t) : t :=
  mk (id x) (orderId x) (providerId x) (txHash x) (network x) (chainId x)
     (fromAddress x) (toAddress x) (gasLimit x) (gasPrice x) (gasUsed x)
     (value x) (data x) (nonce x) (status x)
     (assign v (statusMessage x)) (confirmations x)
     (retryCount x) (maxRetries x) (lastRetryAt x) (blockNumber x)
     (blockHash x) (rawResponse x) (submittedAt x) (confirmedAt x).

(** The columns written when a submission succeeded. *)
Definition with_submission (h : option string)
    (from to glimit gprice val dat : option string) (non : option Z)
    (raw : option Json) (at_ : Z) (x : t) : t :=
  mk (id x) (orderId x) (providerId x) (assign h (txHash x)) (network x)
     (chainId x)
     (assign from (fromAddress x)) (assign to (toAddress x))
     (assign glimit (gasLimit x)) (assign gprice (gasPrice x)) (gasUsed x)
     (assign val (value x)) (assign dat (data x)) (assign non (nonce x))
     (status x) (statusMessage x) (confirmations x)
     (retryCount x) (maxRetries x) (lastRetryAt x) (blockNumber x)
     (blockHash x) (assign raw (rawResponse x)) (Some at_) (confirmedAt x).

(** The columns written from a status probe. *)
Definition with_probe (confs : Z) (bn : option Z) (bh gused : option string)
    (confAt : option Z) (x : t) : t :=
  mk (id x) (orderId x) (providerId x) (txHash x) (network x) (chainId x)
     (fromAddress x) (toAddress x) (gasLimit x) (gasPrice x)
     (assign gused (gasUsed x))
     (value x) (data x) (nonce x) (status x) (statusMessage x) confs
     (retryCount x) (maxRetries x) (lastRetryAt x)
     (assign bn (blockNumber x)) (assign bh (blockHash x))
     (rawResponse x) (submittedAt x) (assign confAt (confirmedAt x)).

Definition with_retry (at_ : Z) (x : t) : t :=
  mk (id x) (orderId x) (providerId x) (txHash x) (network x) (chainId x)
     (fromAddress x) (toAddress x) (gasLimit x) (gasPrice x) (gasUsed x)
     (value x) (data x) (nonce x) (status x) (statusMessage x)
     (confirmations x) (retryCount x + 1) (maxRetries x) (Some at_)
     (blockNumber x) (blockHash x) (rawResponse x) (submittedAt x)
     (confirmedAt x).
End BlockchainTransaction.

(** ** The store and the world around it *)

Record Store := mkStore {
  users : gmap string User.t;
  providers : gmap string Provider.t;
  storagePlans : gmap string StoragePlan.t;
  orders : gmap string Order.t;
  payments : gmap string Payment.t;
  blockchainTransactions : gmap string BlockchainTransaction.t;
}.

Definition emptyStore : Store := mkStore ∅ ∅ ∅ ∅ ∅ ∅.

(** Parameters handed to an adapter's [executeStorageTransaction]. *)
Record IStorageTransactionParams := mkParams {
  par_orderId : string;
  par_planId : string;
  par_storageSizeBytes : Z;
  par_durationDays : Z;
  par_userWalletAddress : option string;
}.

(** What is observable outside the store: which adapter calls were made,
    and which detached computations were started ([processOrder] from the
    webhook, [pollTransactionConfirmation] from the orchestrator). *)
Record World := mkWorld {
  db : Store;
  adapterCalls : list (string * IStorageTransactionParams);
  statusProbes : list (string * string);
  triggered : list string;
  pollers : list (string * string);
}.

Definition initialWorld (s : Store) : World := mkWorld s [] [] [] [].

Definition with_db (s : Store) (w : World) : World :=
  mkWorld s (adapterCalls w) (statusProbes w) (triggered w) (pollers w).

(** ** Exceptions and the computation monad *)

Inductive Exn :=
| PrismaNotFound (model : string)
| PrismaUniqueConstraint (target : string)
| PrismaValidationError (argument : string)
| TypeError (what : string)
| ProviderError (slug message : string)
| ValidationError (message : string)
| NotFoundError (resource identifier : string)
| StripeError (message : string)
| StripeSignatureVerificationError (message : string)
| JsError (message : string)
| ThrownValue (shown : string).

(** [error instanceof Error] *)
Definition instanceofError (e : Exn) : bool :=
  match e with
  | ThrownValue _ => false
  | _ => true
  end.

(** [error instanceof Stripe.errors.StripeError]; the signature error is
    a subclass. *)
Definition instanceofStripeError (e : Exn) : bool :=
  match e with
  | StripeError _ | StripeSignatureVerificationError _ => true
  | _ => false
  end.

Definition instanceofStripeSignatureVerificationError (e : Exn) : bool :=
  match e with
  | StripeSignatureVerificationError _ => true
  | _ => false
  end.

(** [error.message]; for the errors of the store client, whose texts
    are longer and name the failing call, a short text that names the
    cause. *)
Definition message (e : Exn) : string :=
  match e with
  | PrismaNotFound model =>
      "An operation failed because it depends on one or more records that were required but not found: " ++ model
  | PrismaUniqueConstraint target =>
      "Unique constraint failed on the fields: " ++ target
  | PrismaValidationError argument =>
      "Invalid value for argument `" ++ argument
        ++ "`: Provided Date object is invalid. Expected Date."
  | TypeError what => "Cannot read properties of null: " ++ what
  | ProviderError slug m => "[" ++ slug ++ "] " ++ m
  | ValidationError m => m
  | NotFoundError resource identifier =>
      resource ++ " with identifier '" ++ identifier ++ "' not found"
  | StripeError m => m
  | StripeSignatureVerificationError m => m
  | JsError m => m
  | ThrownValue _ => ""
  end.

(** [error instanceof Error ? error : new Error(String(error))] *)
Definition toError (e : Exn) : Exn :=
  match e with
  | ThrownValue shown => JsError shown
  | _ => e
  end.

Inductive Outcome (A : Type) :=
| Returned (a : A)
| Thrown (e : Exn).
Arguments Returned {A} a.
Arguments Thrown {A} e.

Definition M (A : Type) : Type := World → Outcome A * World.

Definition ret {A} (a : A) : M A := λ w, (Returned a, w).

Definition throw {A} (e : Exn) : M A := λ w, (Thrown e, w).

Definition bind {A B} (m : M A) (k : A → M B) : M B :=
  λ w, match m w with
       | (Returned a, w') => k a w'
       | (Thrown e, w') => (Thrown e, w')
       end.

(** [try { m } catch (error) { h error }] *)
Definition tryCatch {A} (m : M A) (h : Exn → M A) : M A :=
  λ w, match m w with
       | (Returned a, w') => (Returned a, w')
       | (Thrown e, w') => h e w'
       end.

(** [withTransaction]: the store changes of [m] are kept only when [m]
    returns. *)
Definition withTransaction {A} (m : M A) : M A :=
  λ w, match m w with
       | (Returned a, w') => (Returned a, w')
       | (Thrown e, w') => (Thrown e, with_db (db w) w')
       end.

Notation "'let*' x ':=' m 'in' k" := (bind m (λ x, k))
  (at level 10, x name, m at level 100, k at level 200).

(** Reading a relation that the query included; a dangling reference
    surfaces as the property access on [null] failing. *)
Definition deref {A} (what : string) (o : option A) : M A :=
  match o with
  | Some a => ret a
  | None => throw (TypeError what)
  end.

(** ** Store primitives (the Prisma client) *)

Definition set_users (m : gmap string User.t) (s : Store) : Store :=
  mkStore m (providers s) (storagePlans s) (orders s) (payments s)
          (blockchainTransactions s).

Definition set_orders (m : gmap string Order.t) (s : Store) : Store :=
  mkStore (users s) (providers s) (storagePlans s) m (payments s)
          (blockchainTransactions s).

Definition set_payments (m : gmap string Payment.t) (s : Store) : Store :=
  mkStore (users s) (providers s) (storagePlans s) (orders s) m
          (blockchainTransactions s).

Definition set_blockchainTransactions
    (m : gmap string BlockchainTransaction.t) (s : Store) : Store :=
  mkStore (users s) (providers s) (storagePlans s) (orders s) (payments s) m.

(** A unique index on an optional column: is the value [v] already held
    by a row other than [self]?  ([NULL]s never collide.) *)
Definition taken {A} (key : A → option string) (self : string)
    (v : option string) (m : gmap string A) : bool :=
  match v with
  | None => false
  | Some k =>
      bool_decide (map_Exists (λ i row, i ≠ self ∧ key row = Some k) m)
  end.

(** The row selected by a unique column. *)
Definition findBy {A} (key : A → option string) (k : string)
    (m : gmap string A) : option A :=
  snd <$> list_find (λ row, key row = Some k) (map_to_list m).*2.

(** The rows of a one-to-many relation. *)
Definition related {A} (fk : A → string) (k : string)
    (m : gmap string A) : list A :=
  filter (λ row, fk row = k) (map_to_list m).*2.

Module prisma.

Definition get {A} (f : Store → A) : M A := λ w, (Returned (f (db w)), w).

Definition put (f : Store → Store) : M unit :=
  λ w, (Returned tt, with_db (f (db w)) w).

(** A [Date] among the arguments of a query.  The client validates its
    arguments before it sends anything to the store, and rejects an
    Invalid Date ([None]). *)
Definition dateArgument (argument : string) (date : option Z) : M Z :=
  match date with
  | Some time => ret time
  | None => throw (PrismaValidationError argument)
  end.

Module user.
Definition findUnique (i : string) : M (option User.t) :=
  get (λ s, users s !! i).

Definition update (i : string) (f : User.t → User.t) : M User.t :=
  let* row := get (λ s, users s !! i) in
  match row with
  | None => throw (PrismaNotFound "User")
  | Some u =>
      let* clash := get (λ s, taken User.stripeCustomerId i
                                 (User.stripeCustomerId (f u)) (users s)) in
      if clash : bool then throw (PrismaUniqueConstraint "stripe_customer_id")
      else let* _ := put (λ s, set_users (<[i := f u]> (users s)) s) in
           ret (f u)
  end.
End user.

Module storagePlan.
Definition findUnique (i : string) : M (option StoragePlan.t) :=
  get (λ s, storagePlans s !! i).
End storagePlan.

Module provider.
Definition findUnique (i : string) : M (option Provider.t) :=
  get (λ s, providers s !! i).
End provider.

Module order.
Definition findUnique (i : string) : M (option Order.t) :=
  get (λ s, orders s !! i).

Definition findUniqueByIdempotencyKey (k : string) : M (option Order.t) :=
  get (λ s, findBy Order.idempotencyKey k (orders s)).

Definition create (o : Order.t) : M Order.t :=
  let* s := get id in
  if bool_decide (is_Some (orders s !! Order.id o))
  then throw (PrismaUniqueConstraint "id")
  else if bool_decide (map_Exists
            (λ _ row, Order.orderNumber row = Order.orderNumber o)
            (orders s))
  then throw (PrismaUniqueConstraint "order_number")
  else if taken Order.idempotencyKey (Order.id o) (Order.idempotencyKey o)
                (orders s)
  then throw (PrismaUniqueConstraint "idempotency_key")
  else let* _ := put (set_orders (<[Order.id o := o]> (orders s))) in
       ret o.

(** No modelled update writes a uniquely indexed column of an order. *)
Definition update (i : string) (f : Order.t → Order.t) : M Order.t :=
  let* row := get (λ s, orders s !! i) in
  match row with
  | None => throw (PrismaNotFound "Order")
  | Some o =>
      let* _ := put (λ s, set_orders (<[i := f o]> (orders s)) s) in
      ret (f o)
  end.
End order.

Module payment.
Definition findUnique (i : string) : M (option Payment.t) :=
  get (λ s, payments s !! i).

Definition findUniqueByStripePaymentIntentId (k : string)
  : M (option Payment.t) :=
  get (λ s, findBy Payment.stripePaymentIntentId k (payments s)).

Definition clashes (self : string) (p : Payment.t)
    (m : gmap string Payment.t) : option string :=
  if taken Payment.stripePaymentIntentId self
           (Payment.stripePaymentIntentId p) m
  then Some "stripe_payment_intent_id"
  else if taken Payment.stripeSessionId self (Payment.stripeSessionId p) m
  then Some "stripe_session_id"
  else if taken Payment.idempotencyKey self (Payment.idempotencyKey p) m
  then Some "idempotency_key"
  else None.

Definition create (p : Payment.t) : M Payment.t :=
  let* s := get id in
  if bool_decide (is_Some (payments s !! Payment.id p))
  then throw (PrismaUniqueConstraint "id")
  else match clashes (Payment.id p) p (payments s) with
       | Some target => throw (PrismaUniqueConstraint target)
       | None =>
           let* _ := put (set_payments (<[Payment.id p := p]> (payments s))) in
           ret p
       end.

Definition update (i : string) (f : Payment.t → Payment.t) : M Payment.t :=
  let* s := get id in
  match payments s !! i with
  | None => throw (PrismaNotFound "Payment")
  | Some p =>
      match clashes i (f p) (payments s) with
      | Some target => throw (PrismaUniqueConstraint target)
      | None =>
          let* _ := put (set_payments (<[i := f p]> (payments s))) in
          ret (f p)
      end
  end.
End payment.

Module blockchainTransaction.
Definition findUnique (i : string) : M (option BlockchainTransaction.t) :=
  get (λ s, blockchainTransactions s !! i).

(** The table has no unique index besides its primary key. *)
Definition create (x : BlockchainTransaction.t)
  : M BlockchainTransaction.t :=
  let* s := get id in
  if bool_decide (is_Some (blockchainTransactions s
                             !! BlockchainTransaction.id x))
  then throw (PrismaUniqueConstraint "id")
  else let* _ := put (set_blockchainTransactions
                        (<[BlockchainTransaction.id x := x]>
                           (blockchainTransactions s))) in
       ret x.

Definition update (i : string)
    (f : BlockchainTransaction.t → BlockchainTransaction.t)
  : M BlockchainTransaction.t :=
  let* row := get (λ s, blockchainTransactions s !! i) in
  match row with
  | None => throw (PrismaNotFound "BlockchainTransaction")
  | Some x =>
      let* _ := put (λ s, set_blockchainTransactions
                            (<[i := f x]> (blockchainTransactions s)) s) in
      ret (f x)
  end.
End blockchainTransaction.

End prisma.

(** ** Service results *)

Inductive ServiceResult (A : Type) :=
| successResult (data : A)
| errorResult (code : string) (msg : string).
Arguments successResult {A} data.
Arguments errorResult {A} code msg.

(** ** Provider adapters and their registry *)

Module ITransactionResult.
Record t := mk {
  success : bool;
  txHash : option string;
  status : TransactionStatus.t;
  confirmations : Z;
  error : option string;
  fromAddress : option string;
  toAddress : option string;
  gasLimit : option string;
  gasPrice : option string;
  value : option string;
  data : option string;
  nonce : option Z;
  storageId : option string;
  storageEndpoint : option string;
  storageMetadata : option Json;
  rawResponse : option Json;
}.
End ITransactionResult.

Module ITransactionStatusResult.
Record t := mk {
  status : TransactionStatus.t;
  confirmations : Z;
  blockNumber : option Z;
  blockHash : option string;
  gasUsed : option string;
  error : option string;
}.
End ITransactionStatusResult.

(** An adapter as the orchestrator sees it during one operation: its
    replies (or the exception it raises) as functions of the request. *)
Record IStorageProviderAdapter := mkAdapter {
  slug : string;
  executeStorageTransaction :
    IStorageTransactionParams → Outcome ITransactionResult.t;
  checkTransactionStatus : string → Outcome ITransactionStatusResult.t;
}.

Abbreviation Registry := (gmap string IStorageProviderAdapter).

(** [ProviderRegistry.getAdapter] *)
Definition getAdapter (registry : Registry) (s : string)
  : M IStorageProviderAdapter :=
  match registry !! s with
  | Some adapter => ret adapter
  | None => throw (ProviderError s ("Provider adapter '" ++ s ++ "' not found"))
  end.

(** Calling out to an adapter is recorded in the world. *)
Definition invokeExecute (a : IStorageProviderAdapter)
    (p : IStorageTransactionParams) : M ITransactionResult.t :=
  λ w, (executeStorageTransaction a p,
        mkWorld (db w) (adapterCalls w ++ [(slug a, p)]) (statusProbes w)
                (triggered w) (pollers w)).

Definition invokeCheck (a : IStorageProviderAdapter) (h : string)
  : M ITransactionStatusResult.t :=
  λ w, (checkTransactionStatus a h,
        mkWorld (db w) (adapterCalls w) (statusProbes w ++ [(slug a, h)])
                (triggered w) (pollers w)).

(** Detached work: the caller only starts it. *)
Definition startPoller (txId providerSlug : string) : M unit :=
  λ w, (Returned tt,
        mkWorld (db w) (adapterCalls w) (statusProbes w) (triggered w)
                (pollers w ++ [(txId, providerSlug)])).

Definition startProcessOrder (orderId : string) : M unit :=
  λ w, (Returned tt,
        mkWorld (db w) (adapterCalls w) (statusProbes w)
                (triggered w ++ [orderId]) (pollers w)).

(** ** Date helpers *)

Definition msPerDay : Z := 86400000.

(** The time values of a [Date] reach [maxTime] ms to either side of
    the epoch; a [Date] set beyond them is an Invalid Date. *)
Definition maxTime : Z := 8640000000000000.

Definition TimeClip (time : Z) : option Z :=
  if bool_decide (Z.abs time <= maxTime) then Some time else None.

(** The time zone of the host: [LocalTZA zone t isUTC] is the offset of
    local time from UTC in ms, at the UTC time [t] when [isUTC] and at
    the local time [t] otherwise. *)
Record TimeZone := mkTimeZone {
  LocalTZA : Z → bool → Z;
}.

Definition LocalTime (zone : TimeZone) (t : Z) : Z := t + LocalTZA zone t true.

Definition UTC (zone : TimeZone) (t : Z) : Z := t - LocalTZA zone t false.

(** A host that keeps UTC. *)
Definition utc : TimeZone := mkTimeZone (λ _ _, 0).

(** [addDays]: a copy of [date] moved by [setDate(getDate() + days)].
    [setDate] works on the local calendar: it moves the local time by
    [days] whole days and converts the result back; [None] is the
    Invalid Date it leaves when the result is out of range. *)
Definition addDays (zone : TimeZone) (date days : Z) : option Z :=
  TimeClip (UTC zone (LocalTime zone date + days * msPerDay)).

(** ** BlockchainService *)

Module BlockchainService.

Import BlockchainTransaction.

(** What one run of [processOrder] takes from outside: the registry as
    it stands, the id the store generates for the new row, and the
    clock reading used for [submittedAt]. *)
Record Env := mkEnv {
  registry : Registry;
  newTxId : string;
  now : Z;
}.

Definition isLive (x : BlockchainTransaction.t) : Prop :=
  status x ≠ TransactionStatus.FAILED.

(** The [withTransaction] block of the failure branch of
    [processOrder]: the transaction row and the order are marked failed
    in one store transaction. *)
Definition failSubmission (txId orderId : string)
    (result : ITransactionResult.t) : M Order.t :=
  withTransaction
    (let* _ := prisma.blockchainTransaction.update txId
        (λ x, with_statusMessage
                (Some (orElse (ITransactionResult.error result)
                              "Transaction failed"))
                (with_status TransactionStatus.FAILED x)) in
     prisma.order.update orderId
        (λ o, Order.with_statusMessage
                (Some (orElse (ITransactionResult.error result)
                              "Blockchain transaction failed"))
                (Order.with_status OrderStatus.BLOCKCHAIN_FAILED o))).

Definition processOrder (env : Env) (orderId : string)
  : M (ServiceResult string) :=
  tryCatch
    (let* found := prisma.order.findUnique orderId in
     let* provider_ := prisma.get (λ s, o ← found; providers s !! Order.providerId o) in
     let* plan_ := prisma.get (λ s, o ← found; storagePlans s !! Order.planId o) in
     let* user_ := prisma.get (λ s, o ← found; users s !! Order.userId o) in
     let* transactions := prisma.get (λ s, related BlockchainTransaction.orderId orderId
                                             (blockchainTransactions s)) in
     match found with
     | None => ret (errorResult "ORDER_NOT_FOUND" "Order not found")
     | Some order =>
       if bool_decide (Order.status order ≠ OrderStatus.PAYMENT_COMPLETED)
       then ret (errorResult "INVALID_ORDER_STATUS"
                   ("Order status is "
                      ++ OrderStatus.to_string (Order.status order)
                      ++ ", expected PAYMENT_COMPLETED"))
       else
       match snd <$> list_find isLive transactions with
       | Some existingTx => ret (successResult (id existingTx))
       | None =>
         let* _ := prisma.order.update orderId
                     (Order.with_status OrderStatus.BLOCKCHAIN_PENDING) in
         let* provider := deref "provider" provider_ in
         let* adapter := getAdapter (registry env) (Provider.slug provider) in
         let* plan := deref "plan" plan_ in
         let* user := deref "user" user_ in
         let txParams :=
           mkParams (Order.id order) (StoragePlan.id plan)
                    (StoragePlan.storageSizeBytes plan)
                    (Order.durationDays order)
                    (if truthy (User.walletAddress user)
                     then User.walletAddress user else None) in
         let* txRecord := prisma.blockchainTransaction.create
                     (create_row (newTxId env) (Order.id order)
                        (Order.providerId order) (Provider.network provider)
                        (Provider.chainId provider)
                        TransactionStatus.PENDING) in
         let* _ := prisma.order.update orderId
                     (Order.with_status OrderStatus.BLOCKCHAIN_PROCESSING) in
         let* result := invokeExecute adapter txParams in
         if ITransactionResult.success result
            && truthy (ITransactionResult.txHash result)
         then
           let* _ := prisma.blockchainTransaction.update (id txRecord)
               (λ x, with_submission
                       (ITransactionResult.txHash result)
                       (ITransactionResult.fromAddress result)
                       (ITransactionResult.toAddress result)
                       (ITransactionResult.gasLimit result)
                       (ITransactionResult.gasPrice result)
                       (ITransactionResult.value result)
                       (ITransactionResult.data result)
                       (ITransactionResult.nonce result)
                       (ITransactionResult.rawResponse result)
                       (now env)
                       (with_status (ITransactionResult.status result) x)) in
           let* _ := prisma.order.update orderId
               (λ o, Order.with_storage
                       (ITransactionResult.storageId result)
                       (ITransactionResult.storageEndpoint result)
                       (ITransactionResult.storageMetadata result)
                       (Order.with_status OrderStatus.BLOCKCHAIN_PROCESSING o)) in
           let* _ := startPoller (id txRecord) (slug adapter) in
           ret (successResult (id txRecord))
         else
           let* _ := failSubmission (id txRecord) orderId result in
           ret (errorResult "TRANSACTION_FAILED"
                  (orElse (ITransactionResult.error result)
                          "Transaction failed"))
       end
     end)
    (λ error,
       let* _ := prisma.order.update orderId
           (λ o, Order.with_statusMessage
                   (Some (if instanceofError error then message error
                          else "Unknown error"))
                   (Order.with_status OrderStatus.BLOCKCHAIN_FAILED o)) in
       ret (errorResult "PROCESSING_FAILED"
              (if instanceofError error then message error
               else "Failed to process order"))).

(** The clock readings of one polling iteration, in program order:
    [confirmedAt], the base of [expiresAt], [allocatedAt]; and the time
    zone of the host. *)
Record PollEnv := mkPollEnv {
  pollRegistry : Registry;
  tConfirmed : Z;
  tExpiryBase : Z;
  tAllocated : Z;
  pollZone : TimeZone;
}.

Inductive LoopControl := Stop | Continue.

Definition isConfirmed (s : TransactionStatus.t) : bool :=
  bool_decide (s = TransactionStatus.CONFIRMED).

(** One iteration of the [for] loop of [pollTransactionConfirmation]
    once the row and its order ([include: { order: true }]) are read:
    [Stop] is a [return], [Continue] falls through to the next attempt. *)
Definition pollRow (env : PollEnv) (txId providerSlug : string)
    (found : option BlockchainTransaction.t) (order_ : option Order.t)
  : M LoopControl :=
  match found with
  | None => ret Stop
  | Some tx =>
      if negb (truthy (txHash tx)) then ret Stop
      else if bool_decide (status tx = TransactionStatus.CONFIRMED
                           ∨ status tx = TransactionStatus.FAILED)
      then ret Stop
      else
        let* adapter := getAdapter (pollRegistry env) providerSlug in
        let* st := invokeCheck adapter (default "" (txHash tx)) in
        let* _ := prisma.blockchainTransaction.update txId
            (λ x, with_statusMessage (ITransactionStatusResult.error st)
                    (with_probe
                       (ITransactionStatusResult.confirmations st)
                       (ITransactionStatusResult.blockNumber st)
                       (ITransactionStatusResult.blockHash st)
                       (ITransactionStatusResult.gasUsed st)
                       (if isConfirmed (ITransactionStatusResult.status st)
                        then Some (tConfirmed env) else None)
                       (with_status (ITransactionStatusResult.status st) x))) in
        if isConfirmed (ITransactionStatusResult.status st) then
          let* order := deref "order" order_ in
          let expiresAt := addDays (pollZone env) (tExpiryBase env)
                                   (Order.durationDays order) in
          let* expires := prisma.dateArgument "expiresAt" expiresAt in
          let* _ := prisma.order.update (orderId tx)
              (λ o, Order.with_allocation (tAllocated env) expires
                      (Order.with_status OrderStatus.COMPLETED o)) in
          ret Stop
        else if bool_decide (ITransactionStatusResult.status st
                             = TransactionStatus.FAILED) then
          let* _ := prisma.order.update (orderId tx)
              (λ o, Order.with_statusMessage
                      (Some (orElse (ITransactionStatusResult.error st)
                                    "Transaction failed"))
                      (Order.with_status OrderStatus.BLOCKCHAIN_FAILED o)) in
          ret Stop
        else ret Continue
  end.

(** The body of the loop after the sleep; an exception anywhere in it is
    logged and the loop goes on. *)
Definition pollIteration (env : PollEnv) (txId providerSlug : string)
  : M LoopControl :=
  tryCatch
    (let* found := prisma.blockchainTransaction.findUnique txId in
     let* order_ := prisma.get (λ s, x ← found; orders s !! orderId x) in
     pollRow env txId providerSlug found order_)
    (λ _, ret Continue).

(** The loop itself; [envs attempt] is what the [attempt]-th iteration
    finds outside the store. *)
Fixpoint pollAttempts (remaining attempt : nat) (envs : nat → PollEnv)
    (txId providerSlug : string) : M unit :=
  match remaining with
  | O => ret tt
  | S remaining' =>
      let* control := pollIteration (envs attempt) txId providerSlug in
      match control with
      | Stop => ret tt
      | Continue =>
          pollAttempts remaining' (S attempt) envs txId providerSlug
      end
  end.

Definition maxAttempts : nat := 30.

Definition pollTransactionConfirmation (envs : nat → PollEnv)
    (txId providerSlug : string) : M unit :=
  pollAttempts maxAttempts 0 envs txId providerSlug.

(** [retryTransaction]: [tRetry] is the clock reading stored in
    [lastRetryAt]; [env] is what the nested [processOrder] sees. *)
Definition retryTransaction (tRetry : Z) (env : Env) (txId : string)
  : M (ServiceResult string) :=
  let* found := prisma.blockchainTransaction.findUnique txId in
  match found with
  | None => ret (errorResult "TX_NOT_FOUND" "Transaction not found")
  | Some tx =>
    if bool_decide (status tx ≠ TransactionStatus.FAILED)
    then ret (errorResult "INVALID_STATUS"
                          "Can only retry failed transactions")
    else if bool_decide (retryCount tx >= maxRetries tx)
    then ret (errorResult "MAX_RETRIES" "Maximum retry attempts reached")
    else
      let* _ := prisma.blockchainTransaction.update txId
          (λ x, with_status TransactionStatus.RETRYING
                  (with_retry tRetry x)) in
      processOrder env (orderId tx)
  end.

(** [getPendingTransactions] *)
Definition getPendingTransactions : M (list BlockchainTransaction.t) :=
  prisma.get (λ s,
    filter (λ x, status x = TransactionStatus.SUBMITTED
                 ∨ status x = TransactionStatus.CONFIRMING)
           (map_to_list (blockchainTransactions s)).*2).

(** The clock readings of one sweep step, in program order:
    [confirmedAt], [allocatedAt], the base of [expiresAt]; and the time
    zone of the host. *)
Record SweepEnv := mkSweepEnv {
  sweepRegistry : Registry;
  sConfirmed : Z;
  sAllocated : Z;
  sExpiryBase : Z;
  sweepZone : TimeZone;
}.

(** The body of the [for ... of] loop of [processPendingConfirmations];
    [tx] and [order_] are the rows as the initial query returned them. *)
Definition sweepOne (env : SweepEnv) (tx : BlockchainTransaction.t)
    (order_ : option Order.t) (provider_ : option Provider.t) : M unit :=
  if negb (truthy (txHash tx)) then ret tt
  else
    tryCatch
      (let* provider := deref "provider" provider_ in
       let* adapter := getAdapter (sweepRegistry env) (Provider.slug provider) in
       let* st := invokeCheck adapter (default "" (txHash tx)) in
       let* _ := prisma.blockchainTransaction.update (id tx)
           (λ x, with_probe
                   (ITransactionStatusResult.confirmations st)
                   (ITransactionStatusResult.blockNumber st)
                   (ITransactionStatusResult.blockHash st)
                   (ITransactionStatusResult.gasUsed st)
                   (if isConfirmed (ITransactionStatusResult.status st)
                    then Some (sConfirmed env) else None)
                   (with_status (ITransactionStatusResult.status st) x)) in
       if isConfirmed (ITransactionStatusResult.status st) then
         let* order := deref "order" order_ in
         let* expires := prisma.dateArgument "expiresAt"
             (addDays (sweepZone env) (sExpiryBase env)
                      (Order.durationDays order)) in
         let* _ := prisma.order.update (orderId tx)
             (λ o, Order.with_allocation (sAllocated env) expires
                     (Order.with_status OrderStatus.COMPLETED o)) in
         ret tt
       else if bool_decide (ITransactionStatusResult.status st
                            = TransactionStatus.FAILED) then
         let* _ := prisma.order.update (orderId tx)
             (λ o, Order.with_statusMessage
                     (ITransactionStatusResult.error st)
                     (Order.with_status OrderStatus.BLOCKCHAIN_FAILED o)) in
         ret tt
       else ret tt)
      (λ _, ret tt).

Fixpoint sweepAll (k : nat) (envs : nat → SweepEnv)
    (rows : list (BlockchainTransaction.t * option Order.t
                  * option Provider.t)) : M unit :=
  match rows with
  | [] => ret tt
  | (tx, order_, provider_) :: rest =>
      let* _ := sweepOne (envs k) tx order_ provider_ in
      sweepAll (S k) envs rest
  end.

Definition processPendingConfirmations (envs : nat → SweepEnv) : M unit :=
  let* pendingTxs := getPendingTransactions in
  let* rows := prisma.get (λ s,
      (λ x, (x, orders s !! orderId x, providers s !! providerId x))
        <$> pendingTxs) in
  sweepAll 0 envs rows.

(** The parameters [processOrder] hands to the adapter. *)
Definition txParamsOf (order : Order.t) (plan : StoragePlan.t) (user : User.t)
  : IStorageTransactionParams :=
  mkParams (Order.id order) (StoragePlan.id plan)
           (StoragePlan.storageSizeBytes plan) (Order.durationDays order)
           (if truthy (User.walletAddress user)
            then User.walletAddress user else None).

(** The row [processOrder] inserts before it calls the adapter. *)
Definition pendingRow (env : Env) (order : Order.t) (provider : Provider.t)
  : BlockchainTransaction.t :=
  create_row (newTxId env) (Order.id order) (Order.providerId order)
             (Provider.network provider) (Provider.chainId provider)
             TransactionStatus.PENDING.

(** The situation in which [processOrder] goes past its guards: the
    order is paid, has no live transaction, and its relations resolve. *)
Record Dispatchable (orderId : string) (w : World)
    (order : Order.t) (provider : Provider.t) (plan : StoragePlan.t)
    (user : User.t) : Prop := {
  dispatch_order : orders (db w) !! orderId = Some order;
  dispatch_paid : Order.status order = OrderStatus.PAYMENT_COMPLETED;
  dispatch_no_live :
    ∀ k tx, blockchainTransactions (db w) !! k = Some tx →
            BlockchainTransaction.orderId tx = orderId → ¬ isLive tx;
  dispatch_provider :
    providers (db w) !! Order.providerId order = Some provider;
  dispatch_plan : storagePlans (db w) !! Order.planId order = Some plan;
  dispatch_user : users (db w) !! Order.userId order = Some user;
}.

End BlockchainService.

(** ** The payment processor (Stripe) as seen by the service *)

Module Stripe.
Module Session.
Record t := mk {
  id : string;
  url : option string;
  metadata_orderId : option string;
  metadata_paymentId : option string;
  payment_intent : option string;
  customer : option string;
  amount_total : option Z;
}.
End Session.

Module PaymentIntent.
Record t := mk {
  id : string;
  last_payment_error_message : option string;
}.
End PaymentIntent.

(** A verified event: its [type] and the object it carries. *)
Inductive Event :=
| checkout_session_completed (s : Session.t)
| checkout_session_expired (s : Session.t)
| payment_intent_succeeded (p : PaymentIntent.t)
| payment_intent_payment_failed (p : PaymentIntent.t)
| other (type : string).

Definition type (e : Event) : string :=
  match e with
  | checkout_session_completed _ => "checkout.session.completed"
  | checkout_session_expired _ => "checkout.session.expired"
  | payment_intent_succeeded _ => "payment_intent.succeeded"
  | payment_intent_payment_failed _ => "payment_intent.payment_failed"
  | other t => t
  end.
End Stripe.

(** ** PaymentService *)

Module PaymentService.

Record ICreateCheckoutParams := mkCheckoutParams {
  userId : string;
  planId : string;
  successUrl : string;
  cancelUrl : string;
  idempotencyKey : option string;
}.

Record ICheckoutResult := mkCheckoutResult {
  sessionId : string;
  sessionUrl : string;
  orderId : string;
  paymentId : string;
}.

(** What one checkout takes from outside: the processor's replies and
    the generated identifiers. *)
Record CheckoutEnv := mkCheckoutEnv {
  sessions_retrieve : string → Outcome Stripe.Session.t;
  customers_create : User.t → Outcome string;
  sessions_create : string → string → Outcome Stripe.Session.t;
  newOrderId : string;
  newPaymentId : string;
  generatedOrderNumber : string;
  generatedOrderKey : string;
  generatedPaymentKey : string;
}.

Definition callStripe {A} (reply : Outcome A) : M A := λ w, (reply, w).

(** The idempotency check that opens [createCheckoutSession]:
    [Some r] is the early [return r], [None] falls through. *)
Definition checkIdempotency (env : CheckoutEnv) (key : option string)
  : M (option (ServiceResult ICheckoutResult)) :=
  if truthy key then
    let* existingOrder :=
      prisma.order.findUniqueByIdempotencyKey (default "" key) in
    match existingOrder with
    | None => ret None
    | Some existing =>
        let* payments_ := prisma.get (λ s,
            related Payment.orderId (Order.id existing) (payments s)) in
        match head payments_ with
        | None => ret None
        | Some payment =>
            if truthy (Payment.stripeSessionId payment) then
              let* session := callStripe
                  (sessions_retrieve env
                     (default "" (Payment.stripeSessionId payment))) in
              ret (Some (successResult
                     (mkCheckoutResult (Stripe.Session.id session)
                        (orElse (Stripe.Session.url session) "")
                        (Order.id existing) (Payment.id payment))))
            else ret None
        end
    end
  else ret None.

Definition createCheckoutSession (env : CheckoutEnv)
    (params : ICreateCheckoutParams)
  : M (ServiceResult ICheckoutResult) :=
  tryCatch
    (let* early := checkIdempotency env (idempotencyKey params) in
     match early with
     | Some result => ret result
     | None =>
       let* plan_ := prisma.storagePlan.findUnique (planId params) in
       let* planProvider := prisma.get (λ s,
           p ← plan_; providers s !! StoragePlan.providerId p) in
       match plan_ with
       | None => ret (errorResult "PLAN_NOT_FOUND" "Storage plan not found")
       | Some plan =>
         if bool_decide (StoragePlan.status plan ≠ PlanStatus.AVAILABLE)
            || negb (StoragePlan.isActive plan)
         then ret (errorResult "PLAN_UNAVAILABLE"
                     "This storage plan is no longer available")
         else
         let* user_ := prisma.user.findUnique (userId params) in
         match user_ with
         | None => ret (errorResult "USER_NOT_FOUND" "User not found")
         | Some user =>
           let* stripeCustomerId :=
             if truthy (User.stripeCustomerId user)
             then ret (default "" (User.stripeCustomerId user))
             else
               let* customerId := callStripe (customers_create env user) in
               let* _ := prisma.user.update (User.id user)
                   (User.with_stripeCustomerId (Some customerId)) in
               ret customerId in
           let* result := withTransaction
               (let* provider := deref "provider" planProvider in
                let* order := prisma.order.create
                    (Order.mk (newOrderId env) (generatedOrderNumber env)
                       (User.id user) (Provider.id provider)
                       (StoragePlan.id plan)
                       (StoragePlan.storageSizeGb plan)
                       (StoragePlan.durationDays plan)
                       (StoragePlan.priceUsdCents plan)
                       None None None OrderStatus.PENDING_PAYMENT None
                       (Some (orElse (idempotencyKey params)
                                     (generatedOrderKey env)))
                       None None None) in
                let* payment := prisma.payment.create
                    (Payment.mk (newPaymentId env) (Order.id order)
                       (User.id user) None None
                       (StoragePlan.priceUsdCents plan) "usd"
                       PaymentStatus.PENDING None []
                       (Some (generatedPaymentKey env)) None) in
                ret (order, payment)) in
           let* session := callStripe
               (sessions_create env (Order.id (fst result))
                                    (Payment.id (snd result))) in
           let* _ := prisma.payment.update (Payment.id (snd result))
               (Payment.with_stripeSessionId (Stripe.Session.id session)) in
           ret (successResult
                  (mkCheckoutResult (Stripe.Session.id session)
                     (orElse (Stripe.Session.url session) "")
                     (Order.id (fst result)) (Payment.id (snd result))))
         end
       end
     end)
    (λ error,
       if instanceofStripeError error
       then ret (errorResult "STRIPE_ERROR" (message error))
       else ret (errorResult "CHECKOUT_FAILED"
                   (if instanceofError error then message error
                    else "Failed to create checkout session"))).

(** The clock readings of one webhook delivery, in program order. *)
Record WebhookEnv := mkWebhookEnv {
  constructEvent : string → string → Outcome Stripe.Event;
  tProcessed : Z;
  tPaid : Z;
}.

(** [triggerBlockchainTransaction(orderId).catch(...)]: started, not
    awaited. *)
Definition triggerBlockchainTransaction (orderId : string) : M unit :=
  startProcessOrder orderId.

(** The [data] of the two updates of [handleCheckoutCompleted]. *)
Definition succeededData (env : WebhookEnv) (session : Stripe.Session.t)
    (p : Payment.t) : Payment.t :=
  Payment.with_metadata
    [("sessionId", JString (Stripe.Session.id session));
     ("customerId", jsonOfString (Stripe.Session.customer session));
     ("amountTotal", jsonOfNumber (Stripe.Session.amount_total session))]
    (Payment.with_processedAt (tProcessed env)
       (Payment.with_stripePaymentIntentId
          (Stripe.Session.payment_intent session)
          (Payment.with_status PaymentStatus.SUCCEEDED p))).

Definition paidData (env : WebhookEnv) (o : Order.t) : Order.t :=
  Order.with_paidAt (tPaid env)
    (Order.with_status OrderStatus.PAYMENT_COMPLETED o).

Definition handleCheckoutCompleted (env : WebhookEnv)
    (session : Stripe.Session.t) : M unit :=
  if negb (truthy (Stripe.Session.metadata_orderId session))
     || negb (truthy (Stripe.Session.metadata_paymentId session))
  then ret tt
  else
    let orderId := default "" (Stripe.Session.metadata_orderId session) in
    let paymentId := default "" (Stripe.Session.metadata_paymentId session) in
    let* existingPayment := prisma.payment.findUnique paymentId in
    if bool_decide (Payment.status <$> existingPayment
                    = Some PaymentStatus.SUCCEEDED)
    then ret tt
    else
      let* _ := withTransaction
          (let* _ := prisma.payment.update paymentId
                       (succeededData env session) in
           prisma.order.update orderId (paidData env)) in
      triggerBlockchainTransaction orderId.

(** The world after the first [n] deliveries of the same
    [checkout.session.completed] event, the [k]-th one handled under
    [envs k]. *)
Fixpoint deliveries (envs : nat → WebhookEnv) (n : nat)
    (session : Stripe.Session.t) (w : World) : World :=
  match n with
  | O => w
  | S k => snd (handleCheckoutCompleted (envs k) session
                  (deliveries envs k session w))
  end.

Definition handleCheckoutExpired (session : Stripe.Session.t) : M unit :=
  if negb (truthy (Stripe.Session.metadata_orderId session))
     || negb (truthy (Stripe.Session.metadata_paymentId session))
  then ret tt
  else
    let orderId := default "" (Stripe.Session.metadata_orderId session) in
    let paymentId := default "" (Stripe.Session.metadata_paymentId session) in
    let* _ := withTransaction
        (let* _ := prisma.payment.update paymentId
            (λ p, Payment.with_statusMessage (Some "Checkout session expired")
                    (Payment.with_status PaymentStatus.CANCELLED p)) in
         prisma.order.update orderId
            (λ o, Order.with_statusMessage (Some "Payment session expired")
                    (Order.with_status OrderStatus.CANCELLED o))) in
    ret tt.

Definition handlePaymentSucceeded (env : WebhookEnv)
    (paymentIntent : Stripe.PaymentIntent.t) : M unit :=
  let* payment_ := prisma.payment.findUniqueByStripePaymentIntentId
                     (Stripe.PaymentIntent.id paymentIntent) in
  match payment_ with
  | Some payment =>
      if bool_decide (Payment.status payment ≠ PaymentStatus.SUCCEEDED)
      then
        let* _ := prisma.payment.update (Payment.id payment)
            (λ p, Payment.with_processedAt (tProcessed env)
                    (Payment.with_status PaymentStatus.SUCCEEDED p)) in
        ret tt
      else ret tt
  | None => ret tt
  end.

Definition handlePaymentFailed
    (paymentIntent : Stripe.PaymentIntent.t) : M unit :=
  let* payment_ := prisma.payment.findUniqueByStripePaymentIntentId
                     (Stripe.PaymentIntent.id paymentIntent) in
  match payment_ with
  | Some payment =>
      let* _ := withTransaction
          (let* _ := prisma.payment.update (Payment.id payment)
              (λ p, Payment.with_statusMessage
                      (Some (orElse
                               (Stripe.PaymentIntent.last_payment_error_message
                                  paymentIntent)
                               "Payment failed"))
                      (Payment.with_status PaymentStatus.FAILED p)) in
           prisma.order.update (Payment.orderId payment)
              (λ o, Order.with_statusMessage (Some "Payment failed")
                      (Order.with_status OrderStatus.PAYMENT_FAILED o))) in
      ret tt
  | None => ret tt
  end.

(** The [switch] of [handleWebhook]. *)
Definition dispatch (env : WebhookEnv) (event : Stripe.Event) : M unit :=
  match event with
  | Stripe.checkout_session_completed s => handleCheckoutCompleted env s
  | Stripe.checkout_session_expired s => handleCheckoutExpired s
  | Stripe.payment_intent_succeeded p => handlePaymentSucceeded env p
  | Stripe.payment_intent_payment_failed p => handlePaymentFailed p
  | Stripe.other _ => ret tt
  end.

(** The result carries [{handled, eventType}]. *)
Definition handleWebhook (env : WebhookEnv) (payload signature : string)
  : M (ServiceResult (bool * string)) :=
  tryCatch
    (let* event := callStripe (constructEvent env payload signature) in
     let* _ := dispatch env event in
     ret (successResult (true, Stripe.type event)))
    (λ error,
       if instanceofStripeSignatureVerificationError error
       then ret (errorResult "INVALID_SIGNATURE" "Invalid webhook signature")
       else ret (errorResult "WEBHOOK_FAILED"
                   (if instanceofError error then message error
                    else "Webhook handling failed"))).

End PaymentService.

(** ** OrderService.cancelOrder *)

Module OrderService.

(** The formatted response is the updated row. *)
Definition cancelOrder (orderId : string) : M Order.t :=
  let* order_ := prisma.order.findUnique orderId in
  match order_ with
  | None => throw (NotFoundError "Order" orderId)
  | Some order =>
      if bool_decide (Order.status order ≠ OrderStatus.PENDING_PAYMENT)
      then throw (JsError ("Cannot cancel order with status: "
                             ++ OrderStatus.to_string (Order.status order)))
      else prisma.order.update orderId
             (λ o, Order.with_statusMessage (Some "Cancelled by user")
                     (Order.with_status OrderStatus.CANCELLED o))
  end.

End OrderService.

(** ** The payment controller's webhook route *)

Module PaymentController.

Inductive Body :=
| received (eventType : option string) (error : option string)
| failure (error : option string).

Record Response := mkResponse {
  statusCode : Z;
  body : Body;
}.

Record Request := mkRequest {
  stripe_signature : option string;
  rawBody : string;
}.

(** [router.post('/webhook', ...)]; [res.json] answers 200 unless
    [res.status] was called. *)
Definition postWebhook (env : PaymentService.WebhookEnv) (req : Request)
  : M Response :=
  tryCatch
    (if negb (truthy (stripe_signature req))
     then throw (ValidationError "Missing stripe-signature header")
     else
       let* result := PaymentService.handleWebhook env (rawBody req)
                        (default "" (stripe_signature req)) in
       match result with
       | successResult data =>
           ret (mkResponse 200 (received (Some (snd data)) None))
       | errorResult _ msg =>
           ret (mkResponse 400 (failure (Some msg)))
       end)
    (λ _, ret (mkResponse 200 (received None (Some "Processing failed")))).

End PaymentController.

(** ** FilecoinAdapter.checkTransactionStatus *)

Module FilecoinAdapter.

(** [retry(fn, {maxRetries, delay})]: [fn attempt] is the outcome of the
    [attempt]-th call; the last error, made an [Error] when it was
    caught, is rethrown once the attempts run out. *)
Fixpoint retryFrom {A} (remaining attempt : nat) (fn : nat → Outcome A)
    (lastError : Exn) : Outcome A :=
  match remaining with
  | O => Thrown lastError
  | S remaining' =>
      match fn attempt with
      | Returned a => Returned a
      | Thrown e => retryFrom remaining' (S attempt) fn (toError e)
      end
  end.

Definition retry {A} (fn : nat → Outcome A) (maxRetries : nat) : Outcome A :=
  retryFrom maxRetries 1 fn (JsError "Unknown error").

(** The fields of an ethers transaction receipt that the probe reads.
    [status] is [1] for success and [0] for a revert. *)
Record Receipt := mkReceipt {
  r_status : option Z;
  r_blockNumber : Z;
  r_blockHash : string;
  r_gasUsed : string;
}.

(** The adapter's own state and the RPC node's replies during one
    probe. *)
Record Rpc := mkRpc {
  initialized : bool;
  hasProvider : bool;
  getTransactionReceipt : string → nat → Outcome (option Receipt);
  getBlockNumber : Outcome Z;
}.

Definition adapterSlug : string := "filecoin".

Import ITransactionStatusResult.

(** [ensureInitialized] throws out of the method; everything after the
    provider check sits inside the [try]. *)
Definition checkTransactionStatus (rpc : Rpc) (txHash : string)
  : Outcome ITransactionStatusResult.t :=
  if negb (initialized rpc)
  then Thrown (ProviderError adapterSlug "Provider adapter not initialized")
  else if negb (hasProvider rpc)
  then Returned (mk TransactionStatus.FAILED 0 None None None
                    (Some "Provider not available"))
  else
    let caught (error : Exn) :=
      Returned (mk TransactionStatus.PENDING 0 None None None
                   (Some (if instanceofError error then message error
                          else "Failed to check status"))) in
    match retry (getTransactionReceipt rpc txHash) 3 with
    | Thrown e => caught e
    | Returned None =>
        Returned (mk TransactionStatus.PENDING 0 None None None None)
    | Returned (Some receipt) =>
        match getBlockNumber rpc with
        | Thrown e => caught e
        | Returned currentBlock =>
            let confirmations := currentBlock - r_blockNumber receipt in
            if bool_decide (r_status receipt = Some 0)
            then Returned (mk TransactionStatus.FAILED confirmations
                              (Some (r_blockNumber receipt))
                              (Some (r_blockHash receipt))
                              (Some (r_gasUsed receipt))
                              (Some "Transaction reverted"))
            else
              let status :=
                if bool_decide (confirmations >= 5)
                then TransactionStatus.CONFIRMED
                else TransactionStatus.CONFIRMING in
              Returned (mk status confirmations
                           (Some (r_blockNumber receipt))
                           (Some (r_blockHash receipt))
                           (Some (r_gasUsed receipt))
                           None)
        end
    end.

End FilecoinAdapter.

(** ** The core as a transition system

    The entry points that write to the store, each run to its end as one
    transition.  One polling iteration is a transition of its own, so
    that other entry points may run between two iterations. *)

Inductive Operation :=
| Checkout (env : PaymentService.CheckoutEnv)
           (params : PaymentService.ICreateCheckoutParams)
| Webhook (env : PaymentService.WebhookEnv) (req : PaymentController.Request)
| Cancel (orderId : string)
| ProcessOrder (env : BlockchainService.Env) (orderId : string)
| Poll (env : BlockchainService.PollEnv) (txId providerSlug : string)
| Retry (tRetry : Z) (env : BlockchainService.Env) (txId : string)
| Sweep (envs : nat → BlockchainService.SweepEnv).

Definition run (op : Operation) (w : World) : World :=
  match op with
  | Checkout env params => snd (PaymentService.createCheckoutSession env params w)
  | Webhook env req => snd (PaymentController.postWebhook env req w)
  | Cancel orderId => snd (OrderService.cancelOrder orderId w)
  | ProcessOrder env orderId => snd (BlockchainService.processOrder env orderId w)
  | Poll env txId providerSlug =>
      snd (BlockchainService.pollIteration env txId providerSlug w)
  | Retry tRetry env txId =>
      snd (BlockchainService.retryTransaction tRetry env txId w)
  | Sweep envs => snd (BlockchainService.processPendingConfirmations envs w)
  end.




(** The worlds that runs of operations satisfying [allowed] lead to. *)
Inductive reachableBy (allowed : Operation → Prop) (w0 : World)
  : World → Prop :=
| reachable_start : reachableBy allowed w0 w0
| reachable_run w op :
    reachableBy allowed w0 w → allowed op → reachableBy allowed w0 (run op w).


(** Every transaction row is stored under its own [id]. *)
Definition keyed (s : Store) : Prop :=
  ∀ j y, blockchainTransactions s !! j = Some y → BlockchainTransaction.id y = j.

(** The store is keyed and holds the row [x] under [k]. *)
Definition holdsRow (k : string) (x : BlockchainTransaction.t) (s : Store)
  : Prop :=
  keyed s ∧ blockchainTransactions s !! k = Some x.





(** A computation keeps a store invariant when its final store has it
    whenever its initial store does, however it ends. *)
Definition preserves (Inv : Store → Prop) {A} (m : M A) : Prop :=
  ∀ w, Inv (db w) → Inv (db (snd (m w))).

(** ** Concrete data of the end-to-end scenarios *)

Module Scenario.

Definition u1 : User.t :=
  User.mk "u1" "buyer@example.org" None None (Some "cus_1").

Definition filecoin : Provider.t :=
  Provider.mk "prov-fil" "Filecoin" "filecoin" NetworkType.TESTNET
              (Some "314159").

Definition starter : StoragePlan.t :=
  StoragePlan.mk "fil-starter-1gb" "prov-fil" "Filecoin Starter" 1 1073741824
                 180 99 PlanStatus.AVAILABLE true.

(** An order for the starter plan in a given state. *)
Definition orderIn (i : string) (st : OrderStatus.t) : Order.t :=
  Order.mk i ("ORD-" ++ i) "u1" "prov-fil" "fil-starter-1gb" 1 180 99
           None None None st None (Some ("key-" ++ i)) None None None.

Definition paymentIn (i oid : string) (st : PaymentStatus.t)
    (session : option string) : Payment.t :=
  Payment.mk i oid "u1" None session 99 "usd" st None []
             (Some ("idem-" ++ i)) None.

Definition txIn (i oid : string) (st : TransactionStatus.t)
    (hash : option string) : BlockchainTransaction.t :=
  BlockchainTransaction.mk i oid "prov-fil" hash NetworkType.TESTNET
    (Some "314159") None None None None None None None None st None 0 0 3
    None None None None None None.

Definition seeded (os : gmap string Order.t) (ps : gmap string Payment.t)
    (ts : gmap string BlockchainTransaction.t) : World :=
  initialWorld
    (mkStore {["u1" := u1]} {["prov-fil" := filecoin]}
             {["fil-starter-1gb" := starter]} os ps ts).

Definition resultOf (ok : bool) (hash err : option string)
  : ITransactionResult.t :=
  ITransactionResult.mk ok hash
    (if ok then TransactionStatus.SUBMITTED else TransactionStatus.FAILED)
    0 err None None None None None None None
    (if ok then Some "fil_o1" else None) None None None.

Definition probeOf (st : TransactionStatus.t) (confs : Z)
  : ITransactionStatusResult.t :=
  ITransactionStatusResult.mk st confs (Some 100) (Some "0xB10C") None None.

(** An adapter that answers every submission with [r] and every probe
    with [p]. *)
Definition adapterReplying (r : Outcome ITransactionResult.t)
    (p : Outcome ITransactionStatusResult.t) : IStorageProviderAdapter :=
  mkAdapter "filecoin" (λ _, r) (λ _, p).

Definition outOfFunds : IStorageProviderAdapter :=
  adapterReplying (Returned (resultOf false None (Some "out of funds")))
                  (Thrown (JsError "unused")).

Definition registryOf (a : IStorageProviderAdapter) : Registry :=
  {["filecoin" := a]}.

Definition envOf (a : IStorageProviderAdapter) (txId : string)
  : BlockchainService.Env :=
  BlockchainService.mkEnv (registryOf a) txId 1700000000000.

(** One order already dispatched ([tx0] is live), one still unpaid. *)
Definition dispatched : World :=
  seeded {["o1" := orderIn "o1" OrderStatus.PAYMENT_COMPLETED;
           "o2" := orderIn "o2" OrderStatus.PENDING_PAYMENT]}
         ∅
         {["tx0" := txIn "tx0" "o1" TransactionStatus.SUBMITTED
                         (Some "0xDEAD")]}.

(** Scenario 3: the order is paid and nothing was submitted yet. *)
Definition paid : World :=
  seeded {["o1" := orderIn "o1" OrderStatus.PAYMENT_COMPLETED]}
         {["pay1" := paymentIn "pay1" "o1" PaymentStatus.SUCCEEDED
                               (Some "cs_1")]}
         ∅.

(** Scenario 3 continued: the submission failed, then the operator
    calls [retryTransaction] four times, one minute apart. *)
Definition afterFailure : World :=
  snd (BlockchainService.processOrder (envOf outOfFunds "tx1") "o1" paid).

Definition retryNo (n : nat) (newId : string) (w : World)
  : Outcome (ServiceResult string) * World :=
  BlockchainService.retryTransaction
    (1700000000000 + 60000 * Z.of_nat n) (envOf outOfFunds newId) "tx1" w.

(** The row [tx1] as the first retry leaves it. *)
Definition retryingRow : BlockchainTransaction.t :=
  BlockchainTransaction.with_status TransactionStatus.RETRYING
    (BlockchainTransaction.with_retry 1700000060000
       (BlockchainTransaction.with_statusMessage (Some "out of funds")
          (BlockchainTransaction.with_status TransactionStatus.FAILED
             (BlockchainService.pendingRow (envOf outOfFunds "tx1")
                (orderIn "o1" OrderStatus.PAYMENT_COMPLETED) filecoin)))).

(** Scenario 1: the node holds a receipt mined at block 100 and the
    chain head is at 106; the first receipt request times out. *)
Definition minedAt100 : FilecoinAdapter.Receipt :=
  FilecoinAdapter.mkReceipt (Some 1) 100 "0xB10C" "21000".

Definition node (receipt : option FilecoinAdapter.Receipt) (head : Z)
  : FilecoinAdapter.Rpc :=
  FilecoinAdapter.mkRpc true true
    (λ _ attempt, match attempt with
                  | 1%nat => Thrown (JsError "timeout")
                  | _ => Returned receipt
                  end)
    (Returned head).

(** A receipt of a reverted transaction, and a node that hands out
    [receipt] but fails the request for its head block. *)
Definition revertedAt100 : FilecoinAdapter.Receipt :=
  FilecoinAdapter.mkReceipt (Some 0) 100 "0xB10C" "21000".

Definition headless (receipt : FilecoinAdapter.Receipt)
  : FilecoinAdapter.Rpc :=
  FilecoinAdapter.mkRpc true true
    (λ _ _, Returned (Some receipt))
    (Thrown (JsError "timeout")).

(** A [checkout.session.completed] object for the given rows. *)
Definition completedSession (orderId paymentId : string) : Stripe.Session.t :=
  Stripe.Session.mk "cs_1" None (Some orderId) (Some paymentId)
                    (Some "pi_1") (Some "cus_1") (Some 99).

(** A delivery whose signature verifies and decodes to [event]. *)
Definition verifiedAs (event : Stripe.Event) : PaymentService.WebhookEnv :=
  PaymentService.mkWebhookEnv (λ _ _, Returned event)
                              1700000001000 1700000001001.

(** A delivery whose signature does not verify. *)
Definition forged : PaymentService.WebhookEnv :=
  PaymentService.mkWebhookEnv
    (λ _ _, Thrown (StripeSignatureVerificationError
                      "No signatures found matching the expected signature"))
    1700000001000 1700000001001.

Definition signedRequest : PaymentController.Request :=
  PaymentController.mkRequest (Some "t=1,v1=abc") "{}".

(** The store holds no row for the payment the event names. *)
Definition unknownPayment : World := seeded ∅ ∅ ∅.

(** Scenario 6: the buyer has been sent to the hosted checkout page. *)
Definition awaitingPayment : World :=
  seeded {["o1" := orderIn "o1" OrderStatus.PENDING_PAYMENT]}
         {["pay1" := paymentIn "pay1" "o1" PaymentStatus.PENDING
                               (Some "cs_1")]}
         ∅.

(** A first checkout whose session creation failed at the processor:
    the order and its payment exist, no session id was recorded. *)
Definition sessionless : World :=
  seeded {["o1" := orderIn "o1" OrderStatus.PENDING_PAYMENT]}
         {["pay1" := paymentIn "pay1" "o1" PaymentStatus.PENDING None]}
         ∅.

(** The processor during a repeated checkout: [known] is its reply to
    the retrieval of session [cs_1]. *)
Definition processor (known : Outcome Stripe.Session.t)
  : PaymentService.CheckoutEnv :=
  PaymentService.mkCheckoutEnv
    (λ _, known)
    (λ _, Returned "cus_2")
    (λ orderId paymentId,
       Returned (Stripe.Session.mk "cs_2" (Some "https://checkout/cs_2")
                   (Some orderId) (Some paymentId) None None None))
    "o2" "pay2" "ORD-o2" "idem_order2" "idem_pay2".

Definition noSuchSession : Outcome Stripe.Session.t :=
  Thrown (StripeError "No such checkout.session: cs_1").

(** The session of [o1], open and then expired. *)
Definition openSession : Stripe.Session.t :=
  Stripe.Session.mk "cs_1" (Some "https://checkout/cs_1")
                    (Some "o1") (Some "pay1") None None None.

Definition expiredSession : Stripe.Session.t :=
  Stripe.Session.mk "cs_1" None (Some "o1") (Some "pay1") None None None.

(** The buyer repeats the checkout of [o1] with the same key. *)
Definition repeated : PaymentService.ICreateCheckoutParams :=
  PaymentService.mkCheckoutParams "u1" "fil-starter-1gb"
    "https://app/orders/success" "https://app/orders/cancel"
    (Some "key-o1").

(** Scenario 1 at the poller: the transaction was submitted, and the
    adapter now reports it confirmed with 6 confirmations. *)
Definition submitted : World :=
  seeded {["o1" := orderIn "o1" OrderStatus.BLOCKCHAIN_PROCESSING]}
         {["pay1" := paymentIn "pay1" "o1" PaymentStatus.SUCCEEDED
                               (Some "cs_1")]}
         {["tx1" := txIn "tx1" "o1" TransactionStatus.SUBMITTED
                         (Some "0xDEAD")]}.

Definition confirming : IStorageProviderAdapter :=
  adapterReplying (Thrown (JsError "unused"))
                  (Returned (probeOf TransactionStatus.CONFIRMED 6)).

Definition pollNow : BlockchainService.PollEnv :=
  BlockchainService.mkPollEnv (registryOf confirming)
    1700000010000 1700000010002 1700000010002 utc.




(** Scenario 1 end to end: the adapter submits with hash [0xDEAD] and
    answers probes from the node above. *)
Definition filecoinAdapter : IStorageProviderAdapter :=
  mkAdapter "filecoin"
    (λ _, Returned (resultOf true (Some "0xDEAD") None))
    (FilecoinAdapter.checkTransactionStatus (node (Some minedAt100) 106)).

Definition happyPath : World :=
  let completed := Stripe.checkout_session_completed
                     (completedSession "o1" "pay1") in
  let w1 := run (Webhook (verifiedAs completed) signedRequest)
                awaitingPayment in
  let w2 := run (ProcessOrder (envOf filecoinAdapter "tx1") "o1") w1 in
  run (Poll (BlockchainService.mkPollEnv (registryOf filecoinAdapter)
               1700000010000 1700000010002 1700000010002 utc)
            "tx1" "filecoin") w2.

(** An adapter whose submission raises. *)
Definition notInitialized : IStorageProviderAdapter :=
  adapterReplying
    (Thrown (ProviderError "filecoin" "Provider adapter not initialized"))
    (Thrown (ProviderError "filecoin" "Provider adapter not initialized")).

End Scenario.

(** ** Calls out of the process *)

(** [m] makes at most [n] status probes, submits nothing and starts no
    detached work. *)
Definition probesAtMost (n : nat) {A} (m : M A) : Prop :=
  ∀ w, ∃ probes,
    statusProbes (snd (m w)) = (statusProbes w ++ probes)%list
    ∧ (length probes ≤ n)%nat
    ∧ adapterCalls (snd (m w)) = adapterCalls w
    ∧ triggered (snd (m w)) = triggered w
    ∧ pollers (snd (m w)) = pollers w.

(** ** The [retry] helper *)

Module Helpers.

(** What a run of [retry] does, in order: the calls of [fn], the calls
    of [onRetry], and the sleeps. *)
Inductive RetryEvent :=
| Called (attempt : nat)
| OnRetry (error : Exn) (attempt : nat)
| Slept (ms : Z).

(** The [options] argument; an absent key is [None], and [onRetry] is
    either given or not. *)
Record RetryOptions := mkRetryOptions {
  maxRetries : option nat;
  delay : option Z;
  backoff : option Z;
  onRetry : bool;
}.

(** The [for] loop, [remaining] iterations before [attempt] exceeds
    [maxRetries_]; [fn attempt] is the outcome of the [attempt]-th
    call. *)
Fixpoint retryLoop {A} (fn : nat → Outcome A) (maxRetries_ : nat)
    (delay_ backoff_ : Z) (onRetry_ : bool) (remaining attempt : nat)
    (lastError : Exn) : list RetryEvent * Outcome A :=
  match remaining with
  | O => ([], Thrown lastError)
  | S remaining' =>
      match fn attempt with
      | Returned a => ([Called attempt], Returned a)
      | Thrown error =>
          if Nat.eqb attempt maxRetries_
          then ([Called attempt], Thrown (toError error))
          else
            let rest := retryLoop fn maxRetries_ delay_ backoff_ onRetry_
                          remaining' (S attempt) (toError error) in
            ((Called attempt
                :: (if onRetry_ then [OnRetry (toError error) attempt] else [])
                ++ Slept (delay_ * backoff_ ^ (Z.of_nat attempt - 1))
                :: fst rest)%list,
             snd rest)
      end
  end.

Definition retry {A} (fn : nat → Outcome A) (options : RetryOptions)
  : list RetryEvent * Outcome A :=
  let maxRetries_ := default 3%nat (maxRetries options) in
  retryLoop fn maxRetries_ (default 1000 (delay options))
            (default 2 (backoff options)) (onRetry options)
            maxRetries_ 1 (JsError "Unknown error").

Definition calls (events : list RetryEvent) : list nat :=
  omap (λ ev, match ev with Called k => Some k | _ => None end) events.

Definition sleeps (events : list RetryEvent) : list Z :=
  omap (λ ev, match ev with Slept ms => Some ms | _ => None end) events.

Definition notified (events : list RetryEvent) : list (Exn * nat) :=
  omap (λ ev, match ev with OnRetry e k => Some (e, k) | _ => None end) events.

End Helpers.

(** ** The adapters' base class *)

Module BaseStorageProviderAdapter.

(** [ensureInitialized] *)
Definition ensureInitialized (slug_ : string) (initialized : bool)
  : Outcome unit :=
  if initialized then Returned tt
  else Thrown (ProviderError slug_ "Provider adapter not initialized").

(** [createFailedTransaction] *)
Definition createFailedTransaction (error : string) : ITransactionResult.t :=
  ITransactionResult.mk false None TransactionStatus.FAILED 0 (Some error)
    None None None None None None None None None None None.

(** [Partial<ITransactionResult>]: an absent key is [None]. *)
Record Partial := mkPartial {
  success : option bool;
  txHash : option string;
  status : option TransactionStatus.t;
  confirmations : option Z;
  error : option string;
  fromAddress : option string;
  toAddress : option string;
  gasLimit : option string;
  gasPrice : option string;
  value : option string;
  data : option string;
  nonce : option Z;
  storageId : option string;
  storageEndpoint : option string;
  storageMetadata : option Json;
  rawResponse : option Json;
}.

(** [createPendingTransaction]: the keys of [additionalData] are spread
    over the pending result. *)
Definition createPendingTransaction (txHash_ : string)
    (additionalData : Partial) : ITransactionResult.t :=
  ITransactionResult.mk
    (default true (success additionalData))
    (assign (txHash additionalData) (Some txHash_))
    (default TransactionStatus.SUBMITTED (status additionalData))
    (default 0 (confirmations additionalData))
    (error additionalData)
    (fromAddress additionalData) (toAddress additionalData)
    (gasLimit additionalData) (gasPrice additionalData)
    (value additionalData) (data additionalData) (nonce additionalData)
    (storageId additionalData) (storageEndpoint additionalData)
    (storageMetadata additionalData) (rawResponse additionalData).

End BaseStorageProviderAdapter.

(** ** FilecoinAdapter: submission *)

Module Filecoin.

Import BaseStorageProviderAdapter.

(** An ethers transaction request, as far as the adapter fills it. *)
Record TransactionRequest := mkTransactionRequest {
  req_from : option string;
  req_to : string;
  req_value : Z;
  req_data : string;
  req_gasLimit : option Z;
  req_gasPrice : option Z;
}.

Record TransactionResponse := mkTransactionResponse {
  hash : string;
  tx_nonce : Z;
}.

(** The adapter's state and what the RPC node, the encoder and the
    clock answer during one call.  [wallet] is the wallet's address;
    [hexlify] stands for
    [ethers.hexlify(ethers.toUtf8Bytes(JSON.stringify(·)))]. *)
Record Node := mkNode {
  initialized : bool;
  hasProvider : bool;
  wallet : option string;
  explorerUrl : string;
  hexlify : Json → string;
  provider_estimateGas : TransactionRequest → Outcome Z;
  provider_getFeeData : Outcome (option Z);
  wallet_sendTransaction : TransactionRequest → Outcome TransactionResponse;
  provider_getBlockNumber : Outcome Z;
  tData : Z;
  tStorage : Z;
}.

Definition slug : string := "filecoin".

(** [ethers.parseUnits('1', 'gwei')] *)
Definition oneGwei : Z := 1000000000.

(** [feeData.gasPrice || oneGwei] on a [bigint | null]. *)
Definition gasPriceOf (feeData : option Z) : Z :=
  match feeData with
  | Some p => if bool_decide (p = 0) then oneGwei else p
  | None => oneGwei
  end.

Definition txData (node : Node) (params : IStorageTransactionParams) : Json :=
  [("orderId", JString (par_orderId params));
   ("planId", JString (par_planId params));
   ("storageSizeBytes", JString (pretty (par_storageSizeBytes params)));
   ("durationDays", JNumber (par_durationDays params));
   ("timestamp", JNumber (tData node))].

Definition storageIdOf (node : Node) (params : IStorageTransactionParams)
  : string :=
  "fil_" ++ String.substring 0 8 (par_orderId params) ++ "_" ++ pretty (tStorage node).

(** The request handed to [wallet.sendTransaction]. *)
Definition submission (node : Node) (params : IStorageTransactionParams)
    (address : string) (gasEstimate gasPrice_ : Z) : TransactionRequest :=
  mkTransactionRequest None address 0 (hexlify node (txData node params))
    (Some (gasEstimate * 2)) (Some gasPrice_).

Definition executeStorageTransaction (node : Node)
    (params : IStorageTransactionParams) : Outcome ITransactionResult.t :=
  match ensureInitialized slug (initialized node) with
  | Thrown e => Thrown e
  | Returned _ =>
    match wallet node with
    | None => Returned (createFailedTransaction "Wallet not configured")
    | Some address =>
      if negb (hasProvider node)
      then Returned (createFailedTransaction "Wallet not configured")
      else
        let caught (error : Exn) :=
          Returned (createFailedTransaction
                      (if instanceofError error then message error
                       else "Transaction failed")) in
        let dataHex := hexlify node (txData node params) in
        match provider_estimateGas node
                (mkTransactionRequest (Some address) address 0 dataHex
                                      None None) with
        | Thrown e => caught e
        | Returned gasEstimate =>
          match provider_getFeeData node with
          | Thrown e => caught e
          | Returned feeData =>
            let gasPrice_ := gasPriceOf feeData in
            match wallet_sendTransaction node
                    (submission node params address gasEstimate gasPrice_) with
            | Thrown e => caught e
            | Returned tx =>
              let storageId_ := storageIdOf node params in
              Returned (createPendingTransaction (hash tx)
                (mkPartial None None None None None
                   (Some address) (Some address)
                   (Some (pretty gasEstimate)) (Some (pretty gasPrice_))
                   (Some "0") (Some dataHex) (Some (tx_nonce tx))
                   (Some storageId_)
                   (Some ("https://gateway.lighthouse.storage/ipfs/"
                            ++ storageId_))
                   (Some [("provider", JString "filecoin");
                          ("network", JString "calibration");
                          ("dealId", JString storageId_);
                          ("replicationFactor", JNumber 3)])
                   None))
            end
          end
        end
    end
  end.

(** The adapter as the orchestrator and the poller see it; [receipts]
    are the node's answers to the receipt requests of a status probe. *)
Definition asAdapter (node : Node)
    (receipts : string → nat → Outcome (option FilecoinAdapter.Receipt))
  : IStorageProviderAdapter :=
  mkAdapter slug (executeStorageTransaction node)
    (FilecoinAdapter.checkTransactionStatus
       (FilecoinAdapter.mkRpc (initialized node) (hasProvider node) receipts
                              (provider_getBlockNumber node))).

End Filecoin.

(** Two states of the adapter on the calibration testnet: with the
    platform wallet configured, and without it. *)
Module Calibration.

Definition node (wallet_ : option string) : Filecoin.Node :=
  Filecoin.mkNode true true wallet_ "https://calibration.filfox.info"
    (λ _, "0x7b7d")
    (λ _, Returned 21000)
    (Returned (Some 0))
    (λ _, Returned (Filecoin.mkTransactionResponse "0xDEAD" 7))
    (Returned 106)
    1700000000000 1700000000001.

Definition funded : Filecoin.Node := node (Some "0xf1a7").

Definition walletless : Filecoin.Node := node None.

Definition adapter (n : Filecoin.Node) : IStorageProviderAdapter :=
  Filecoin.asAdapter n (λ _ _, Returned (Some Scenario.minedAt100)).

End Calibration.

(** ** API responses and the error-handling middleware *)

Module IApiResponse.

Record ErrorBody := mkErrorBody {
  code : string;
  message : option string;
}.

(** [{success: true, data}] or [{success: false, error}]; the [details]
    key, a debugging aid of development mode, is left out. *)
Inductive Body (A : Type) :=
| ok (data : A)
| failed (error : ErrorBody).
Arguments ok {A} data.
Arguments failed {A} error.

Record t (A : Type) := mk {
  statusCode : Z;
  body : Body A;
}.
Arguments mk {A} statusCode body.
Arguments statusCode {A} _.
Arguments body {A} _.

End IApiResponse.

Module config.

Inductive NodeEnv := development | production | test.

#[global] Instance NodeEnv_eq_dec : EqDecision NodeEnv.
Proof. solve_decision. Defined.

Record t := mk {
  env : NodeEnv;
  frontendUrl : string;
}.

Definition isProduction (cfg : t) : bool := bool_decide (env cfg = production).

End config.

Module ErrorMiddleware.

(** [err.message] of whatever was passed to [next]. *)
Definition messageOf (err : Exn) : option string :=
  if instanceofError err then Some (message err) else None.

Import IApiResponse.

(** [err instanceof AppError]: the error's [code] and [statusCode]. *)
Definition asAppError (err : Exn) : option (string * Z) :=
  match err with
  | ValidationError _ => Some ("VALIDATION_ERROR", 400)
  | NotFoundError _ _ => Some ("NOT_FOUND", 404)
  | ProviderError _ _ => Some ("PROVIDER_ERROR", 500)
  | _ => None
  end.

(** The [code] of a [PrismaClientKnownRequestError]. *)
Definition prismaCode (err : Exn) : option string :=
  match err with
  | PrismaUniqueConstraint _ => Some "P2002"
  | PrismaNotFound _ => Some "P2025"
  | _ => None
  end.

(** [errorHandler]; no modelled error bears the name [ValidationError]
    without being an [AppError]. *)
Definition errorHandler {A} (cfg : config.t) (err : Exn) : IApiResponse.t A :=
  match asAppError err with
  | Some (code_, statusCode_) =>
      mk statusCode_ (failed (mkErrorBody code_ (messageOf err)))
  | None =>
      match prismaCode err with
      | Some "P2002" =>
          mk 409 (failed (mkErrorBody "CONFLICT"
                            (Some "A record with this value already exists")))
      | Some "P2025" =>
          mk 404 (failed (mkErrorBody "NOT_FOUND" (Some "Record not found")))
      | _ =>
          mk 500 (failed (mkErrorBody "INTERNAL_ERROR"
                            (if config.isProduction cfg
                             then Some "An unexpected error occurred"
                             else messageOf err)))
      end
  end.

End ErrorMiddleware.

(** ** The order controller's cancel route *)

Module OrderController.

Import IApiResponse.

(** [router.post('/:orderId/cancel', ...)] followed by the error
    middleware that [next(error)] leads to. *)
Definition postCancel (cfg : config.t) (orderId : string)
  : M (IApiResponse.t Order.t) :=
  tryCatch
    (let* order := OrderService.cancelOrder orderId in
     ret (mk 200 (ok order)))
    (λ error, ret (ErrorMiddleware.errorHandler cfg error)).

End OrderController.

(** ** The payment controller's checkout route *)

Module CheckoutRoute.

Import IApiResponse.

(** The keys of [req.body] that the route reads. *)
Record Body := mkBody {
  userId : option string;
  planId : option string;
  idempotencyKey : option string;
}.

(** The [data] of the success response. *)
Record Data := mkData {
  sessionId : string;
  sessionUrl : string;
  orderId : string;
}.

(** [router.post('/checkout', ...)] followed by the error middleware. *)
Definition postCheckout (cfg : config.t) (env : PaymentService.CheckoutEnv)
    (body_ : Body) : M (IApiResponse.t Data) :=
  tryCatch
    (if negb (truthy (userId body_))
     then throw (ValidationError "userId is required")
     else if negb (truthy (planId body_))
     then throw (ValidationError "planId is required")
     else
       let* result := PaymentService.createCheckoutSession env
           (PaymentService.mkCheckoutParams
              (default "" (userId body_)) (default "" (planId body_))
              (config.frontendUrl cfg ++ "/orders/success")
              (config.frontendUrl cfg ++ "/orders/cancel")
              (idempotencyKey body_)) in
       match result with
       | successResult data =>
           ret (mk 200 (ok (mkData (PaymentService.sessionId data)
                                   (PaymentService.sessionUrl data)
                                   (PaymentService.orderId data))))
       | errorResult code_ msg =>
           ret (mk 400 (failed (mkErrorBody code_ (Some msg))))
       end)
    (λ error, ret (ErrorMiddleware.errorHandler cfg error)).

End CheckoutRoute.

(** ** OrderService.getOrderStats *)

Module OrderStatistics.

Record t := mk {
  totalOrders : Z;
  completedOrders : Z;
  pendingOrders : Z;
  failedOrders : Z;
  totalRevenueCents : Z;
}.

Definition rowsWhere (P : Order.t → Prop) `{!∀ o, Decision (P o)}
    (s : Store) : list Order.t :=
  filter P (map_to_list (orders s)).*2.

(** [prisma.order.count({ where })] *)
Definition count (P : Order.t → Prop) `{!∀ o, Decision (P o)}
    (s : Store) : Z :=
  Z.of_nat (length (rowsWhere P s)).

Definition isCompleted (o : Order.t) : Prop :=
  Order.status o = OrderStatus.COMPLETED.

Definition isPending (o : Order.t) : Prop :=
  Order.status o ∈ [OrderStatus.PENDING_PAYMENT;
                    OrderStatus.PAYMENT_PROCESSING;
                    OrderStatus.BLOCKCHAIN_PENDING;
                    OrderStatus.BLOCKCHAIN_PROCESSING].

Definition isFailed (o : Order.t) : Prop :=
  Order.status o ∈ [OrderStatus.PAYMENT_FAILED;
                    OrderStatus.BLOCKCHAIN_FAILED].


(** [_sum.priceUsdCents || 0]: the sum is [null] over no rows. *)
Definition revenue (s : Store) : Z :=
  foldr Z.add 0 (Order.priceUsdCents <$> rowsWhere isCompleted s).

Definition getOrderStats : M t :=
  let* totalOrders_ := prisma.get (count (λ _, True)) in
  let* completedOrders_ := prisma.get (count isCompleted) in
  let* pendingOrders_ := prisma.get (count isPending) in
  let* failedOrders_ := prisma.get (count isFailed) in
  let* revenue_ := prisma.get revenue in
  ret (mk totalOrders_ completedOrders_ pendingOrders_ failedOrders_ revenue_).

End OrderStatistics.

(** ** A first checkout *)

Module FreshCheckout.

Import PaymentService.

(** The rows that [createCheckoutSession] inserts. *)
Definition newOrder (env : CheckoutEnv) (params : ICreateCheckoutParams)
    (plan : StoragePlan.t) (provider : Provider.t) (user : User.t)
  : Order.t :=
  Order.mk (newOrderId env) (generatedOrderNumber env) (User.id user)
    (Provider.id provider) (StoragePlan.id plan)
    (StoragePlan.storageSizeGb plan) (StoragePlan.durationDays plan)
    (StoragePlan.priceUsdCents plan) None None None
    OrderStatus.PENDING_PAYMENT None
    (Some (orElse (idempotencyKey params) (generatedOrderKey env)))
    None None None.

Definition newPayment (env : CheckoutEnv) (plan : StoragePlan.t)
    (user : User.t) : Payment.t :=
  Payment.mk (newPaymentId env) (newOrderId env) (User.id user) None None
    (StoragePlan.priceUsdCents plan) "usd" PaymentStatus.PENDING None []
    (Some (generatedPaymentKey env)) None.

(** A checkout that gets as far as the session without creating a
    customer: the plan is on sale, the buyer is known to the store and
    has a customer id at the processor already, and the generated ids,
    order number and keys are new to the store. *)
Record t (env : CheckoutEnv) (params : ICreateCheckoutParams) (w : World)
    (plan : StoragePlan.t) (provider : Provider.t) (user : User.t) : Prop := {
  plan_found : storagePlans (db w) !! planId params = Some plan;
  plan_available : StoragePlan.status plan = PlanStatus.AVAILABLE;
  plan_active : StoragePlan.isActive plan = true;
  provider_found :
    providers (db w) !! StoragePlan.providerId plan = Some provider;
  user_found : users (db w) !! userId params = Some user;
  user_is_customer : truthy (User.stripeCustomerId user) = true;
  order_id_new : orders (db w) !! newOrderId env = None;
  order_number_new :
    ∀ k o, orders (db w) !! k = Some o →
           Order.orderNumber o ≠ generatedOrderNumber env;
  order_key_new :
    ∀ k o, orders (db w) !! k = Some o →
           Order.idempotencyKey o
           ≠ Some (orElse (idempotencyKey params) (generatedOrderKey env));
  payment_id_new : payments (db w) !! newPaymentId env = None;
  payment_key_new :
    ∀ k p, payments (db w) !! k = Some p →
           Payment.idempotencyKey p ≠ Some (generatedPaymentKey env);
}.

End FreshCheckout.

(** ** Invariants of the transactions table *)

(** A property of every transaction row. *)
Definition txwise (P : BlockchainTransaction.t → Prop) (s : Store) : Prop :=
  ∀ k x, blockchainTransactions s !! k = Some x → P x.

(** The retry budget of a row is not overdrawn. *)
Definition withinBudget (x : BlockchainTransaction.t) : Prop :=
  BlockchainTransaction.retryCount x <= BlockchainTransaction.maxRetries x.

(** Scenario 1 at its end: the order is allocated, its transaction
    confirmed. *)
Module Allocated.

Definition tx1 : BlockchainTransaction.t :=
  Scenario.txIn "tx1" "o1" TransactionStatus.CONFIRMED (Some "0xDEAD").

Definition world : World :=
  Scenario.seeded
    {["o1" := Scenario.orderIn "o1" OrderStatus.COMPLETED]}
    {["pay1" := Scenario.paymentIn "pay1" "o1" PaymentStatus.SUCCEEDED
                                   (Some "cs_1")]}
    {["tx1" := tx1]}.

End Allocated.

(** ** Work in flight *)

(** A polling iteration awaits the adapter between its read of the row
    and its writes, and the sweep probes and writes row after row of a
    list it read before its first probe.  The detached pollers and the
    sweep run in one process, so that other work runs between such a
    read and the writes computed from it.  A [Step] is a whole
    operation, or what an iteration of the poller or a step of the sweep
    does after its read. *)
Inductive Step :=
| Whole (op : Operation)
| PollWrite (env : BlockchainService.PollEnv) (txId providerSlug : string)
            (found : option BlockchainTransaction.t)
            (order_ : option Order.t)
| SweepWrite (env : BlockchainService.SweepEnv)
             (tx : BlockchainTransaction.t) (order_ : option Order.t)
             (provider_ : option Provider.t).

Definition step (st : Step) (w : World) : World :=
  match st with
  | Whole op => run op w
  | PollWrite env txId providerSlug found order_ =>
      snd (tryCatch
             (BlockchainService.pollRow env txId providerSlug found order_)
             (λ _, ret BlockchainService.Continue) w)
  | SweepWrite env tx order_ provider_ =>
      snd (BlockchainService.sweepOne env tx order_ provider_ w)
  end.

(** The rows a step works with are those the queries of the poller
    ([findUnique] with its order) and of the sweep
    ([getPendingTransactions] with order and provider) return in the
    world [seen]. *)
Definition readFrom (seen : World) (st : Step) : Prop :=
  match st with
  | Whole _ => True
  | PollWrite _ txId _ found order_ =>
      found = blockchainTransactions (db seen) !! txId
      ∧ order_ = (found ≫= λ x, orders (db seen)
                                  !! BlockchainTransaction.orderId x)
  | SweepWrite _ tx order_ provider_ =>
      (∃ txs, fst (BlockchainService.getPendingTransactions seen)
              = Returned txs ∧ tx ∈ txs)
      ∧ order_ = orders (db seen) !! BlockchainTransaction.orderId tx
      ∧ provider_ = providers (db seen) !! BlockchainTransaction.providerId tx
  end.

(** The runs from [w0] in which every step read one of the worlds the
    run had passed through by then: [interleaved w0 past] for the worlds
    passed, the latest first. *)
Inductive interleaved (w0 : World) : list World → Prop :=
| interleaved_start : interleaved w0 [w0]
| interleaved_step w past st seen :
    interleaved w0 (w :: past) →
    seen ∈ w :: past →
    readFrom seen st →
    interleaved w0 (step st w :: w :: past).

(** * Properties *)

(** ** Relations and unique indexes over a table *)

Section Tables.
Context {A : Type}.
Implicit Types (m : gmap string A) (x : A).

Lemma related_elem (fk : A → string) (k : string) m x :
  x ∈ related fk k m ↔ fk x = k ∧ ∃ i, m !! i = Some x.
Proof.
  unfold related. rewrite list_elem_of_filter, list_elem_of_fmap.
  split.
  - intros [Hk [[i y] [-> Hin]]]. split; [done|].
    exists i. by apply elem_of_map_to_list in Hin.
  - intros [Hk [i Hi]]. split; [done|].
    exists (i, x). split; [done|]. by apply elem_of_map_to_list.
Qed.

(** The first row of a relation that satisfies [P], when there is
    one. *)
Lemma related_find (P : A → Prop) `{!∀ x, Decision (P x)}
    (fk : A → string) (k : string) m :
  (∃ i x, m !! i = Some x ∧ fk x = k ∧ P x) →
  ∃ i x, snd <$> list_find P (related fk k m) = Some x
         ∧ m !! i = Some x ∧ fk x = k ∧ P x.
Proof.
  intros (i & x & Hi & Hk & HP).
  assert (Hin : x ∈ related fk k m) by (apply related_elem; eauto).
  destruct (list_find_elem_of P _ x Hin HP) as [[n y] Hfind].
  apply list_find_Some in Hfind as Hspec.
  destruct Hspec as (Hn & HPy & _).
  apply list_elem_of_lookup_2 in Hn.
  apply related_elem in Hn as [Hky [j Hj]].
  exists j, y. rewrite Hfind. eauto.
Qed.

Lemma related_find_none (P : A → Prop) `{!∀ x, Decision (P x)}
    (fk : A → string) (k : string) m :
  (∀ i x, m !! i = Some x → fk x = k → ¬ P x) →
  snd <$> list_find P (related fk k m) = None.
Proof.
  intros Hnone.
  destruct (list_find P (related fk k m)) as [[n y]|] eqn:Hfind; [|done].
  apply list_find_Some in Hfind as (Hn & HPy & _).
  apply list_elem_of_lookup_2 in Hn.
  apply related_elem in Hn as [Hky [j Hj]].
  by destruct (Hnone j y).
Qed.
End Tables.

(** ** Running the store primitives *)

Section Steps.

Lemma bind_returned {A B} (m : M A) (k : A → M B) w a w' :
  m w = (Returned a, w') → bind m k w = k a w'.
Proof. unfold bind. by intros ->. Qed.

Lemma bind_thrown {A B} (m : M A) (k : A → M B) w e w' :
  m w = (Thrown e, w') → bind m k w = (Thrown e, w').
Proof. unfold bind. by intros ->. Qed.

Lemma order_update_returned i f w o :
  orders (db w) !! i = Some o →
  prisma.order.update i f w
  = (Returned (f o),
     with_db (set_orders (<[i := f o]> (orders (db w))) (db w)) w).
Proof.
  intros H. unfold prisma.order.update, prisma.get, prisma.put, bind, ret.
  by rewrite H.
Qed.

Lemma order_update_thrown i f w :
  orders (db w) !! i = None →
  prisma.order.update i f w = (Thrown (PrismaNotFound "Order"), w).
Proof.
  intros H. unfold prisma.order.update, prisma.get, bind, throw.
  by rewrite H.
Qed.

Lemma tx_create_returned x w :
  blockchainTransactions (db w) !! BlockchainTransaction.id x = None →
  prisma.blockchainTransaction.create x w
  = (Returned x,
     with_db (set_blockchainTransactions
                (<[BlockchainTransaction.id x := x]>
                   (blockchainTransactions (db w))) (db w)) w).
Proof.
  intros H.
  unfold prisma.blockchainTransaction.create, prisma.get, prisma.put, bind, ret.
  cbv [id]. rewrite bool_decide_eq_false_2; [done|].
  rewrite H. by intros [? ?].
Qed.

Lemma tx_create_thrown x w :
  is_Some (blockchainTransactions (db w) !! BlockchainTransaction.id x) →
  prisma.blockchainTransaction.create x w
  = (Thrown (PrismaUniqueConstraint "id"), w).
Proof.
  intros H.
  unfold prisma.blockchainTransaction.create, prisma.get, prisma.put, bind,
    throw.
  cbv [id]. by rewrite bool_decide_eq_true_2.
Qed.

Lemma tx_update_returned i f w x :
  blockchainTransactions (db w) !! i = Some x →
  prisma.blockchainTransaction.update i f w
  = (Returned (f x),
     with_db (set_blockchainTransactions
                (<[i := f x]> (blockchainTransactions (db w))) (db w)) w).
Proof.
  intros H.
  unfold prisma.blockchainTransaction.update, prisma.get, prisma.put, bind, ret.
  by rewrite H.
Qed.

Lemma getAdapter_returned (registry : Registry) s a w :
  registry !! s = Some a → getAdapter registry s w = (Returned a, w).
Proof. intros H. unfold getAdapter. by rewrite H. Qed.

Lemma getAdapter_thrown (registry : Registry) s w :
  registry !! s = None →
  getAdapter registry s w
  = (Thrown (ProviderError s ("Provider adapter '" ++ s ++ "' not found")), w).
Proof. intros H. unfold getAdapter. by rewrite H. Qed.

Lemma withTransaction_returned {A} (m : M A) w a w' :
  m w = (Returned a, w') → withTransaction m w = (Returned a, w').
Proof. unfold withTransaction. by intros ->. Qed.

(** A transaction that throws leaves the store as it found it. *)
Lemma withTransaction_thrown {A} (m : M A) w e w' :
  m w = (Thrown e, w') →
  withTransaction m w = (Thrown e, with_db (db w) w').
Proof. unfold withTransaction. by intros ->. Qed.

Lemma orElse_carries (s : option string) (d m : string) :
  s = Some m → m ≠ "" → orElse s d = m.
Proof.
  intros -> Hm. unfold orElse.
  destruct (String.eqb m "") eqn:E; [|done].
  by apply String.eqb_eq in E.
Qed.

Lemma with_db_same w : with_db (db w) w = w.
Proof. by destruct w. Qed.

Lemma payment_update_returned i f w p :
  payments (db w) !! i = Some p →
  prisma.payment.clashes i (f p) (payments (db w)) = None →
  prisma.payment.update i f w
  = (Returned (f p),
     with_db (set_payments (<[i := f p]> (payments (db w))) (db w)) w).
Proof.
  intros Hp Hfree.
  unfold prisma.payment.update, prisma.get, prisma.put, bind, ret. cbv [id].
  by rewrite Hp, Hfree.
Qed.

Lemma payment_update_missing i f w :
  payments (db w) !! i = None →
  prisma.payment.update i f w = (Thrown (PrismaNotFound "Payment"), w).
Proof.
  intros Hp.
  unfold prisma.payment.update, prisma.get, bind, throw. cbv [id].
  by rewrite Hp.
Qed.

Lemma payment_update_clash i f w p target :
  payments (db w) !! i = Some p →
  prisma.payment.clashes i (f p) (payments (db w)) = Some target →
  prisma.payment.update i f w = (Thrown (PrismaUniqueConstraint target), w).
Proof.
  intros Hp Hclash.
  unfold prisma.payment.update, prisma.get, bind, throw. cbv [id].
  by rewrite Hp, Hclash.
Qed.

End Steps.

(** ** Facts about the scenario data *)

Lemma paid_dispatchable :
  BlockchainService.Dispatchable "o1" Scenario.paid
    (Scenario.orderIn "o1" OrderStatus.PAYMENT_COMPLETED)
    Scenario.filecoin Scenario.starter Scenario.u1.
Proof.
  split; try reflexivity.
  intros k tx Hk.
  change ((∅ : gmap string BlockchainTransaction.t) !! k = Some tx) in Hk.
  by rewrite lookup_empty in Hk.
Qed.

(** ** The allocation orchestrator *)

Section Orchestrator.
Import BlockchainService.

(** The status guard of [processOrder]. *)
Lemma processOrder_unpaid env orderId w order :
  orders (db w) !! orderId = Some order →
  Order.status order ≠ OrderStatus.PAYMENT_COMPLETED →
  processOrder env orderId w
  = (Returned (errorResult "INVALID_ORDER_STATUS"
                 ("Order status is "
                    ++ OrderStatus.to_string (Order.status order)
                    ++ ", expected PAYMENT_COMPLETED")), w).
Proof.
  intros Horder Hstatus.
  unfold processOrder, tryCatch, bind, prisma.order.findUnique, prisma.get.
  simpl. rewrite Horder. simpl.
  by rewrite bool_decide_eq_true_2.
Qed.

(** The idempotency seam of [processOrder]. *)
Lemma processOrder_already_dispatched env orderId w order :
  orders (db w) !! orderId = Some order →
  Order.status order = OrderStatus.PAYMENT_COMPLETED →
  (∃ k tx, blockchainTransactions (db w) !! k = Some tx
           ∧ BlockchainTransaction.orderId tx = orderId ∧ isLive tx) →
  ∃ k tx, blockchainTransactions (db w) !! k = Some tx
          ∧ BlockchainTransaction.orderId tx = orderId ∧ isLive tx
          ∧ processOrder env orderId w
            = (Returned (successResult (BlockchainTransaction.id tx)), w).
Proof.
  intros Horder Hstatus Hlive.
  destruct (related_find isLive BlockchainTransaction.orderId orderId _ Hlive)
    as (k & tx & Hfind & Hk & Hoid & Htx).
  exists k, tx. repeat split; try done.
  unfold processOrder, tryCatch, bind, prisma.order.findUnique, prisma.get.
  simpl. rewrite Horder. simpl.
  rewrite bool_decide_eq_false_2 by (intros Hne; by apply Hne).
  by rewrite Hfind.
Qed.

(** C1. For an order that exists, [processOrder] answers
    [INVALID_ORDER_STATUS] whenever its status is not [PAYMENT_COMPLETED];
    and when it is [PAYMENT_COMPLETED] and the order already has a
    transaction whose status is not [FAILED], the answer is the success
    carrying the id of such a transaction, and the world is exactly the
    one it started from: no row created, the order untouched, no adapter
    invoked, no poller started. *)
Theorem processOrder_preconditions
    (env : Env) (orderId : string) (w : World) (order : Order.t) :
  orders (db w) !! orderId = Some order →
  (Order.status order ≠ OrderStatus.PAYMENT_COMPLETED →
   processOrder env orderId w
   = (Returned (errorResult "INVALID_ORDER_STATUS"
                  ("Order status is "
                     ++ OrderStatus.to_string (Order.status order)
                     ++ ", expected PAYMENT_COMPLETED")), w))
  ∧ (Order.status order = OrderStatus.PAYMENT_COMPLETED →
     (∃ k tx, blockchainTransactions (db w) !! k = Some tx
              ∧ BlockchainTransaction.orderId tx = orderId ∧ isLive tx) →
     ∃ k tx, blockchainTransactions (db w) !! k = Some tx
             ∧ BlockchainTransaction.orderId tx = orderId ∧ isLive tx
             ∧ processOrder env orderId w
               = (Returned (successResult (BlockchainTransaction.id tx)), w)).
Proof.
  intros Horder. split.
  - intros Hstatus. by apply processOrder_unpaid.
  - intros Hstatus Hlive.
    by apply (processOrder_already_dispatched env orderId w order).
Qed.

(** Both guards on the store of scenario 2: [o2] is unpaid, [o1] is paid
    and already has the live transaction [tx0]. *)
Lemma processOrder_preconditions_witness :
  let env := Scenario.envOf Scenario.outOfFunds "tx1" in
  let w := Scenario.dispatched in
  (orders (db w) !! "o2" = Some (Scenario.orderIn "o2" OrderStatus.PENDING_PAYMENT)
   ∧ processOrder env "o2" w
     = (Returned (errorResult "INVALID_ORDER_STATUS"
          "Order status is PENDING_PAYMENT, expected PAYMENT_COMPLETED"), w))
  ∧ (orders (db w) !! "o1" = Some (Scenario.orderIn "o1" OrderStatus.PAYMENT_COMPLETED)
     ∧ ∃ k tx, blockchainTransactions (db w) !! k = Some tx
               ∧ BlockchainTransaction.orderId tx = "o1" ∧ isLive tx
               ∧ processOrder env "o1" w
                 = (Returned (successResult (BlockchainTransaction.id tx)), w)).
Proof.
  intros env w. split.
  - split; [reflexivity|].
    refine (proj1 (processOrder_preconditions env "o2" w
                     (Scenario.orderIn "o2" OrderStatus.PENDING_PAYMENT) _) _);
      [reflexivity | discriminate].
  - split; [reflexivity|].
    refine (proj2 (processOrder_preconditions env "o1" w
                     (Scenario.orderIn "o1" OrderStatus.PAYMENT_COMPLETED) _) _ _);
      [reflexivity | reflexivity |].
    exists "tx0", (Scenario.txIn "tx0" "o1" TransactionStatus.SUBMITTED
                                 (Some "0xDEAD")).
    split; [reflexivity|]. split; [reflexivity|].
    unfold isLive; simpl; discriminate.
Defined.

(** What [processOrder] does once it reaches the adapter, by the
    adapter's reply. *)
Lemma processOrder_dispatch env orderId w order provider plan user adapter :
  Dispatchable orderId w order provider plan user →
  registry env !! Provider.slug provider = Some adapter →
  blockchainTransactions (db w) !! newTxId env = None →
  let finish (o : Order.t) (x : BlockchainTransaction.t)
             (ps : list (string * string)) :=
    mkWorld
      (set_blockchainTransactions
         (<[newTxId env := x]> (blockchainTransactions (db w)))
         (set_orders (<[orderId := o]> (orders (db w))) (db w)))
      (adapterCalls w ++ [(slug adapter, txParamsOf order plan user)])
      (statusProbes w) (triggered w) ps in
  processOrder env orderId w =
  match executeStorageTransaction adapter (txParamsOf order plan user) with
  | Thrown e =>
      (Returned (errorResult "PROCESSING_FAILED"
                   (if instanceofError e then message e
                    else "Failed to process order")),
       finish (Order.with_statusMessage
                 (Some (if instanceofError e then message e
                        else "Unknown error"))
                 (Order.with_status OrderStatus.BLOCKCHAIN_FAILED order))
              (pendingRow env order provider) (pollers w))
  | Returned result =>
      if ITransactionResult.success result
         && truthy (ITransactionResult.txHash result)
      then
        (Returned (successResult (newTxId env)),
         finish (Order.with_storage
                   (ITransactionResult.storageId result)
                   (ITransactionResult.storageEndpoint result)
                   (ITransactionResult.storageMetadata result)
                   (Order.with_status OrderStatus.BLOCKCHAIN_PROCESSING order))
                (BlockchainTransaction.with_submission
                   (ITransactionResult.txHash result)
                   (ITransactionResult.fromAddress result)
                   (ITransactionResult.toAddress result)
                   (ITransactionResult.gasLimit result)
                   (ITransactionResult.gasPrice result)
                   (ITransactionResult.value result)
                   (ITransactionResult.data result)
                   (ITransactionResult.nonce result)
                   (ITransactionResult.rawResponse result)
                   (now env)
                   (BlockchainTransaction.with_status
                      (ITransactionResult.status result)
                      (pendingRow env order provider)))
                ((pollers w ++ [(newTxId env, slug adapter)])%list))
      else
        (Returned (errorResult "TRANSACTION_FAILED"
                     (orElse (ITransactionResult.error result)
                             "Transaction failed")),
         finish (Order.with_statusMessage
                   (Some (orElse (ITransactionResult.error result)
                                 "Blockchain transaction failed"))
                   (Order.with_status OrderStatus.BLOCKCHAIN_FAILED order))
                (BlockchainTransaction.with_statusMessage
                   (Some (orElse (ITransactionResult.error result)
                                 "Transaction failed"))
                   (BlockchainTransaction.with_status
                      TransactionStatus.FAILED
                      (pendingRow env order provider)))
                (pollers w))
  end.
Proof.
  intros [Ho Hst Hnone Hprov Hplan Huser] Hreg Hfresh finish.
  unfold processOrder, tryCatch.
  unfold prisma.order.findUnique, prisma.get.
  unfold bind at 1. rewrite Ho. cbn [mbind option_bind].
  do 4 unfold bind at 1.
  rewrite Hprov, Hplan, Huser.
  rewrite bool_decide_eq_false_2 by (intros Hne; by apply Hne).
  rewrite (related_find_none isLive _ _ _ Hnone).
  rewrite (bind_returned _ _ _ _ _ (order_update_returned _ _ _ _ Ho)).
  cbn [deref]. unfold bind at 1, ret at 1.
  rewrite (bind_returned _ _ _ _ _ (getAdapter_returned _ _ _ _ Hreg)).
  unfold bind at 1, ret at 1. unfold bind at 1, ret at 1.
  erewrite bind_returned; [ | by apply tx_create_returned ].
  erewrite bind_returned;
    [ | apply order_update_returned; simpl; apply lookup_insert_eq ].
  unfold bind at 1, invokeExecute at 1.
  fold (txParamsOf order plan user).
  destruct (executeStorageTransaction adapter _) as [result|e].
  - destruct (ITransactionResult.success result
              && truthy (ITransactionResult.txHash result)).
    + erewrite bind_returned;
        [ | apply tx_update_returned; simpl; apply lookup_insert_eq ].
      erewrite bind_returned;
        [ | apply order_update_returned; simpl; apply lookup_insert_eq ].
      unfold bind, startPoller, ret, finish. simpl.
      by rewrite !insert_insert_eq.
    + erewrite bind_returned.
      2: { unfold failSubmission. apply withTransaction_returned.
           erewrite bind_returned;
             [ | apply tx_update_returned; simpl; apply lookup_insert_eq ].
           apply order_update_returned; simpl; apply lookup_insert_eq. }
      unfold ret, finish. simpl.
      by rewrite !insert_insert_eq.
  - erewrite bind_returned;
      [ | apply order_update_returned; simpl; apply lookup_insert_eq ].
    unfold ret, finish. simpl.
    by rewrite !insert_insert_eq.
Qed.

(** The failure transaction on any store: without the transaction row
    or without the order it throws and the store is as it was; with
    both it writes both. *)
Lemma failSubmission_run txId orderId result w :
  failSubmission txId orderId result w
  = match blockchainTransactions (db w) !! txId, orders (db w) !! orderId with
    | None, _ => (Thrown (PrismaNotFound "BlockchainTransaction"), w)
    | Some _, None => (Thrown (PrismaNotFound "Order"), w)
    | Some x, Some o =>
        let o' := Order.with_statusMessage
                    (Some (orElse (ITransactionResult.error result)
                                  "Blockchain transaction failed"))
                    (Order.with_status OrderStatus.BLOCKCHAIN_FAILED o) in
        (Returned o',
         with_db
           (set_orders (<[orderId := o']> (orders (db w)))
              (set_blockchainTransactions
                 (<[txId :=
                      BlockchainTransaction.with_statusMessage
                        (Some (orElse (ITransactionResult.error result)
                                      "Transaction failed"))
                        (BlockchainTransaction.with_status
                           TransactionStatus.FAILED x)]>
                    (blockchainTransactions (db w))) (db w))) w)
    end.
Proof.
  unfold failSubmission.
  destruct (blockchainTransactions (db w) !! txId) as [x|] eqn:Hx.
  - destruct (orders (db w) !! orderId) as [o|] eqn:Ho.
    + erewrite withTransaction_returned; [reflexivity|].
      erewrite bind_returned; [ | by apply tx_update_returned ].
      by erewrite order_update_returned.
    + erewrite withTransaction_thrown.
      2: { erewrite bind_returned; [ | by apply tx_update_returned ].
           by apply order_update_thrown. }
      by destruct w.
  - erewrite withTransaction_thrown.
    2: { apply bind_thrown.
         unfold prisma.blockchainTransaction.update, prisma.get, bind, throw.
         by rewrite Hx. }
    by destruct w.
Qed.

(** C7. When the adapter answers the submission with an unsuccessful
    result, [processOrder] returns [TRANSACTION_FAILED]; the transaction
    row it created is then [FAILED] and carries the adapter's error
    message (the text "Transaction failed" when the adapter gave none),
    the order is [BLOCKCHAIN_FAILED], and no poller is started.  The two
    rows are written by [failSubmission], run on the world the adapter
    call leaves, and [failSubmission] is one store transaction: on any
    store it either returns, having written both rows, or throws, and
    then it has written neither and the world is as it found it. *)
Theorem processOrder_failed_submission
    env orderId w order provider plan user adapter result :
  Dispatchable orderId w order provider plan user →
  registry env !! Provider.slug provider = Some adapter →
  blockchainTransactions (db w) !! newTxId env = None →
  executeStorageTransaction adapter (txParamsOf order plan user)
  = Returned result →
  ITransactionResult.success result = false →
  let failedRow (x : BlockchainTransaction.t) :=
    BlockchainTransaction.with_statusMessage
      (Some (orElse (ITransactionResult.error result) "Transaction failed"))
      (BlockchainTransaction.with_status TransactionStatus.FAILED x) in
  let failedOrder (o : Order.t) :=
    Order.with_statusMessage
      (Some (orElse (ITransactionResult.error result)
                    "Blockchain transaction failed"))
      (Order.with_status OrderStatus.BLOCKCHAIN_FAILED o) in
  let submitting :=
    mkWorld
      (set_blockchainTransactions
         (<[newTxId env := pendingRow env order provider]>
            (blockchainTransactions (db w)))
         (set_orders
            (<[orderId :=
                 Order.with_status OrderStatus.BLOCKCHAIN_PROCESSING order]>
               (orders (db w))) (db w)))
      (adapterCalls w ++ [(slug adapter, txParamsOf order plan user)])
      (statusProbes w) (triggered w) (pollers w) in
  (∃ w' x o,
     processOrder env orderId w
     = (Returned (errorResult "TRANSACTION_FAILED"
                    (orElse (ITransactionResult.error result)
                            "Transaction failed")), w')
     ∧ failSubmission (newTxId env) orderId result submitting
       = (Returned o, w')
     ∧ blockchainTransactions (db w') !! newTxId env = Some x
     ∧ x = failedRow (pendingRow env order provider)
     ∧ BlockchainTransaction.status x = TransactionStatus.FAILED
     ∧ (∀ m, ITransactionResult.error result = Some m → m ≠ "" →
             BlockchainTransaction.statusMessage x = Some m)
     ∧ orders (db w') !! orderId = Some o
     ∧ o = failedOrder order
     ∧ Order.status o = OrderStatus.BLOCKCHAIN_FAILED
     ∧ pollers w' = pollers w)
  ∧ ∀ txId0 orderId0 w0,
      let r := failSubmission txId0 orderId0 result w0 in
      (∀ e, fst r = Thrown e → snd r = w0)
      ∧ (∀ o', fst r = Returned o' →
           ∃ x0 o0,
             blockchainTransactions (db w0) !! txId0 = Some x0
             ∧ orders (db w0) !! orderId0 = Some o0
             ∧ o' = failedOrder o0
             ∧ snd r
               = with_db
                   (set_orders
                      (<[orderId0 := failedOrder o0]> (orders (db w0)))
                      (set_blockchainTransactions
                         (<[txId0 := failedRow x0]>
                            (blockchainTransactions (db w0))) (db w0))) w0)
      ∧ ((∃ e, fst r = Thrown e)
         ↔ blockchainTransactions (db w0) !! txId0 = None
           ∨ orders (db w0) !! orderId0 = None).
Proof.
  intros Hready Hreg Hfresh Hexec Hfail failedRow failedOrder submitting.
  split.
  - pose proof (processOrder_dispatch _ _ _ _ _ _ _ _ Hready Hreg Hfresh)
      as Hrun.
    cbv zeta in Hrun. rewrite Hexec, Hfail in Hrun. cbn [andb] in Hrun.
    eexists _, _, _. split; [exact Hrun|]. split.
    { rewrite failSubmission_run. subst submitting.
      cbn [db blockchainTransactions orders set_blockchainTransactions
           set_orders].
      rewrite !lookup_insert_eq. cbv zeta. unfold with_db.
      cbn [db blockchainTransactions orders set_blockchainTransactions
           set_orders adapterCalls statusProbes triggered pollers users
           providers storagePlans payments].
      by rewrite !insert_insert_eq. }
    cbn [db blockchainTransactions orders set_blockchainTransactions set_orders
         pollers].
    rewrite !lookup_insert_eq.
    repeat split.
    intros m Hm Hne. simpl. by rewrite (orElse_carries _ _ _ Hm Hne).
  - intros txId0 orderId0 w0 r. subst r. rewrite failSubmission_run.
    destruct (blockchainTransactions (db w0) !! txId0) as [x0|];
      [destruct (orders (db w0) !! orderId0) as [o0|]|]; cbn [fst snd].
    + split; [done|]. split.
      * intros o' [= <-]. by exists x0, o0.
      * split; [by intros [e ?]|by intros [?|?]].
    + split; [done|]. split; [done|]. split; [by right|by eexists].
    + split; [done|]. split; [done|]. split; [by left|by eexists].
Qed.

(** Scenario 3: the adapter answers "out of funds".  And the failure
    transaction for an order the store does not hold: the update of the
    row [tx0] is undone when the update of the order fails. *)
Lemma processOrder_failed_submission_witness :
  let env := Scenario.envOf Scenario.outOfFunds "tx1" in
  let result := Scenario.resultOf false None (Some "out of funds") in
  Dispatchable "o1" Scenario.paid
    (Scenario.orderIn "o1" OrderStatus.PAYMENT_COMPLETED)
    Scenario.filecoin Scenario.starter Scenario.u1
  ∧ (∃ w' x o,
       processOrder env "o1" Scenario.paid
       = (Returned (errorResult "TRANSACTION_FAILED" "out of funds"), w')
       ∧ blockchainTransactions (db w') !! "tx1" = Some x
       ∧ BlockchainTransaction.status x = TransactionStatus.FAILED
       ∧ BlockchainTransaction.statusMessage x = Some "out of funds"
       ∧ orders (db w') !! "o1" = Some o
       ∧ Order.status o = OrderStatus.BLOCKCHAIN_FAILED)
  ∧ is_Some (blockchainTransactions (db Scenario.dispatched) !! "tx0")
  ∧ fst (failSubmission "tx0" "o9" result Scenario.dispatched)
    = Thrown (PrismaNotFound "Order")
  ∧ snd (failSubmission "tx0" "o9" result Scenario.dispatched)
    = Scenario.dispatched.
Proof.
  intros env result.
  pose proof paid_dispatchable as Hready.
  split; [exact Hready|].
  pose proof (processOrder_failed_submission env "o1" Scenario.paid _ _ _ _
                Scenario.outOfFunds result
                Hready eq_refl eq_refl eq_refl eq_refl) as [Hrun Hatomic].
  split.
  - destruct Hrun
      as (w' & x & o & Hrun & _ & Hx & _ & Hxs & Hmsg & Ho & _ & Hos & _).
    exists w', x, o. repeat split; try assumption.
    apply Hmsg; [reflexivity | discriminate].
  - split; [by eexists|]. split; [reflexivity|].
    by apply (proj1 (Hatomic "tx0" "o9" Scenario.dispatched)
                (PrismaNotFound "Order")).
Defined.

(** The adapter lookup of [processOrder] precedes the insertion of the
    transaction row: when the registry has no adapter for the provider,
    the catch path runs with the transactions table as it was. *)
Lemma processOrder_no_adapter env orderId w order provider plan user :
  Dispatchable orderId w order provider plan user →
  registry env !! Provider.slug provider = None →
  processOrder env orderId w
  = (Returned (errorResult "PROCESSING_FAILED"
       ("[" ++ Provider.slug provider ++ "] Provider adapter '"
            ++ Provider.slug provider ++ "' not found")),
     with_db (set_orders
                (<[orderId := Order.with_statusMessage
                     (Some ("[" ++ Provider.slug provider
                                ++ "] Provider adapter '"
                                ++ Provider.slug provider ++ "' not found"))
                     (Order.with_status OrderStatus.BLOCKCHAIN_FAILED order)]>
                   (orders (db w))) (db w)) w).
Proof.
  intros [Ho Hst Hnone Hprov Hplan Huser] Hreg.
  unfold processOrder, tryCatch.
  unfold prisma.order.findUnique, prisma.get.
  unfold bind at 1. rewrite Ho. cbn [mbind option_bind].
  do 4 unfold bind at 1.
  rewrite Hprov, Hplan, Huser.
  rewrite bool_decide_eq_false_2 by (intros Hne; by apply Hne).
  rewrite (related_find_none isLive _ _ _ Hnone).
  rewrite (bind_returned _ _ _ _ _ (order_update_returned _ _ _ _ Ho)).
  cbn [deref]. unfold bind at 1, ret at 1.
  rewrite (bind_thrown _ _ _ _ _ (getAdapter_thrown _ _ _ Hreg)).
  erewrite bind_returned;
    [ | apply order_update_returned; simpl; apply lookup_insert_eq ].
  unfold ret, with_db. simpl.
  by rewrite !insert_insert_eq.
Qed.

(** [retryTransaction] turns away a transaction that is not [FAILED] and
    changes nothing. *)
Lemma retryTransaction_not_failed tRetry env txId w x :
  blockchainTransactions (db w) !! txId = Some x →
  BlockchainTransaction.status x ≠ TransactionStatus.FAILED →
  retryTransaction tRetry env txId w
  = (Returned (errorResult "INVALID_STATUS"
                 "Can only retry failed transactions"), w).
Proof.
  intros Hx Hst.
  unfold retryTransaction, prisma.blockchainTransaction.findUnique, prisma.get.
  unfold bind at 1. rewrite Hx.
  by rewrite bool_decide_eq_true_2.
Qed.

(** [retryTransaction] answers with an error, and changes nothing,
    unless the row exists, is [FAILED] and has budget left; the budget
    check answers [MAX_RETRIES]. *)
Lemma retryTransaction_guards tRetry env txId w :
  match blockchainTransactions (db w) !! txId with
  | None =>
      retryTransaction tRetry env txId w
      = (Returned (errorResult "TX_NOT_FOUND" "Transaction not found"), w)
  | Some x =>
      (BlockchainTransaction.status x ≠ TransactionStatus.FAILED →
       retryTransaction tRetry env txId w
       = (Returned (errorResult "INVALID_STATUS"
                      "Can only retry failed transactions"), w))
      ∧ (BlockchainTransaction.status x = TransactionStatus.FAILED →
         BlockchainTransaction.retryCount x
         >= BlockchainTransaction.maxRetries x →
         retryTransaction tRetry env txId w
         = (Returned (errorResult "MAX_RETRIES"
                        "Maximum retry attempts reached"), w))
  end.
Proof.
  destruct (blockchainTransactions (db w) !! txId) as [x|] eqn:Hx.
  - split.
    + by apply retryTransaction_not_failed.
    + intros Hst Hbudget.
      unfold retryTransaction, prisma.blockchainTransaction.findUnique,
        prisma.get.
      unfold bind at 1. rewrite Hx.
      rewrite bool_decide_eq_false_2 by (intros Hne; by apply Hne).
      by rewrite bool_decide_eq_true_2.
  - unfold retryTransaction, prisma.blockchainTransaction.findUnique,
      prisma.get.
    unfold bind at 1. by rewrite Hx.
Qed.

(** When the guards pass, the row gets [retryCount + 1], [lastRetryAt]
    and [RETRYING], and [processOrder] runs on the row's order. *)
Lemma retryTransaction_reenters tRetry env txId w x :
  blockchainTransactions (db w) !! txId = Some x →
  BlockchainTransaction.status x = TransactionStatus.FAILED →
  BlockchainTransaction.retryCount x < BlockchainTransaction.maxRetries x →
  retryTransaction tRetry env txId w
  = processOrder env (BlockchainTransaction.orderId x)
      (with_db (set_blockchainTransactions
                  (<[txId := BlockchainTransaction.with_status
                               TransactionStatus.RETRYING
                               (BlockchainTransaction.with_retry tRetry x)]>
                     (blockchainTransactions (db w))) (db w)) w).
Proof.
  intros Hx Hst Hbudget.
  unfold retryTransaction, prisma.blockchainTransaction.findUnique, prisma.get.
  unfold bind at 1. rewrite Hx.
  rewrite bool_decide_eq_false_2 by (intros Hne; by apply Hne).
  rewrite bool_decide_eq_false_2 by lia.
  by erewrite bind_returned; [ | by apply tx_update_returned ].
Qed.

(** The re-entry meets the row it has just marked [RETRYING]: whatever
    the order's state, [processOrder] stops at one of its guards, and
    the adapter is not called. *)
Lemma retryTransaction_never_resubmits tRetry env txId w :
  adapterCalls (snd (retryTransaction tRetry env txId w)) = adapterCalls w.
Proof.
  pose proof (retryTransaction_guards tRetry env txId w) as Hguards.
  destruct (blockchainTransactions (db w) !! txId) as [x|] eqn:Hx;
    [|by rewrite Hguards].
  destruct Hguards as [Hlive Hbudget].
  destruct (decide (BlockchainTransaction.status x = TransactionStatus.FAILED))
    as [Hst|Hst]; [|by rewrite Hlive].
  destruct (decide (BlockchainTransaction.retryCount x
                    >= BlockchainTransaction.maxRetries x))
    as [Hge|Hlt]; [by rewrite Hbudget|].
  rewrite (retryTransaction_reenters _ _ _ _ _ Hx Hst) by lia.
  set (w1 := with_db _ w).
  destruct (orders (db w1) !! BlockchainTransaction.orderId x)
    as [order|] eqn:Ho.
  - destruct (decide (Order.status order = OrderStatus.PAYMENT_COMPLETED))
      as [Hpaid|Hunpaid].
    + destruct (processOrder_already_dispatched env _ w1 order Ho Hpaid)
        as (k & tx & _ & _ & _ & ->); [|done].
      exists txId, (BlockchainTransaction.with_status TransactionStatus.RETRYING
                      (BlockchainTransaction.with_retry tRetry x)).
      split; [apply lookup_insert_eq|]. split; [done|]. discriminate.
    + by rewrite (processOrder_unpaid env _ w1 order Ho Hunpaid).
  - unfold processOrder, tryCatch, bind, prisma.order.findUnique, prisma.get.
    simpl. change (orders (db w)) with (orders (db w1)). by rewrite Ho.
Qed.

End Orchestrator.

(** ** The Filecoin adapter's status probe *)

Section Filecoin.
Import FilecoinAdapter.

(** [retry] hands back the first reply that is not an exception. *)
Lemma retry_first_reply {A} (fn : nat → Outcome A) (a : A) :
  retry fn 3 = Returned a ↔
  fn 1%nat = Returned a
  ∨ (∃ e, fn 1%nat = Thrown e) ∧ fn 2%nat = Returned a
  ∨ (∃ e, fn 1%nat = Thrown e) ∧ (∃ e, fn 2%nat = Thrown e)
    ∧ fn 3%nat = Returned a.
Proof.
  unfold retry. cbn [retryFrom].
  destruct (fn 1%nat) as [a1|e1];
    [|destruct (fn 2%nat) as [a2|e2];
      [|destruct (fn 3%nat) as [a3|e3]]];
    (split;
     [ intros [= ->]; eauto 10
     | intros Hcases; destruct_or!; destruct_and?;
       repeat match goal with H : ∃ _, _ |- _ => destruct H end;
       congruence ]).
Qed.

(** C9, amended.  With the adapter initialised and holding its RPC
    provider: no receipt gives [PENDING] with 0 confirmations; when the
    node also answers the request for its head block, a receipt with
    status 0 gives [FAILED] with the error "Transaction reverted", and a
    receipt with status 1 gives [CONFIRMED] exactly when the head is at
    least 5 blocks past the receipt's block and [CONFIRMING] exactly
    when it is fewer, the confirmation count being that difference;
    when that request fails, the answer is [PENDING] with 0
    confirmations and an error text, whatever the receipt says. *)
Theorem checkTransactionStatus_by_receipt (rpc : Rpc) (txHash : string) :
  initialized rpc = true →
  hasProvider rpc = true →
  (retry (getTransactionReceipt rpc txHash) 3 = Returned None →
   checkTransactionStatus rpc txHash
   = Returned (ITransactionStatusResult.mk TransactionStatus.PENDING 0
                 None None None None))
  ∧ (∀ receipt currentBlock,
       retry (getTransactionReceipt rpc txHash) 3 = Returned (Some receipt) →
       getBlockNumber rpc = Returned currentBlock →
       ∃ r, checkTransactionStatus rpc txHash = Returned r
            ∧ ITransactionStatusResult.confirmations r
              = currentBlock - r_blockNumber receipt
            ∧ (r_status receipt = Some 0 →
               ITransactionStatusResult.status r = TransactionStatus.FAILED
               ∧ ITransactionStatusResult.error r
                 = Some "Transaction reverted")
            ∧ (r_status receipt = Some 1 →
               (ITransactionStatusResult.status r = TransactionStatus.CONFIRMED
                ↔ currentBlock - r_blockNumber receipt >= 5)
               ∧ (ITransactionStatusResult.status r
                  = TransactionStatus.CONFIRMING
                  ↔ currentBlock - r_blockNumber receipt < 5)
               ∧ ITransactionStatusResult.error r = None))
  ∧ (∀ receipt e,
       retry (getTransactionReceipt rpc txHash) 3 = Returned (Some receipt) →
       getBlockNumber rpc = Thrown e →
       checkTransactionStatus rpc txHash
       = Returned (ITransactionStatusResult.mk TransactionStatus.PENDING 0
                     None None None
                     (Some (if instanceofError e then message e
                            else "Failed to check status")))).
Proof.
  intros Hinit Hprov. unfold checkTransactionStatus.
  rewrite Hinit, Hprov. cbn [negb]. split; [|split].
  - by intros ->.
  - intros receipt currentBlock -> ->.
    destruct (bool_decide (r_status receipt = Some 0)) eqn:Hreverted.
    + apply bool_decide_eq_true_1 in Hreverted.
      eexists. split; [reflexivity|]. cbn.
      split; [done|]. split; [done|].
      rewrite Hreverted. discriminate.
    + apply bool_decide_eq_false_1 in Hreverted.
      eexists. split; [reflexivity|]. cbn.
      split; [done|]. split; [done|]. intros _.
      case_bool_decide; repeat split; intros; try done; lia.
  - by intros receipt e -> ->.
Qed.

(** Scenario 1: receipt at block 100, head at 106. *)
Lemma checkTransactionStatus_by_receipt_witness :
  let rpc := Scenario.node (Some Scenario.minedAt100) 106 in
  initialized rpc = true
  ∧ hasProvider rpc = true
  ∧ retry (getTransactionReceipt rpc "0xDEAD") 3
    = Returned (Some Scenario.minedAt100)
  ∧ getBlockNumber rpc = Returned 106
  ∧ ∃ r, checkTransactionStatus rpc "0xDEAD" = Returned r
         ∧ ITransactionStatusResult.confirmations r = 6
         ∧ ITransactionStatusResult.status r = TransactionStatus.CONFIRMED.
Proof.
  intros rpc. repeat (split; [reflexivity|]).
  destruct (proj1 (proj2 (checkTransactionStatus_by_receipt rpc "0xDEAD"
                            eq_refl eq_refl))
              Scenario.minedAt100 106 eq_refl eq_refl)
    as (r & Hr & Hconfs & _ & Hmined).
  exists r. split; [exact Hr|]. split; [exact Hconfs|].
  destruct (Hmined eq_refl) as [[_ Hconfirmed] _].
  apply Hconfirmed. cbn. lia.
Defined.

(** C9 as stated fails when the node has the receipt but does not answer
    the request for its head block: the receipt fetched for [0xDEAD]
    has status 0, and the answer is [PENDING] with 0 confirmations, not
    [FAILED]. *)
Lemma reverted_receipt_without_head_is_pending :
  let rpc := Scenario.headless Scenario.revertedAt100 in
  initialized rpc = true
  ∧ hasProvider rpc = true
  ∧ retry (getTransactionReceipt rpc "0xDEAD") 3
    = Returned (Some Scenario.revertedAt100)
  ∧ r_status Scenario.revertedAt100 = Some 0
  ∧ checkTransactionStatus rpc "0xDEAD"
    = Returned (ITransactionStatusResult.mk TransactionStatus.PENDING 0
                  None None None (Some "timeout"))
  ∧ ¬ ∃ r, checkTransactionStatus rpc "0xDEAD" = Returned r
           ∧ ITransactionStatusResult.status r = TransactionStatus.FAILED
           ∧ ITransactionStatusResult.error r = Some "Transaction reverted".
Proof.
  intros rpc. repeat (split; [reflexivity|]).
  by intros (r & [= <-] & Hstatus & _).
Qed.

End Filecoin.

(** ** The webhook route *)

Section WebhookRoute.
Import PaymentService PaymentController.

(** The route, once the signature header is there and the signature
    verifies: the status code follows the handler's outcome. *)
Lemma postWebhook_after_verification env req event w :
  truthy (stripe_signature req) = true →
  constructEvent env (rawBody req) (default "" (stripe_signature req))
  = Returned event →
  postWebhook env req w
  = match dispatch env event w with
    | (Returned _, w') =>
        (Returned (mkResponse 200 (received (Some (Stripe.type event)) None)),
         w')
    | (Thrown e, w') =>
        (Returned (mkResponse 400
           (failure (Some (if instanceofStripeSignatureVerificationError e
                           then "Invalid webhook signature"
                           else if instanceofError e then message e
                                else "Webhook handling failed")))), w')
    end.
Proof.
  intros Hsig Hevent.
  unfold postWebhook, handleWebhook, tryCatch, bind, callStripe, ret.
  rewrite Hsig, Hevent. cbn [negb].
  destruct (dispatch env event w) as [[[]|e] w']; [done|].
  by destruct (instanceofStripeSignatureVerificationError e).
Qed.

(** A signature that does not verify is answered 400. *)
Lemma postWebhook_bad_signature env req m w :
  truthy (stripe_signature req) = true →
  constructEvent env (rawBody req) (default "" (stripe_signature req))
  = Thrown (StripeSignatureVerificationError m) →
  postWebhook env req w
  = (Returned (mkResponse 400 (failure (Some "Invalid webhook signature"))), w).
Proof.
  intros Hsig Hevent.
  unfold postWebhook, handleWebhook, tryCatch, bind, callStripe, ret.
  by rewrite Hsig, Hevent.
Qed.

(** A request without the signature header is answered 200. *)
Lemma postWebhook_missing_header env req w :
  truthy (stripe_signature req) = false →
  postWebhook env req w
  = (Returned (mkResponse 200 (received None (Some "Processing failed"))), w).
Proof.
  intros Hsig. unfold postWebhook, tryCatch, throw, ret. by rewrite Hsig.
Qed.

(** C8 at a failing input.  A [checkout.session.completed] event whose
    signature verifies names a payment the store does not hold: the
    handler's update raises, [handleWebhook] turns that into
    [WEBHOOK_FAILED], and the route answers 400 with the error text
    instead of 200 with [received: true]. *)
Theorem postWebhook_handler_failure_is_400 :
  let event := Stripe.checkout_session_completed
                 (Scenario.completedSession "o1" "pay1") in
  let env := Scenario.verifiedAs event in
  fst (handleWebhook env "{}" "t=1,v1=abc" Scenario.unknownPayment)
  = Returned (errorResult "WEBHOOK_FAILED"
      (message (PrismaNotFound "Payment")))
  ∧ fst (postWebhook env Scenario.signedRequest Scenario.unknownPayment)
    = Returned (mkResponse 400
        (failure (Some (message (PrismaNotFound "Payment")))))
  ∧ fst (postWebhook Scenario.forged Scenario.signedRequest
           Scenario.unknownPayment)
    = Returned (mkResponse 400 (failure (Some "Invalid webhook signature"))).
Proof. repeat split; reflexivity. Qed.

End WebhookRoute.

(** ** The webhook ingestor *)

Section Ingestor.
Import PaymentService.

(** [handleCheckoutCompleted], run to its end. *)
Lemma handleCheckoutCompleted_run env session w :
  let orderId := default "" (Stripe.Session.metadata_orderId session) in
  let paymentId := default "" (Stripe.Session.metadata_paymentId session) in
  handleCheckoutCompleted env session w =
  if negb (truthy (Stripe.Session.metadata_orderId session))
     || negb (truthy (Stripe.Session.metadata_paymentId session))
  then (Returned tt, w)
  else
    match payments (db w) !! paymentId with
    | None => (Thrown (PrismaNotFound "Payment"), w)
    | Some p =>
      if bool_decide (Payment.status p = PaymentStatus.SUCCEEDED)
      then (Returned tt, w)
      else
        match prisma.payment.clashes paymentId (succeededData env session p)
                (payments (db w)) with
        | Some target => (Thrown (PrismaUniqueConstraint target), w)
        | None =>
          match orders (db w) !! orderId with
          | None => (Thrown (PrismaNotFound "Order"), w)
          | Some o =>
              (Returned tt,
               mkWorld
                 (set_orders (<[orderId := paidData env o]> (orders (db w)))
                    (set_payments
                       (<[paymentId := succeededData env session p]>
                          (payments (db w))) (db w)))
                 (adapterCalls w) (statusProbes w)
                 (triggered w ++ [orderId]) (pollers w))
          end
        end
    end.
Proof.
  intros orderId paymentId. unfold handleCheckoutCompleted.
  destruct (negb _ || negb _); [done|].
  fold orderId paymentId.
  unfold prisma.payment.findUnique, prisma.get. unfold bind at 1.
  destruct (payments (db w) !! paymentId) as [p|] eqn:Hp; cbn [fmap option_fmap option_map].
  - destruct (decide (Payment.status p = PaymentStatus.SUCCEEDED)) as [Hs|Hs].
    + rewrite !bool_decide_eq_true_2; [done|done|by rewrite Hs].
    + rewrite !bool_decide_eq_false_2; [|done|by intros [= ?]].
      destruct (prisma.payment.clashes paymentId _ _) as [target|] eqn:Hclash.
      * erewrite bind_thrown; [done|].
        erewrite withTransaction_thrown;
          [ | by erewrite bind_thrown;
                [ | by eapply payment_update_clash ] ].
        by rewrite with_db_same.
      * destruct (orders (db w) !! orderId) as [o|] eqn:Ho.
        -- erewrite bind_returned.
           2: { apply withTransaction_returned.
                erewrite bind_returned;
                  [ | by apply payment_update_returned ].
                by apply order_update_returned. }
           done.
        -- erewrite bind_thrown; [done|].
           erewrite withTransaction_thrown.
           2: { erewrite bind_returned;
                  [ | by apply payment_update_returned ].
                by apply order_update_thrown. }
           by destruct w.
  - rewrite bool_decide_eq_false_2 by done.
    erewrite bind_thrown; [done|].
    erewrite withTransaction_thrown;
      [ | by erewrite bind_thrown; [ | by apply payment_update_missing ] ].
    by rewrite with_db_same.
Qed.

(** A second delivery of the event changes nothing, whatever the first
    one did. *)
Lemma handleCheckoutCompleted_again env1 env2 session w :
  let w1 := snd (handleCheckoutCompleted env1 session w) in
  snd (handleCheckoutCompleted env2 session w1) = w1.
Proof.
  cbv zeta.
  rewrite (handleCheckoutCompleted_run env1 session w). cbv zeta.
  destruct (negb _ || negb _) eqn:Hmeta.
  { cbn [snd]. rewrite handleCheckoutCompleted_run. cbv zeta.
    by rewrite Hmeta. }
  destruct (payments (db w) !! _) as [p|] eqn:Hp.
  2: { cbn [snd]. rewrite handleCheckoutCompleted_run. cbv zeta.
       by rewrite Hmeta, Hp. }
  destruct (bool_decide (Payment.status p = PaymentStatus.SUCCEEDED)) eqn:Hs.
  { cbn [snd]. rewrite handleCheckoutCompleted_run. cbv zeta.
    by rewrite Hmeta, Hp, Hs. }
  destruct (prisma.payment.clashes _ _ _) as [target|] eqn:Hclash.
  { cbn [snd]. rewrite handleCheckoutCompleted_run. cbv zeta.
    rewrite Hmeta, Hp, Hs.
    change (prisma.payment.clashes
              (default "" (Stripe.Session.metadata_paymentId session))
              (succeededData env2 session p) (payments (db w)))
      with (prisma.payment.clashes
              (default "" (Stripe.Session.metadata_paymentId session))
              (succeededData env1 session p) (payments (db w))).
    by rewrite Hclash. }
  destruct (orders (db w) !! _) as [o|] eqn:Ho.
  2: { cbn [snd]. rewrite handleCheckoutCompleted_run. cbv zeta.
       rewrite Hmeta, Hp, Hs.
       change (prisma.payment.clashes
                 (default "" (Stripe.Session.metadata_paymentId session))
                 (succeededData env2 session p) (payments (db w)))
         with (prisma.payment.clashes
                 (default "" (Stripe.Session.metadata_paymentId session))
                 (succeededData env1 session p) (payments (db w))).
       by rewrite Hclash, Ho. }
  cbn [snd]. rewrite handleCheckoutCompleted_run. cbv zeta.
  rewrite Hmeta.
  cbn [db payments set_orders set_payments].
  rewrite lookup_insert_eq.
  by rewrite bool_decide_eq_true_2.
Qed.

(** C5. When the payment named by a [checkout.session.completed] event
    is already [SUCCEEDED], handling the event returns with the world
    exactly as it was: no field of any row changes, no row is created,
    nothing is scheduled.  Hence, whatever the first delivery did, the
    world after [n + 1] deliveries of the event is the world after one. *)
Theorem completed_event_is_idempotent
    (envs : nat → WebhookEnv) (session : Stripe.Session.t) (w : World) :
  (∀ env p,
     payments (db w) !! default "" (Stripe.Session.metadata_paymentId session)
     = Some p →
     Payment.status p = PaymentStatus.SUCCEEDED →
     handleCheckoutCompleted env session w = (Returned tt, w))
  ∧ (∀ n, deliveries envs (S n) session w = deliveries envs 1 session w).
Proof.
  split.
  - intros env p Hp Hs.
    rewrite handleCheckoutCompleted_run. cbv zeta.
    destruct (negb _ || negb _); [done|].
    by rewrite Hp, bool_decide_eq_true_2.
  - induction n as [|n IH]; [done|].
    change (deliveries envs (S (S n)) session w)
      with (snd (handleCheckoutCompleted (envs (S n)) session
                   (deliveries envs (S n) session w))).
    rewrite IH. apply handleCheckoutCompleted_again.
Qed.

(** Scenario 2: a duplicate on a paid order, and three deliveries to an
    order awaiting payment. *)
Lemma completed_event_is_idempotent_witness :
  let session := Scenario.completedSession "o1" "pay1" in
  let env := Scenario.verifiedAs (Stripe.checkout_session_completed session) in
  (payments (db Scenario.paid) !! "pay1"
   = Some (Scenario.paymentIn "pay1" "o1" PaymentStatus.SUCCEEDED
                              (Some "cs_1"))
   ∧ handleCheckoutCompleted env session Scenario.paid
     = (Returned tt, Scenario.paid))
  ∧ deliveries (λ _, env) 3 session Scenario.awaitingPayment
    = deliveries (λ _, env) 1 session Scenario.awaitingPayment.
Proof.
  intros session env. split.
  - split; [reflexivity|].
    exact (proj1 (completed_event_is_idempotent (λ _, env) session
                    Scenario.paid) env _ eq_refl eq_refl).
  - exact (proj2 (completed_event_is_idempotent (λ _, env) session
                    Scenario.awaitingPayment) 2%nat).
Defined.

(** [cancelOrder] on an order awaiting payment. *)
Lemma cancelOrder_pending orderId w order :
  orders (db w) !! orderId = Some order →
  Order.status order = OrderStatus.PENDING_PAYMENT →
  OrderService.cancelOrder orderId w
  = (Returned (Order.with_statusMessage (Some "Cancelled by user")
                 (Order.with_status OrderStatus.CANCELLED order)),
     with_db (set_orders
                (<[orderId := Order.with_statusMessage
                                (Some "Cancelled by user")
                                (Order.with_status OrderStatus.CANCELLED
                                                   order)]>
                   (orders (db w))) (db w)) w).
Proof.
  intros Ho Hst.
  unfold OrderService.cancelOrder, prisma.order.findUnique, prisma.get.
  unfold bind at 1. rewrite Ho.
  rewrite bool_decide_eq_false_2 by (intros Hne; by apply Hne).
  by rewrite (order_update_returned _ _ _ _ Ho).
Qed.

(** C2, as the code has it.  The handler of [checkout.session.completed]
    is guarded by the payment's status alone and never reads the order's:
    when the payment exists and is not [SUCCEEDED], the order exists, and
    the uniquely indexed columns of the updated payment collide with no
    other row, the payment becomes [SUCCEEDED], the order becomes
    [PAYMENT_COMPLETED] whatever its status was, and the allocation is
    started.  In particular, after [cancelOrder] has moved an order from
    [PENDING_PAYMENT] to [CANCELLED], a late event moves it on to
    [PAYMENT_COMPLETED], its payment ends [SUCCEEDED], and the allocation
    is started for it. *)
Theorem completed_event_ignores_order_status
    env session w order payment :
  let orderId := default "" (Stripe.Session.metadata_orderId session) in
  let paymentId := default "" (Stripe.Session.metadata_paymentId session) in
  truthy (Stripe.Session.metadata_orderId session) = true →
  truthy (Stripe.Session.metadata_paymentId session) = true →
  orders (db w) !! orderId = Some order →
  payments (db w) !! paymentId = Some payment →
  Payment.status payment ≠ PaymentStatus.SUCCEEDED →
  prisma.payment.clashes paymentId (succeededData env session payment)
    (payments (db w)) = None →
  (let w' := snd (handleCheckoutCompleted env session w) in
   Order.status <$> orders (db w') !! orderId
   = Some OrderStatus.PAYMENT_COMPLETED
   ∧ Payment.status <$> payments (db w') !! paymentId
     = Some PaymentStatus.SUCCEEDED
   ∧ triggered w' = (triggered w ++ [orderId])%list)
  ∧ (Order.status order = OrderStatus.PENDING_PAYMENT →
     let w1 := snd (OrderService.cancelOrder orderId w) in
     let w2 := snd (handleCheckoutCompleted env session w1) in
     Order.status <$> orders (db w1) !! orderId = Some OrderStatus.CANCELLED
     ∧ Payment.status <$> payments (db w1) !! paymentId
       = Some (Payment.status payment)
     ∧ Order.status <$> orders (db w2) !! orderId
       = Some OrderStatus.PAYMENT_COMPLETED
     ∧ Payment.status <$> payments (db w2) !! paymentId
       = Some PaymentStatus.SUCCEEDED
     ∧ triggered w2 = (triggered w ++ [orderId])%list).
Proof.
  intros orderId paymentId Hoid Hpid Ho Hp Hs Hfree.
  assert (Hrun : ∀ v o, orders (db v) !! orderId = Some o →
            payments (db v) = payments (db w) →
            let v' := snd (handleCheckoutCompleted env session v) in
            Order.status <$> orders (db v') !! orderId
            = Some OrderStatus.PAYMENT_COMPLETED
            ∧ Payment.status <$> payments (db v') !! paymentId
              = Some PaymentStatus.SUCCEEDED
            ∧ triggered v' = (triggered v ++ [orderId])%list).
  { intros v o Hvo Hvp. cbv zeta.
    rewrite handleCheckoutCompleted_run. cbv zeta.
    rewrite Hoid, Hpid. cbn [negb orb].
    fold orderId paymentId. rewrite Hvp, Hp.
    rewrite bool_decide_eq_false_2 by done.
    rewrite Hfree, Hvo. cbn [snd db orders payments set_orders set_payments
                             triggered].
    by rewrite !lookup_insert_eq. }
  split.
  - by apply (Hrun w order).
  - intros Hpending. cbv zeta.
    rewrite (cancelOrder_pending _ _ _ Ho Hpending). cbn [snd].
    set (w1 := with_db _ w).
    split; [|split].
    + subst w1. cbn [db with_db orders set_orders].
      by rewrite lookup_insert_eq.
    + subst w1. cbn [db with_db payments set_orders]. by rewrite Hp.
    + change (triggered w) with (triggered w1).
      eapply (Hrun w1); [|done].
      subst w1. cbn [db with_db orders set_orders]. apply lookup_insert_eq.
Qed.

(** Scenario 6 on the code. *)
Lemma completed_event_ignores_order_status_witness :
  let session := Scenario.completedSession "o1" "pay1" in
  let env := Scenario.verifiedAs (Stripe.checkout_session_completed session) in
  let w := Scenario.awaitingPayment in
  let w1 := snd (OrderService.cancelOrder "o1" w) in
  let w2 := snd (handleCheckoutCompleted env session w1) in
  (orders (db w) !! "o1" = Some (Scenario.orderIn "o1" OrderStatus.PENDING_PAYMENT)
   ∧ payments (db w) !! "pay1"
     = Some (Scenario.paymentIn "pay1" "o1" PaymentStatus.PENDING
                                (Some "cs_1")))
  ∧ Order.status <$> orders (db w1) !! "o1" = Some OrderStatus.CANCELLED
  ∧ Order.status <$> orders (db w2) !! "o1"
    = Some OrderStatus.PAYMENT_COMPLETED
  ∧ Payment.status <$> payments (db w2) !! "pay1"
    = Some PaymentStatus.SUCCEEDED
  ∧ triggered w2 = ["o1"].
Proof.
  intros session env w w1 w2. split; [by split|].
  destruct (proj2 (completed_event_ignores_order_status env session w
                     (Scenario.orderIn "o1" OrderStatus.PENDING_PAYMENT)
                     (Scenario.paymentIn "pay1" "o1" PaymentStatus.PENDING
                                         (Some "cs_1"))
                     eq_refl eq_refl eq_refl eq_refl
                     ltac:(discriminate) eq_refl) eq_refl)
    as (Hc & _ & Ho & Hp & Ht).
  by repeat split.
Defined.

(** C2 on scenario 6: the buyer cancels, then the late
    [checkout.session.completed] arrives.  The order does not stay
    [CANCELLED], the payment does not end [CANCELLED], and the
    allocation is started. *)
Lemma cancel_then_completed_advances :
  let session := Scenario.completedSession "o1" "pay1" in
  let env := Scenario.verifiedAs (Stripe.checkout_session_completed session) in
  let w1 := snd (OrderService.cancelOrder "o1" Scenario.awaitingPayment) in
  let w2 := snd (handleCheckoutCompleted env session w1) in
  Order.status <$> orders (db w1) !! "o1" = Some OrderStatus.CANCELLED
  ∧ Order.status <$> orders (db w2) !! "o1"
    = Some OrderStatus.PAYMENT_COMPLETED
  ∧ Order.status <$> orders (db w2) !! "o1" ≠ Some OrderStatus.CANCELLED
  ∧ Payment.status <$> payments (db w2) !! "pay1"
    = Some PaymentStatus.SUCCEEDED
  ∧ Payment.status <$> payments (db w2) !! "pay1"
    ≠ Some PaymentStatus.CANCELLED
  ∧ triggered w2 = ["o1"]
  ∧ triggered w2 ≠ [].
Proof. vm_compute. repeat split; discriminate. Qed.

End Ingestor.

(** ** The checkout initiator *)

Section Checkout.
Import PaymentService.

(** A repeated checkout whose order has a recorded session that the
    processor still returns: the session comes back with the existing
    order and payment, and the world is untouched.  An expired session
    has no [url]; it comes back with an empty [sessionUrl]. *)
Lemma createCheckoutSession_replays env params w key existing payment
    sessionId_ session :
  idempotencyKey params = Some key →
  key ≠ "" →
  findBy Order.idempotencyKey key (orders (db w)) = Some existing →
  head (related Payment.orderId (Order.id existing) (payments (db w)))
  = Some payment →
  Payment.stripeSessionId payment = Some sessionId_ →
  sessionId_ ≠ "" →
  sessions_retrieve env sessionId_ = Returned session →
  createCheckoutSession env params w
  = (Returned (successResult
       (mkCheckoutResult (Stripe.Session.id session)
          (orElse (Stripe.Session.url session) "")
          (Order.id existing) (Payment.id payment))), w).
Proof.
  intros Hkey Hne Hexisting Hpayment Hsid Hsne Hsession.
  assert (Hearly : checkIdempotency env (idempotencyKey params) w
            = (Returned (Some (successResult
                 (mkCheckoutResult (Stripe.Session.id session)
                    (orElse (Stripe.Session.url session) "")
                    (Order.id existing) (Payment.id payment)))), w)).
  { unfold checkIdempotency. rewrite Hkey.
    change (default "" (Some key)) with key. cbn [truthy].
    destruct (String.eqb key "") eqn:E; [by apply String.eqb_eq in E|].
    cbn [negb].
    unfold prisma.order.findUniqueByIdempotencyKey, prisma.get.
    unfold bind at 1. rewrite Hexisting.
    unfold bind at 1. rewrite Hpayment, Hsid.
    change (default "" (Some sessionId_)) with sessionId_. cbn [truthy].
    destruct (String.eqb sessionId_ "") eqn:E';
      [by apply String.eqb_eq in E'|].
    cbn [negb]. unfold bind, callStripe, ret. by rewrite Hsession. }
  unfold createCheckoutSession, tryCatch.
  by rewrite (bind_returned _ _ _ _ _ Hearly).
Qed.

(** C4 at its failing inputs.  The buyer repeats a checkout with the key
    of order [o1].
    - No session was recorded on the payment: the call falls through to
      a fresh checkout, the insertion of a second order with the same
      key violates the unique index, and the answer is [CHECKOUT_FAILED].
    - A session was recorded but the processor no longer has it: the
      answer is [STRIPE_ERROR].
    Neither answer carries the existing order.  (With the session still
    known, open or expired, the existing order does come back.) *)
Theorem createCheckoutSession_absent_session_fails :
  createCheckoutSession (Scenario.processor Scenario.noSuchSession)
    Scenario.repeated Scenario.sessionless
  = (Returned (errorResult "CHECKOUT_FAILED"
       "Unique constraint failed on the fields: idempotency_key"),
     Scenario.sessionless)
  ∧ createCheckoutSession (Scenario.processor Scenario.noSuchSession)
      Scenario.repeated Scenario.awaitingPayment
    = (Returned (errorResult "STRIPE_ERROR" "No such checkout.session: cs_1"),
       Scenario.awaitingPayment)
  ∧ createCheckoutSession
      (Scenario.processor (Returned Scenario.expiredSession))
      Scenario.repeated Scenario.awaitingPayment
    = (Returned (successResult (mkCheckoutResult "cs_1" "" "o1" "pay1")),
       Scenario.awaitingPayment)
  ∧ createCheckoutSession
      (Scenario.processor (Returned Scenario.openSession))
      Scenario.repeated Scenario.awaitingPayment
    = (Returned (successResult
         (mkCheckoutResult "cs_1" "https://checkout/cs_1" "o1" "pay1")),
       Scenario.awaitingPayment).
Proof. vm_compute. repeat split; reflexivity. Qed.

End Checkout.

(** ** Store invariants through the computation monad *)

Section Preservation.
Variable Inv : Store → Prop.

Lemma preserves_ret {A} (a : A) : preserves Inv (ret a).
Proof. by intros w. Qed.

Lemma preserves_throw {A} (e : Exn) : preserves Inv (@throw A e).
Proof. by intros w. Qed.

Lemma preserves_bind {A B} (m : M A) (k : A → M B) :
  preserves Inv m → (∀ a, preserves Inv (k a)) → preserves Inv (bind m k).
Proof.
  intros Hm Hk w Hw. unfold bind.
  specialize (Hm w Hw). destruct (m w) as [[a|e] w']; [|done].
  by apply Hk.
Qed.

Lemma preserves_tryCatch {A} (m : M A) (h : Exn → M A) :
  preserves Inv m → (∀ e, preserves Inv (h e)) → preserves Inv (tryCatch m h).
Proof.
  intros Hm Hh w Hw. unfold tryCatch.
  specialize (Hm w Hw). destruct (m w) as [[a|e] w']; [done|].
  by apply Hh.
Qed.

Lemma preserves_withTransaction {A} (m : M A) :
  preserves Inv m → preserves Inv (withTransaction m).
Proof.
  intros Hm w Hw. unfold withTransaction.
  specialize (Hm w Hw). by destruct (m w) as [[a|e] w'].
Qed.

Lemma preserves_get {A} (f : Store → A) : preserves Inv (prisma.get f).
Proof. by intros w. Qed.

Lemma preserves_put (f : Store → Store) :
  (∀ s, Inv s → Inv (f s)) → preserves Inv (prisma.put f).
Proof. intros Hf w Hw. by apply Hf. Qed.

Lemma preserves_deref {A} what (o : option A) : preserves Inv (deref what o).
Proof. destruct o; by intros w. Qed.

(** What follows a [deref] runs with the value that was there. *)
Lemma preserves_bind_deref {A B} what (o : option A) (k : A → M B) :
  (∀ a, o = Some a → preserves Inv (k a)) →
  preserves Inv (bind (deref what o) k).
Proof.
  intros Hk. destruct o as [a|]; [|by intros w].
  intros w Hw. by apply (Hk a).
Qed.

Lemma preserves_dateArgument argument date :
  preserves Inv (prisma.dateArgument argument date).
Proof. destruct date; by intros w. Qed.

(** What follows a validated date runs with a valid one. *)
Lemma preserves_bind_dateArgument {B} argument date (k : Z → M B) :
  (∀ time, date = Some time → preserves Inv (k time)) →
  preserves Inv (bind (prisma.dateArgument argument date) k).
Proof.
  intros Hk. destruct date as [time|]; [|by intros w].
  intros w Hw. by apply (Hk time).
Qed.

Lemma preserves_getAdapter registry s : preserves Inv (getAdapter registry s).
Proof. unfold getAdapter. destruct (registry !! s); by intros w. Qed.

Lemma preserves_invokeExecute a p : preserves Inv (invokeExecute a p).
Proof. by intros w. Qed.

Lemma preserves_invokeCheck a h : preserves Inv (invokeCheck a h).
Proof. by intros w. Qed.

Lemma preserves_startPoller i sl : preserves Inv (startPoller i sl).
Proof. by intros w. Qed.

Lemma preserves_startProcessOrder i : preserves Inv (startProcessOrder i).
Proof. by intros w. Qed.

Lemma preserves_callStripe {A} (reply : Outcome A) :
  preserves Inv (PaymentService.callStripe reply).
Proof. by intros w. Qed.

End Preservation.

(** Taking a computation apart along its control structure. *)
Ltac preserve_step :=
  lazymatch goal with
  | |- preserves _ (bind (deref _ _) _) =>
      apply preserves_bind_deref; intros ? ?
  | |- preserves _ (bind (prisma.dateArgument _ _) _) =>
      apply preserves_bind_dateArgument; intros ? ?
  | |- preserves _ (bind _ _) => apply preserves_bind; [|intros ?]
  | |- preserves _ (tryCatch _ _) => apply preserves_tryCatch; [|intros ?]
  | |- preserves _ (withTransaction _) => apply preserves_withTransaction
  | |- preserves _ (ret _) => apply preserves_ret
  | |- preserves _ (throw _) => apply preserves_throw
  | |- preserves _ (prisma.get _) => apply preserves_get
  | |- preserves _ (deref _ _) => apply preserves_deref
  | |- preserves _ (prisma.dateArgument _ _) => apply preserves_dateArgument
  | |- preserves _ (getAdapter _ _) => apply preserves_getAdapter
  | |- preserves _ (invokeExecute _ _) => apply preserves_invokeExecute
  | |- preserves _ (invokeCheck _ _) => apply preserves_invokeCheck
  | |- preserves _ (startPoller _ _) => apply preserves_startPoller
  | |- preserves _ (startProcessOrder _) => apply preserves_startProcessOrder
  | |- preserves _ (PaymentService.callStripe _) => apply preserves_callStripe
  | |- preserves _ (match ?x with _ => _ end) => destruct x
  | |- preserves _ (let _ := _ in _) => cbv zeta
  end.

(** ** P5 as an invariant of the store *)

Section Expiry.




Lemma TimeClip_None time : TimeClip time = None ↔ maxTime < Z.abs time.
Proof.
  unfold TimeClip. case_bool_decide; split; try done; lia.
Qed.


Variable P : string → Order.t → Prop.









End Expiry.



Section ExpiryOperations.
Import BlockchainService PaymentService.






End ExpiryOperations.

(** ** The confirmation poller and the sweep *)

Section Confirmation.
Import BlockchainService.


Lemma pollIteration_unfold env txId providerSlug w :
  pollIteration env txId providerSlug w
  = tryCatch
      (pollRow env txId providerSlug
         (blockchainTransactions (db w) !! txId)
         (blockchainTransactions (db w) !! txId
            ≫= λ x, orders (db w) !! BlockchainTransaction.orderId x))
      (λ _, ret Continue) w.
Proof. reflexivity. Qed.






Lemma invokeCheck_run a h w :
  invokeCheck a h w
  = (checkTransactionStatus a h,
     mkWorld (db w) (adapterCalls w) (statusProbes w ++ [(slug a, h)])
             (triggered w) (pollers w)).
Proof. reflexivity. Qed.

(** One polling iteration that sees [CONFIRMED]: the transaction row is
    written first, then the order, whose expiry date the client
    accepts only when it is a valid [Date]. *)
Lemma pollIteration_confirmed_row env txId providerSlug w tx adapter st order :
  blockchainTransactions (db w) !! txId = Some tx →
  truthy (BlockchainTransaction.txHash tx) = true →
  BlockchainTransaction.status tx ≠ TransactionStatus.CONFIRMED →
  BlockchainTransaction.status tx ≠ TransactionStatus.FAILED →
  pollRegistry env !! providerSlug = Some adapter →
  checkTransactionStatus adapter (default "" (BlockchainTransaction.txHash tx))
  = Returned st →
  ITransactionStatusResult.status st = TransactionStatus.CONFIRMED →
  orders (db w) !! BlockchainTransaction.orderId tx = Some order →
  let probed :=
    mkWorld
      (set_blockchainTransactions
         (<[txId :=
              BlockchainTransaction.with_statusMessage
                (ITransactionStatusResult.error st)
                (BlockchainTransaction.with_probe
                   (ITransactionStatusResult.confirmations st)
                   (ITransactionStatusResult.blockNumber st)
                   (ITransactionStatusResult.blockHash st)
                   (ITransactionStatusResult.gasUsed st)
                   (Some (tConfirmed env))
                   (BlockchainTransaction.with_status
                      TransactionStatus.CONFIRMED tx))]>
            (blockchainTransactions (db w))) (db w))
      (adapterCalls w)
      (statusProbes w
         ++ [(slug adapter, default "" (BlockchainTransaction.txHash tx))])
      (triggered w) (pollers w) in
  pollIteration env txId providerSlug w
  = match addDays (pollZone env) (tExpiryBase env)
                  (Order.durationDays order) with
    | Some expires =>
        (Returned Stop,
         with_db
           (set_orders
              (<[BlockchainTransaction.orderId tx :=
                   Order.with_allocation (tAllocated env) expires
                     (Order.with_status OrderStatus.COMPLETED order)]>
                 (orders (db w)))
              (db probed)) probed)
    | None => (Returned Continue, probed)
    end.
Proof.
  intros Htx Hhash Hnc Hnf Hreg Hcheck Hst Horder probed.
  rewrite pollIteration_unfold. rewrite Htx. cbn [mbind option_bind].
  rewrite Horder. unfold tryCatch, pollRow. rewrite Hhash. cbn [negb].
  rewrite bool_decide_eq_false_2 by (by intros [?|?]).
  rewrite (bind_returned _ _ _ _ _ (getAdapter_returned _ _ _ _ Hreg)).
  unfold bind at 1. rewrite invokeCheck_run, Hcheck.
  erewrite bind_returned; [ | by apply tx_update_returned ].
  rewrite Hst.
  change (isConfirmed TransactionStatus.CONFIRMED) with true. cbn iota.
  cbn [deref]. unfold bind at 1, ret at 1. cbv zeta.
  destruct (addDays _ _ _) as [expires|]; cbn [prisma.dateArgument].
  - unfold bind at 1, ret at 1.
    erewrite bind_returned; [ | by apply order_update_returned ].
    done.
  - done.
Qed.

(** The same iteration when the expiry date is valid. *)
Lemma pollIteration_confirmed env txId providerSlug w tx adapter st order
    expires :
  blockchainTransactions (db w) !! txId = Some tx →
  truthy (BlockchainTransaction.txHash tx) = true →
  BlockchainTransaction.status tx ≠ TransactionStatus.CONFIRMED →
  BlockchainTransaction.status tx ≠ TransactionStatus.FAILED →
  pollRegistry env !! providerSlug = Some adapter →
  checkTransactionStatus adapter (default "" (BlockchainTransaction.txHash tx))
  = Returned st →
  ITransactionStatusResult.status st = TransactionStatus.CONFIRMED →
  orders (db w) !! BlockchainTransaction.orderId tx = Some order →
  addDays (pollZone env) (tExpiryBase env) (Order.durationDays order)
  = Some expires →
  pollIteration env txId providerSlug w
  = (Returned Stop,
     mkWorld
       (set_orders
          (<[BlockchainTransaction.orderId tx :=
               Order.with_allocation (tAllocated env) expires
                 (Order.with_status OrderStatus.COMPLETED order)]>
             (orders (db w)))
          (set_blockchainTransactions
             (<[txId :=
                  BlockchainTransaction.with_statusMessage
                    (ITransactionStatusResult.error st)
                    (BlockchainTransaction.with_probe
                       (ITransactionStatusResult.confirmations st)
                       (ITransactionStatusResult.blockNumber st)
                       (ITransactionStatusResult.blockHash st)
                       (ITransactionStatusResult.gasUsed st)
                       (Some (tConfirmed env))
                       (BlockchainTransaction.with_status
                          TransactionStatus.CONFIRMED tx))]>
                (blockchainTransactions (db w))) (db w)))
       (adapterCalls w)
       (statusProbes w
          ++ [(slug adapter, default "" (BlockchainTransaction.txHash tx))])
       (triggered w) (pollers w)).
Proof.
  intros Htx Hhash Hnc Hnf Hreg Hcheck Hst Horder Hexpires.
  rewrite (pollIteration_confirmed_row _ _ _ _ _ _ _ _
             Htx Hhash Hnc Hnf Hreg Hcheck Hst Horder).
  by rewrite Hexpires.
Qed.





(** Scenarios 1 and 2 on the model: payment, submission, one polling
    iteration; then the same [checkout.session.completed] once more. *)
Example happy_path_completes :
  let w := Scenario.happyPath in
  let again := run (Webhook (Scenario.verifiedAs
                               (Stripe.checkout_session_completed
                                  (Scenario.completedSession "o1" "pay1")))
                            Scenario.signedRequest) w in
  Order.status <$> orders (db w) !! "o1" = Some OrderStatus.COMPLETED
  ∧ Order.allocatedAt <$> orders (db w) !! "o1" = Some (Some 1700000010002)
  ∧ Order.expiresAt <$> orders (db w) !! "o1"
    = Some (Some (1700000010002 + 180 * msPerDay))
  ∧ BlockchainTransaction.txHash <$> blockchainTransactions (db w) !! "tx1"
    = Some (Some "0xDEAD")
  ∧ BlockchainTransaction.status <$> blockchainTransactions (db w) !! "tx1"
    = Some TransactionStatus.CONFIRMED
  ∧ BlockchainTransaction.confirmations
      <$> blockchainTransactions (db w) !! "tx1" = Some 6
  ∧ triggered w = ["o1"]
  ∧ pollers w = [("tx1", "filecoin")]
  ∧ again = w.
Proof. vm_compute. repeat split; reflexivity. Qed.

End Confirmation.

(** ** A row that no operation moves

    A transaction row that is [PENDING] or [RETRYING] and has no hash is
    out of reach of every writer: the poller returns on a row without a
    hash, the sweep selects [SUBMITTED] and [CONFIRMING] rows only,
    [retryTransaction] wants [FAILED], and [processOrder] only updates
    the row it has just inserted. *)

Section StuckRow.
Import BlockchainService.
Variable k : string.
Variable x : BlockchainTransaction.t.
Hypothesis x_idle :
  BlockchainTransaction.status x = TransactionStatus.PENDING
  ∨ BlockchainTransaction.status x = TransactionStatus.RETRYING.
Hypothesis x_no_hash : BlockchainTransaction.txHash x = None.

Lemma holdsRow_frame {A} (m : M A) :
  (∀ w, blockchainTransactions (db (snd (m w))) = blockchainTransactions (db w)) →
  preserves (holdsRow k x) m.
Proof.
  intros Hframe w Hw. unfold holdsRow, keyed in *. by rewrite Hframe.
Qed.

Lemma holdsRow_order_update i f : preserves (holdsRow k x) (prisma.order.update i f).
Proof.
  apply holdsRow_frame. intros w.
  unfold prisma.order.update, prisma.get, prisma.put, bind, ret, throw.
  by destruct (orders (db w) !! i).
Qed.

Lemma holdsRow_order_create o : preserves (holdsRow k x) (prisma.order.create o).
Proof.
  apply holdsRow_frame. intros w.
  unfold prisma.order.create, prisma.get, prisma.put, bind, ret, throw.
  cbv [id].
  by repeat (match goal with |- context [if ?b then _ else _] => destruct b end;
             [done|]).
Qed.

Lemma holdsRow_payment_update i f :
  preserves (holdsRow k x) (prisma.payment.update i f).
Proof.
  apply holdsRow_frame. intros w.
  unfold prisma.payment.update, prisma.get, prisma.put, bind, ret, throw.
  cbv [id].
  destruct (payments (db w) !! i); [|done].
  by destruct (prisma.payment.clashes _ _ _).
Qed.

Lemma holdsRow_payment_create p :
  preserves (holdsRow k x) (prisma.payment.create p).
Proof.
  apply holdsRow_frame. intros w.
  unfold prisma.payment.create, prisma.get, prisma.put, bind, ret, throw.
  cbv [id].
  destruct (bool_decide _); [done|].
  by destruct (prisma.payment.clashes _ _ _).
Qed.

Lemma holdsRow_user_update i f :
  preserves (holdsRow k x) (prisma.user.update i f).
Proof.
  apply holdsRow_frame. intros w.
  unfold prisma.user.update, prisma.get, prisma.put, bind, ret, throw.
  destruct (users (db w) !! i); [|done].
  by destruct (taken _ _ _ _).
Qed.

(** Updating another row, without touching its [id]. *)
Lemma holdsRow_tx_update i f :
  i ≠ k → (∀ y, BlockchainTransaction.id (f y) = BlockchainTransaction.id y) →
  preserves (holdsRow k x) (prisma.blockchainTransaction.update i f).
Proof.
  intros Hne Hid w [Hkeyed Hrow].
  destruct (blockchainTransactions (db w) !! i) as [y|] eqn:Hy.
  - rewrite (tx_update_returned _ _ _ _ Hy).
    cbn [snd db with_db]. split.
    + intros j z. cbn [blockchainTransactions set_blockchainTransactions].
      destruct (decide (i = j)) as [->|Hij].
      * rewrite lookup_insert_eq. intros [= <-]. rewrite Hid. by apply Hkeyed.
      * rewrite lookup_insert_ne by done. apply Hkeyed.
    + cbn [blockchainTransactions set_blockchainTransactions].
      by rewrite lookup_insert_ne.
  - unfold prisma.blockchainTransaction.update, prisma.get, bind, throw.
    by rewrite Hy.
Qed.

(** An insertion either fails or lands on a key other than [k]; what
    follows it runs only in the second case. *)
Lemma holdsRow_bind_tx_create {B} y (cont : BlockchainTransaction.t → M B) :
  (BlockchainTransaction.id y ≠ k → preserves (holdsRow k x) (cont y)) →
  preserves (holdsRow k x) (bind (prisma.blockchainTransaction.create y) cont).
Proof.
  intros Hcont w [Hkeyed Hrow].
  destruct (blockchainTransactions (db w) !! BlockchainTransaction.id y)
    as [z|] eqn:Hz.
  - erewrite bind_thrown; [done|]. apply tx_create_thrown. by rewrite Hz.
  - assert (Hne : BlockchainTransaction.id y ≠ k) by congruence.
    rewrite (bind_returned _ _ _ _ _ (tx_create_returned _ _ Hz)).
    apply (Hcont Hne). cbn [db with_db]. split.
    + intros j z. cbn [blockchainTransactions set_blockchainTransactions].
      destruct (decide (BlockchainTransaction.id y = j)) as [<-|Hij].
      * rewrite lookup_insert_eq. by intros [= <-].
      * rewrite lookup_insert_ne by done. apply Hkeyed.
    + cbn [blockchainTransactions set_blockchainTransactions].
      by rewrite lookup_insert_ne.
Qed.

Ltac hold :=
  repeat first
    [ lazymatch goal with
      | |- preserves _ (bind (prisma.blockchainTransaction.create _) _) =>
          apply holdsRow_bind_tx_create; intros ?
      end
    | preserve_step
    | apply holdsRow_order_update
    | apply holdsRow_order_create
    | apply holdsRow_payment_update
    | apply holdsRow_payment_create
    | apply holdsRow_user_update
    | apply holdsRow_tx_update; [assumption | by intros ?] ].

Lemma processOrder_holdsRow env orderId :
  preserves (holdsRow k x) (processOrder env orderId).
Proof.
  unfold processOrder, failSubmission, prisma.order.findUnique. hold.
Qed.

Lemma retryTransaction_holdsRow tRetry env txId :
  preserves (holdsRow k x) (retryTransaction tRetry env txId).
Proof.
  destruct (decide (txId = k)) as [->|Hne].
  - intros w Hw. pose proof Hw as [_ Hrow].
    rewrite (retryTransaction_not_failed _ _ _ _ _ Hrow); [done|].
    destruct x_idle as [-> | ->]; discriminate.
  - unfold retryTransaction, prisma.blockchainTransaction.findUnique. hold.
    apply processOrder_holdsRow.
Qed.

Lemma pollIteration_holdsRow env txId providerSlug :
  preserves (holdsRow k x) (pollIteration env txId providerSlug).
Proof.
  destruct (decide (txId = k)) as [->|Hne].
  - intros w Hw. pose proof Hw as [_ Hrow].
    rewrite pollIteration_unfold, Hrow.
    unfold pollRow, tryCatch. by rewrite x_no_hash.
  - unfold pollIteration, pollRow, prisma.blockchainTransaction.findUnique.
    hold.
Qed.

Lemma sweepAll_holdsRow envs rows :
  Forall (λ row, BlockchainTransaction.id row.1.1 ≠ k) rows →
  ∀ n, preserves (holdsRow k x) (sweepAll n envs rows).
Proof.
  intros Hrows.
  induction Hrows as [|[[tx order_] provider_] rows Hrow _ IH];
    intros n; cbn [sweepAll].
  - apply preserves_ret.
  - apply preserves_bind; [|intros _; apply IH].
    cbn in Hrow. unfold sweepOne. hold.
Qed.

Lemma processPendingConfirmations_holdsRow envs :
  preserves (holdsRow k x) (processPendingConfirmations envs).
Proof.
  intros w Hw.
  change (processPendingConfirmations envs w)
    with (sweepAll 0 envs
            ((λ y, (y, orders (db w) !! BlockchainTransaction.orderId y,
                       providers (db w) !! BlockchainTransaction.providerId y))
               <$> filter (λ y, BlockchainTransaction.status y
                                = TransactionStatus.SUBMITTED
                                ∨ BlockchainTransaction.status y
                                  = TransactionStatus.CONFIRMING)
                     (map_to_list (blockchainTransactions (db w))).*2) w).
  apply sweepAll_holdsRow; [|done].
  apply Forall_fmap, Forall_forall. intros y Hy. cbn.
  apply list_elem_of_filter in Hy as [Hstatus Hy].
  apply list_elem_of_fmap in Hy as [[j z] [-> Hy]].
  apply elem_of_map_to_list in Hy. cbn in *.
  destruct Hw as [Hkeyed Hrow].
  intros Hid. rewrite (Hkeyed _ _ Hy) in Hid. subst j.
  rewrite Hrow in Hy. injection Hy as <-.
  destruct x_idle as [Hidle|Hidle]; rewrite Hidle in Hstatus;
    by destruct Hstatus.
Qed.

Lemma createCheckoutSession_holdsRow env params :
  preserves (holdsRow k x) (PaymentService.createCheckoutSession env params).
Proof.
  unfold PaymentService.createCheckoutSession, PaymentService.checkIdempotency,
    prisma.order.findUniqueByIdempotencyKey, prisma.storagePlan.findUnique,
    prisma.user.findUnique.
  hold.
Qed.

Lemma postWebhook_holdsRow env req :
  preserves (holdsRow k x) (PaymentController.postWebhook env req).
Proof.
  unfold PaymentController.postWebhook, PaymentService.handleWebhook,
    PaymentService.dispatch, PaymentService.handleCheckoutCompleted,
    PaymentService.handleCheckoutExpired,
    PaymentService.handlePaymentSucceeded, PaymentService.handlePaymentFailed,
    PaymentService.triggerBlockchainTransaction,
    prisma.payment.findUnique, prisma.payment.findUniqueByStripePaymentIntentId.
  hold.
Qed.

Lemma cancelOrder_holdsRow orderId :
  preserves (holdsRow k x) (OrderService.cancelOrder orderId).
Proof.
  unfold OrderService.cancelOrder, prisma.order.findUnique. hold.
Qed.

(** No operation moves the row. *)
Lemma run_holdsRow op w :
  holdsRow k x (db w) → holdsRow k x (db (run op w)).
Proof.
  intros Hw. destruct op; cbn [run].
  - by apply createCheckoutSession_holdsRow.
  - by apply postWebhook_holdsRow.
  - by apply cancelOrder_holdsRow.
  - by apply processOrder_holdsRow.
  - by apply pollIteration_holdsRow.
  - by apply retryTransaction_holdsRow.
  - by apply processPendingConfirmations_holdsRow.
Qed.

Lemma reachable_holdsRow allowed w0 w :
  holdsRow k x (db w0) → reachableBy allowed w0 w → holdsRow k x (db w).
Proof.
  intros Hstart Hreach. induction Hreach as [|w op _ IH _]; [done|].
  by apply run_holdsRow.
Qed.

End StuckRow.

(** ** Exceptions inside [processOrder] *)

Section ExceptionPaths.
Import BlockchainService.

(** C10, as the code has it.  When the adapter call itself raises, the
    catch path answers [PROCESSING_FAILED] and sets the order to
    [BLOCKCHAIN_FAILED], while the row inserted before the call stays
    [PENDING].  In a keyed store that row is never retryable: in every
    world that the system's operations lead to from there, the row is
    still the same [PENDING] row, and [retryTransaction] on it answers
    [INVALID_STATUS] and changes nothing; the order thus keeps a live
    transaction next to its [BLOCKCHAIN_FAILED] status.  The adapter
    lookup is not such a step: it runs before the row is inserted, and
    when it raises the answer and the order's status are the same but
    the transactions table is as it was. *)
Theorem processOrder_exception_paths
    env orderId w order provider plan user :
  Dispatchable orderId w order provider plan user →
  (∀ adapter e,
     registry env !! Provider.slug provider = Some adapter →
     blockchainTransactions (db w) !! newTxId env = None →
     executeStorageTransaction adapter (txParamsOf order plan user)
     = Thrown e →
     ∃ w' o text,
       processOrder env orderId w
       = (Returned (errorResult "PROCESSING_FAILED" text), w')
       ∧ orders (db w') !! orderId = Some o
       ∧ Order.status o = OrderStatus.BLOCKCHAIN_FAILED
       ∧ blockchainTransactions (db w') !! newTxId env
         = Some (pendingRow env order provider)
       ∧ BlockchainTransaction.status (pendingRow env order provider)
         = TransactionStatus.PENDING
       ∧ isLive (pendingRow env order provider)
       ∧ (∀ tRetry env',
            retryTransaction tRetry env' (newTxId env) w'
            = (Returned (errorResult "INVALID_STATUS"
                           "Can only retry failed transactions"), w'))
       ∧ (keyed (db w) →
          ∀ w'', reachableBy (λ _, True) w' w'' →
            blockchainTransactions (db w'') !! newTxId env
            = Some (pendingRow env order provider)
            ∧ ∀ tRetry env',
                retryTransaction tRetry env' (newTxId env) w''
                = (Returned (errorResult "INVALID_STATUS"
                               "Can only retry failed transactions"), w'')))
  ∧ (registry env !! Provider.slug provider = None →
     ∃ w' o text,
       processOrder env orderId w
       = (Returned (errorResult "PROCESSING_FAILED" text), w')
       ∧ orders (db w') !! orderId = Some o
       ∧ Order.status o = OrderStatus.BLOCKCHAIN_FAILED
       ∧ blockchainTransactions (db w') = blockchainTransactions (db w)).
Proof.
  intros Hready. split.
  - intros adapter e Hreg Hfresh Hexec.
    pose proof (processOrder_dispatch _ _ _ _ _ _ _ _ Hready Hreg Hfresh)
      as Hrun.
    cbv zeta in Hrun. rewrite Hexec in Hrun.
    eexists _, _, _. split; [exact Hrun|].
    cbn [db blockchainTransactions orders set_blockchainTransactions
         set_orders].
    rewrite !lookup_insert_eq.
    do 5 (split; [first [reflexivity | discriminate]|]).
    split.
    + intros tRetry env'.
      eapply retryTransaction_not_failed.
      * cbn [db blockchainTransactions set_blockchainTransactions].
        apply lookup_insert_eq.
      * discriminate.
    + intros Hkeyed w'' Hreach.
      eapply (reachable_holdsRow (newTxId env) (pendingRow env order provider)
                (or_introl eq_refl) eq_refl) in Hreach as [_ Hrow].
      * split; [exact Hrow|]. intros tRetry env'.
        by apply (retryTransaction_not_failed _ _ _ _ _ Hrow).
      * split.
        -- intros j y.
           cbn [db blockchainTransactions set_blockchainTransactions
                set_orders].
           destruct (decide (newTxId env = j)) as [<-|Hne].
           ++ rewrite lookup_insert_eq. by intros [= <-].
           ++ rewrite lookup_insert_ne by done. apply Hkeyed.
        -- cbn [db blockchainTransactions set_blockchainTransactions
                set_orders].
           apply lookup_insert_eq.
  - intros Hreg.
    rewrite (processOrder_no_adapter _ _ _ _ _ _ _ Hready Hreg).
    eexists _, _, _. split; [reflexivity|].
    cbn [db with_db orders blockchainTransactions set_orders].
    rewrite lookup_insert_eq. by repeat split.
Qed.

(** The adapter is registered but not initialised: its submission
    raises.  The row survives a retry and a sweep. *)
Lemma processOrder_exception_paths_witness :
  let env := Scenario.envOf Scenario.notInitialized "tx1" in
  let row := pendingRow env
               (Scenario.orderIn "o1" OrderStatus.PAYMENT_COMPLETED)
               Scenario.filecoin in
  Dispatchable "o1" Scenario.paid
    (Scenario.orderIn "o1" OrderStatus.PAYMENT_COMPLETED)
    Scenario.filecoin Scenario.starter Scenario.u1
  ∧ keyed (db Scenario.paid)
  ∧ ∃ w' o text,
      processOrder env "o1" Scenario.paid
      = (Returned (errorResult "PROCESSING_FAILED" text), w')
      ∧ orders (db w') !! "o1" = Some o
      ∧ Order.status o = OrderStatus.BLOCKCHAIN_FAILED
      ∧ blockchainTransactions (db w') !! "tx1" = Some row
      ∧ retryTransaction 0 env "tx1" w'
        = (Returned (errorResult "INVALID_STATUS"
                       "Can only retry failed transactions"), w')
      ∧ blockchainTransactions
          (db (run (Sweep (λ _, mkSweepEnv (registry env) 0 0 0 utc))
                 (run (Retry 0 env "tx1") w'))) !! "tx1"
        = Some row.
Proof.
  intros env row.
  assert (Hkeyed : keyed (db Scenario.paid)).
  { intros j y Hj.
    change ((∅ : gmap string BlockchainTransaction.t) !! j = Some y) in Hj.
    by rewrite lookup_empty in Hj. }
  split; [exact paid_dispatchable|]. split; [exact Hkeyed|].
  destruct (proj1 (processOrder_exception_paths env "o1" Scenario.paid _ _ _ _
                     paid_dispatchable)
              Scenario.notInitialized
              (ProviderError "filecoin" "Provider adapter not initialized")
              eq_refl eq_refl eq_refl)
    as (w' & o & text & Hrun & Ho & Hos & Hx & _ & _ & Hretry & Hnever).
  exists w', o, text. repeat split; try assumption.
  - apply Hretry.
  - apply (Hnever Hkeyed).
    do 2 (apply reachable_run; [|exact I]). apply reachable_start.
Defined.

(** C10 on the adapter lookup, which the claim names as a step after
    the insertion: with no adapter registered, [processOrder] answers
    [PROCESSING_FAILED] and the order is [BLOCKCHAIN_FAILED], yet the
    order has no transaction row, [PENDING] or other. *)
Lemma adapter_lookup_failure_leaves_no_row :
  let env := mkEnv ∅ "tx1" 1700000000000 in
  let out := processOrder env "o1" Scenario.paid in
  fst out
  = Returned (errorResult "PROCESSING_FAILED"
                "[filecoin] Provider adapter 'filecoin' not found")
  ∧ Order.status <$> orders (db (snd out)) !! "o1"
    = Some OrderStatus.BLOCKCHAIN_FAILED
  ∧ ¬ ∃ k x, blockchainTransactions (db (snd out)) !! k = Some x
             ∧ BlockchainTransaction.status x = TransactionStatus.PENDING.
Proof.
  intros env out. split; [reflexivity|]. split; [reflexivity|].
  intros (k & x & Hk & _).
  change ((∅ : gmap string BlockchainTransaction.t) !! k = Some x) in Hk.
  by rewrite lookup_empty in Hk.
Qed.

End ExceptionPaths.

(** ** The retry budget *)

Section RetryBudget.
Import BlockchainService.

(** C3 on scenario 3.  After the failed submission the order is
    [BLOCKCHAIN_FAILED].  The first [retryTransaction] passes its guards,
    sets [retryCount] to 1 and the row to [RETRYING], and the re-entered
    [processOrder] answers [INVALID_ORDER_STATUS]; the second, third and
    fourth find the row [RETRYING] and answer [INVALID_STATUS] without
    touching it: [retryCount] stays 1 and no call answers [MAX_RETRIES].
    Nor does any later call: whatever operations run after the first
    retry, the row stays as it is and [retryTransaction] answers
    [INVALID_STATUS]. *)
Theorem retry_scenario_never_reaches_max_retries :
  let w0 := Scenario.afterFailure in
  let r1 := Scenario.retryNo 1 "tx2" w0 in
  let r2 := Scenario.retryNo 2 "tx3" (snd r1) in
  let r3 := Scenario.retryNo 3 "tx4" (snd r2) in
  let r4 := Scenario.retryNo 4 "tx5" (snd r3) in
  let row (w : World) := blockchainTransactions (db w) !! "tx1" in
  (Order.status <$> orders (db w0) !! "o1" = Some OrderStatus.BLOCKCHAIN_FAILED
   ∧ BlockchainTransaction.status <$> row w0 = Some TransactionStatus.FAILED
   ∧ BlockchainTransaction.retryCount <$> row w0 = Some 0
   ∧ BlockchainTransaction.maxRetries <$> row w0 = Some 3
   ∧ fst r1 = Returned (errorResult "INVALID_ORDER_STATUS"
                "Order status is BLOCKCHAIN_FAILED, expected PAYMENT_COMPLETED")
   ∧ row (snd r1) = Some Scenario.retryingRow
   ∧ BlockchainTransaction.status Scenario.retryingRow
     = TransactionStatus.RETRYING
   ∧ BlockchainTransaction.retryCount Scenario.retryingRow = 1
   ∧ BlockchainTransaction.lastRetryAt Scenario.retryingRow
     = Some 1700000060000
   ∧ fst r2 = Returned (errorResult "INVALID_STATUS"
                          "Can only retry failed transactions")
   ∧ fst r3 = fst r2
   ∧ fst r4 = fst r2
   ∧ snd r4 = snd r1
   ∧ adapterCalls (snd r4) = adapterCalls w0)
  ∧ ∀ w, reachableBy (λ _, True) (snd r1) w →
      row w = Some Scenario.retryingRow
      ∧ ∀ tRetry env,
          retryTransaction tRetry env "tx1" w
          = (Returned (errorResult "INVALID_STATUS"
                         "Can only retry failed transactions"), w).
Proof.
  intros w0 r1 r2 r3 r4 row. split.
  - vm_compute. repeat split; reflexivity.
  - intros w Hreach.
    assert (Hstart : holdsRow "tx1" Scenario.retryingRow (db (snd r1))).
    { assert (Hrows : blockchainTransactions (db (snd r1))
                      = {["tx1" := Scenario.retryingRow]})
        by (vm_compute; reflexivity).
      split; [|by rewrite Hrows].
      intros j y. rewrite Hrows.
      intros [<- <-]%lookup_singleton_Some. reflexivity. }
    destruct (reachable_holdsRow "tx1" Scenario.retryingRow
                (or_intror eq_refl) eq_refl _ _ _ Hstart Hreach)
      as [_ Hrow].
    split; [exact Hrow|]. intros tRetry env.
    by apply (retryTransaction_not_failed _ _ _ _ _ Hrow).
Qed.

(** After the first retry, a redelivered allocation and a sweep leave
    the row where it was, and the next retry is turned away. *)
Lemma retry_scenario_never_reaches_max_retries_witness :
  let env := Scenario.envOf Scenario.outOfFunds "tx9" in
  let w1 := snd (Scenario.retryNo 1 "tx2" Scenario.afterFailure) in
  let w := run (Sweep (λ _, mkSweepEnv (registry env) 0 0 0 utc))
               (run (ProcessOrder env "o1") w1) in
  reachableBy (λ _, True) w1 w
  ∧ blockchainTransactions (db w) !! "tx1" = Some Scenario.retryingRow
  ∧ retryTransaction 1700000300000 env "tx1" w
    = (Returned (errorResult "INVALID_STATUS"
                   "Can only retry failed transactions"), w).
Proof.
  intros env w1 w.
  assert (Hreach : reachableBy (λ _, True) w1 w)
    by (do 2 (apply reachable_run; [|exact I]); apply reachable_start).
  split; [exact Hreach|].
  destruct (proj2 retry_scenario_never_reaches_max_retries w Hreach)
    as [Hrow Hretry].
  split; [exact Hrow | apply Hretry].
Defined.

End RetryBudget.

(** ** Further paths of [processOrder] *)

Section OrchestratorPaths.
Import BlockchainService.

(** X1. [processOrder] on an order id the store does not hold answers
    [ORDER_NOT_FOUND] and leaves the world as it was: no row is written
    and no adapter is called. *)
Theorem processOrder_missing_order env orderId w :
  orders (db w) !! orderId = None →
  processOrder env orderId w
  = (Returned (errorResult "ORDER_NOT_FOUND" "Order not found"), w).
Proof.
  intros Ho.
  unfold processOrder, tryCatch, bind, prisma.order.findUnique, prisma.get.
  simpl. by rewrite Ho.
Qed.

Lemma processOrder_missing_order_witness :
  orders (db Scenario.paid) !! "o9" = None
  ∧ processOrder (Scenario.envOf Scenario.outOfFunds "tx1") "o9" Scenario.paid
    = (Returned (errorResult "ORDER_NOT_FOUND" "Order not found"),
       Scenario.paid).
Proof.
  split; [reflexivity|].
  apply (processOrder_missing_order _ "o9" Scenario.paid). reflexivity.
Defined.

(** X2. When the adapter accepts the submission (success flag set and
    a non-empty hash), [processOrder] answers the id of the new
    transaction row.  The row carries the adapter's hash and status, the
    current time as [submittedAt] and a retry budget of 0 of 3; the order
    is [BLOCKCHAIN_PROCESSING] with the adapter's storage details; the
    adapter was called once and one poller was started, for the new row
    under the adapter's slug. *)
Theorem processOrder_submission_accepted
    env orderId w order provider plan user adapter result :
  Dispatchable orderId w order provider plan user →
  registry env !! Provider.slug provider = Some adapter →
  blockchainTransactions (db w) !! newTxId env = None →
  executeStorageTransaction adapter (txParamsOf order plan user)
  = Returned result →
  ITransactionResult.success result = true →
  truthy (ITransactionResult.txHash result) = true →
  ∃ w' x o,
    processOrder env orderId w = (Returned (successResult (newTxId env)), w')
    ∧ blockchainTransactions (db w') !! newTxId env = Some x
    ∧ BlockchainTransaction.orderId x = Order.id order
    ∧ BlockchainTransaction.txHash x = ITransactionResult.txHash result
    ∧ BlockchainTransaction.status x = ITransactionResult.status result
    ∧ BlockchainTransaction.submittedAt x = Some (now env)
    ∧ BlockchainTransaction.retryCount x = 0
    ∧ BlockchainTransaction.maxRetries x = 3
    ∧ orders (db w') !! orderId = Some o
    ∧ o = Order.with_storage
            (ITransactionResult.storageId result)
            (ITransactionResult.storageEndpoint result)
            (ITransactionResult.storageMetadata result)
            (Order.with_status OrderStatus.BLOCKCHAIN_PROCESSING order)
    ∧ Order.status o = OrderStatus.BLOCKCHAIN_PROCESSING
    ∧ pollers w' = (pollers w ++ [(newTxId env, slug adapter)])%list
    ∧ adapterCalls w'
      = (adapterCalls w ++ [(slug adapter, txParamsOf order plan user)])%list.
Proof.
  intros Hready Hreg Hfresh Hexec Hok Hhash.
  pose proof (processOrder_dispatch _ _ _ _ _ _ _ _ Hready Hreg Hfresh) as Hrun.
  cbv zeta in Hrun. rewrite Hexec, Hok, Hhash in Hrun. cbn [andb] in Hrun.
  eexists _, _, _. split; [exact Hrun|].
  cbn [db blockchainTransactions orders set_blockchainTransactions set_orders
       pollers adapterCalls].
  rewrite !lookup_insert_eq.
  repeat (split; [reflexivity|]).
  split; [by destruct (ITransactionResult.txHash result)|].
  repeat (split; [reflexivity|]). reflexivity.
Qed.

Lemma processOrder_submission_accepted_witness :
  let env := Scenario.envOf Scenario.filecoinAdapter "tx1" in
  ∃ w' x o,
    processOrder env "o1" Scenario.paid = (Returned (successResult "tx1"), w')
    ∧ blockchainTransactions (db w') !! "tx1" = Some x
    ∧ BlockchainTransaction.txHash x = Some "0xDEAD"
    ∧ BlockchainTransaction.status x = TransactionStatus.SUBMITTED
    ∧ orders (db w') !! "o1" = Some o
    ∧ Order.status o = OrderStatus.BLOCKCHAIN_PROCESSING
    ∧ pollers w' = [("tx1", "filecoin")].
Proof.
  intros env.
  destruct (processOrder_submission_accepted env "o1" Scenario.paid _ _ _ _
              Scenario.filecoinAdapter
              (Scenario.resultOf true (Some "0xDEAD") None)
              paid_dispatchable eq_refl eq_refl eq_refl eq_refl eq_refl)
    as (w' & x & o & Hrun & Hx & _ & Hhash & Hst & _ & _ & _ & Ho & _ & Hos
        & Hpoll & _).
  exists w', x, o. by repeat split.
Defined.

(** X3. A result of the adapter without a non-empty hash is a failure
    whatever its success flag says: [processOrder] answers
    [TRANSACTION_FAILED] with the adapter's error text (or "Transaction
    failed"), the new row is [FAILED] with neither hash nor
    [submittedAt], the order is [BLOCKCHAIN_FAILED] with its storage id
    untouched, and no poller is started. *)
Theorem processOrder_hash_required
    env orderId w order provider plan user adapter result :
  Dispatchable orderId w order provider plan user →
  registry env !! Provider.slug provider = Some adapter →
  blockchainTransactions (db w) !! newTxId env = None →
  executeStorageTransaction adapter (txParamsOf order plan user)
  = Returned result →
  truthy (ITransactionResult.txHash result) = false →
  ∃ w' x o,
    processOrder env orderId w
    = (Returned (errorResult "TRANSACTION_FAILED"
                   (orElse (ITransactionResult.error result)
                           "Transaction failed")), w')
    ∧ blockchainTransactions (db w') !! newTxId env = Some x
    ∧ BlockchainTransaction.status x = TransactionStatus.FAILED
    ∧ BlockchainTransaction.txHash x = None
    ∧ BlockchainTransaction.submittedAt x = None
    ∧ orders (db w') !! orderId = Some o
    ∧ Order.status o = OrderStatus.BLOCKCHAIN_FAILED
    ∧ Order.storageId o = Order.storageId order
    ∧ pollers w' = pollers w.
Proof.
  intros Hready Hreg Hfresh Hexec Hhash.
  pose proof (processOrder_dispatch _ _ _ _ _ _ _ _ Hready Hreg Hfresh) as Hrun.
  cbv zeta in Hrun. rewrite Hexec, Hhash, andb_false_r in Hrun.
  eexists _, _, _. split; [exact Hrun|].
  cbn [db blockchainTransactions orders set_blockchainTransactions set_orders
       pollers].
  rewrite !lookup_insert_eq.
  repeat (split; [reflexivity|]). reflexivity.
Qed.

Lemma processOrder_hash_required_witness :
  let hashless := Scenario.adapterReplying
                    (Returned (Scenario.resultOf true None None))
                    (Thrown (JsError "unused")) in
  ∃ w' x o,
    processOrder (Scenario.envOf hashless "tx1") "o1" Scenario.paid
    = (Returned (errorResult "TRANSACTION_FAILED" "Transaction failed"), w')
    ∧ blockchainTransactions (db w') !! "tx1" = Some x
    ∧ BlockchainTransaction.status x = TransactionStatus.FAILED
    ∧ orders (db w') !! "o1" = Some o
    ∧ Order.status o = OrderStatus.BLOCKCHAIN_FAILED
    ∧ pollers w' = [].
Proof.
  intros hashless.
  destruct (processOrder_hash_required (Scenario.envOf hashless "tx1") "o1"
              Scenario.paid _ _ _ _ hashless
              (Scenario.resultOf true None None)
              paid_dispatchable eq_refl eq_refl eq_refl eq_refl)
    as (w' & x & o & Hrun & Hx & Hst & _ & _ & Ho & Hos & _ & Hpoll).
  exists w', x, o. by repeat split.
Defined.

End OrchestratorPaths.

(** ** What the poller and the sweep call *)

(** ** Calls out of the process, through the computation monad *)

Section Probes.

Lemma probesAtMost_mono {A} (m : M A) (n n' : nat) :
  (n ≤ n')%nat → probesAtMost n m → probesAtMost n' m.
Proof.
  intros Hle Hm w. destruct (Hm w) as (probes & ? & ? & ?).
  exists probes. split; [done|]. split; [lia|done].
Qed.

(** A computation that only reads and writes the store. *)
Lemma probesAtMost_store {A} (m : M A) :
  (∀ w, ∃ s, snd (m w) = with_db s w) → probesAtMost 0 m.
Proof.
  intros Hm w. destruct (Hm w) as [s ->]. exists []. cbn.
  by rewrite app_nil_r.
Qed.

Lemma probesAtMost_ret {A} (a : A) : probesAtMost 0 (ret a).
Proof. intros w. exists []. cbn. by rewrite app_nil_r. Qed.

Lemma probesAtMost_throw {A} (e : Exn) : probesAtMost 0 (@throw A e).
Proof. intros w. exists []. cbn. by rewrite app_nil_r. Qed.

Lemma probesAtMost_bind {A B} (m : M A) (k : A → M B) (n1 n2 : nat) :
  probesAtMost n1 m → (∀ a, probesAtMost n2 (k a)) →
  probesAtMost (n1 + n2) (bind m k).
Proof.
  intros Hm Hk w. unfold bind.
  destruct (Hm w) as (p1 & Hp1 & Hl1 & Hc1 & Ht1 & Hq1).
  destruct (m w) as [[a|e] w1]; cbn [snd] in *.
  - destruct (Hk a w1) as (p2 & Hp2 & Hl2 & Hc2 & Ht2 & Hq2).
    exists (p1 ++ p2)%list. rewrite Hp2, Hp1, Hc2, Hc1, Ht2, Ht1, Hq2, Hq1.
    rewrite length_app, (assoc_L (++)%list). split; [done|]. split; [lia|done].
  - exists p1. split; [done|]. split; [lia|done].
Qed.

Lemma probesAtMost_tryCatch {A} (m : M A) (h : Exn → M A) (n1 n2 : nat) :
  probesAtMost n1 m → (∀ e, probesAtMost n2 (h e)) →
  probesAtMost (n1 + n2) (tryCatch m h).
Proof.
  intros Hm Hh w. unfold tryCatch.
  destruct (Hm w) as (p1 & Hp1 & Hl1 & Hc1 & Ht1 & Hq1).
  destruct (m w) as [[a|e] w1]; cbn [snd] in *.
  - exists p1. split; [done|]. split; [lia|done].
  - destruct (Hh e w1) as (p2 & Hp2 & Hl2 & Hc2 & Ht2 & Hq2).
    exists (p1 ++ p2)%list. rewrite Hp2, Hp1, Hc2, Hc1, Ht2, Ht1, Hq2, Hq1.
    rewrite length_app, (assoc_L (++)%list). split; [done|]. split; [lia|done].
Qed.

Lemma probesAtMost_get {A} (f : Store → A) : probesAtMost 0 (prisma.get f).
Proof. intros w. exists []. cbn. by rewrite app_nil_r. Qed.

Lemma probesAtMost_deref {A} what (o : option A) :
  probesAtMost 0 (deref what o).
Proof. destruct o; [apply probesAtMost_ret|apply probesAtMost_throw]. Qed.

Lemma probesAtMost_dateArgument argument date :
  probesAtMost 0 (prisma.dateArgument argument date).
Proof. destruct date; [apply probesAtMost_ret|apply probesAtMost_throw]. Qed.

Lemma probesAtMost_getAdapter registry s :
  probesAtMost 0 (getAdapter registry s).
Proof.
  unfold getAdapter.
  destruct (registry !! s); [apply probesAtMost_ret|apply probesAtMost_throw].
Qed.

Lemma probesAtMost_invokeCheck a h : probesAtMost 1 (invokeCheck a h).
Proof. intros w. by exists [(slug a, h)]. Qed.

Lemma probesAtMost_order_update i f :
  probesAtMost 0 (prisma.order.update i f).
Proof.
  apply probesAtMost_store. intros w.
  destruct (orders (db w) !! i) as [o|] eqn:Ho.
  - rewrite (order_update_returned _ _ _ _ Ho). by eexists.
  - rewrite (order_update_thrown _ _ _ Ho). exists (db w).
    by rewrite with_db_same.
Qed.

Lemma probesAtMost_tx_update i f :
  probesAtMost 0 (prisma.blockchainTransaction.update i f).
Proof.
  apply probesAtMost_store. intros w.
  unfold prisma.blockchainTransaction.update, prisma.get, prisma.put, bind,
    ret, throw.
  destruct (blockchainTransactions (db w) !! i); cbn [snd].
  - by eexists.
  - exists (db w). by rewrite with_db_same.
Qed.

Lemma probesAtMost_quiet {A} (m : M A) (n : nat) :
  probesAtMost 0 m → probesAtMost n m.
Proof. apply probesAtMost_mono. lia. Qed.

Lemma probesAtMost_bind_quiet {A B} (m : M A) (k : A → M B) (n : nat) :
  probesAtMost 0 m → (∀ a, probesAtMost n (k a)) → probesAtMost n (bind m k).
Proof. intros Hm Hk. by apply (probesAtMost_bind m k 0 n). Qed.

Lemma probesAtMost_bind_probe {B} a h (k : _ → M B) :
  (∀ st, probesAtMost 0 (k st)) → probesAtMost 1 (bind (invokeCheck a h) k).
Proof.
  intros Hk. apply (probesAtMost_bind _ k 1 0); [|done].
  apply probesAtMost_invokeCheck.
Qed.

Lemma probesAtMost_tryCatch_quiet {A} (m : M A) (h : Exn → M A) (n : nat) :
  probesAtMost n m → (∀ e, probesAtMost 0 (h e)) →
  probesAtMost n (tryCatch m h).
Proof.
  intros Hm Hh. eapply probesAtMost_mono;
    [|by apply (probesAtMost_tryCatch m h n 0)]. lia.
Qed.

End Probes.

(** Counting the probes of a computation along its control structure. *)
Ltac count_probes :=
  repeat lazymatch goal with
  | |- probesAtMost _ (bind (invokeCheck _ _) _) =>
      apply probesAtMost_bind_probe; intros ?
  | |- probesAtMost _ (bind _ _) =>
      apply probesAtMost_bind_quiet; [|intros ?]
  | |- probesAtMost _ (tryCatch _ _) =>
      apply probesAtMost_tryCatch_quiet; [|intros ?]
  | |- probesAtMost _ (ret _) =>
      apply probesAtMost_quiet, probesAtMost_ret
  | |- probesAtMost _ (throw _) =>
      apply probesAtMost_quiet, probesAtMost_throw
  | |- probesAtMost _ (prisma.get _) =>
      apply probesAtMost_quiet, probesAtMost_get
  | |- probesAtMost _ (deref _ _) =>
      apply probesAtMost_quiet, probesAtMost_deref
  | |- probesAtMost _ (prisma.dateArgument _ _) =>
      apply probesAtMost_quiet, probesAtMost_dateArgument
  | |- probesAtMost _ (getAdapter _ _) =>
      apply probesAtMost_quiet, probesAtMost_getAdapter
  | |- probesAtMost _ (prisma.order.update _ _) =>
      apply probesAtMost_quiet, probesAtMost_order_update
  | |- probesAtMost _ (prisma.blockchainTransaction.update _ _) =>
      apply probesAtMost_quiet, probesAtMost_tx_update
  | |- probesAtMost _ (match ?x with _ => _ end) => destruct x
  | |- probesAtMost _ (let _ := _ in _) => cbv zeta
  end.

Section Poller.
Import BlockchainService.

Lemma pollIteration_probes env txId providerSlug :
  probesAtMost 1 (pollIteration env txId providerSlug).
Proof.
  unfold pollIteration, pollRow, prisma.blockchainTransaction.findUnique.
  count_probes.
Qed.

Lemma pollAttempts_probes remaining attempt envs txId providerSlug :
  probesAtMost remaining (pollAttempts remaining attempt envs txId providerSlug).
Proof.
  revert attempt. induction remaining as [|remaining IH]; intros attempt;
    cbn [pollAttempts].
  - apply probesAtMost_ret.
  - apply (probesAtMost_bind _ _ 1 remaining);
      [apply pollIteration_probes|].
    intros [|]; [apply probesAtMost_quiet, probesAtMost_ret|apply IH].
Qed.

Lemma pollIteration_returns env txId providerSlug w :
  ∃ control, fst (pollIteration env txId providerSlug w) = Returned control.
Proof.
  unfold pollIteration, tryCatch.
  destruct (bind _ _ w) as [[control|e] w']; by eexists.
Qed.

Lemma pollAttempts_returns remaining attempt envs txId providerSlug w :
  fst (pollAttempts remaining attempt envs txId providerSlug w) = Returned tt.
Proof.
  revert attempt w. induction remaining as [|remaining IH]; intros attempt w;
    cbn [pollAttempts]; [done|].
  unfold bind at 1.
  destruct (pollIteration_returns (envs attempt) txId providerSlug w)
    as [control Hc].
  destruct (pollIteration _ _ _ w) as [r w']. cbn [fst] in Hc. subst r.
  destruct control; [done|apply IH].
Qed.

(** X4. The confirmation poller always returns normally, whatever the
    store holds and the adapters answer; it asks adapters for a status
    at most thirty times and makes no other outward call: it submits
    nothing, triggers no allocation and starts no poller. *)
Theorem pollTransactionConfirmation_bounded envs txId providerSlug :
  (∀ w, fst (pollTransactionConfirmation envs txId providerSlug w)
        = Returned tt)
  ∧ probesAtMost 30 (pollTransactionConfirmation envs txId providerSlug).
Proof.
  split.
  - intros w. apply pollAttempts_returns.
  - apply pollAttempts_probes.
Qed.

(** X5. When the polled row is missing, has no hash, or is already
    [CONFIRMED] or [FAILED], the poller returns in its first iteration
    and leaves the world unchanged: no adapter is asked. *)
Theorem pollTransactionConfirmation_settled envs txId providerSlug w :
  (∀ tx, blockchainTransactions (db w) !! txId = Some tx →
         truthy (BlockchainTransaction.txHash tx) = false
         ∨ BlockchainTransaction.status tx = TransactionStatus.CONFIRMED
         ∨ BlockchainTransaction.status tx = TransactionStatus.FAILED) →
  pollTransactionConfirmation envs txId providerSlug w = (Returned tt, w).
Proof.
  intros Hsettled.
  unfold pollTransactionConfirmation, maxAttempts. cbn [pollAttempts].
  unfold bind at 1. rewrite pollIteration_unfold.
  destruct (blockchainTransactions (db w) !! txId) as [tx|]; [|done].
  cbn [mbind option_bind]. unfold tryCatch, pollRow.
  destruct (Hsettled tx eq_refl) as [Hhash|Hst].
  - by rewrite Hhash.
  - destruct (truthy _); [|done]. cbn [negb].
    by rewrite bool_decide_eq_true_2.
Qed.

Lemma pollTransactionConfirmation_settled_witness :
  let done_ := Scenario.seeded
      {["o1" := Scenario.orderIn "o1" OrderStatus.COMPLETED]} ∅
      {["tx1" := Scenario.txIn "tx1" "o1" TransactionStatus.CONFIRMED
                               (Some "0xDEAD")]} in
  pollTransactionConfirmation (λ _, Scenario.pollNow) "tx1" "filecoin" done_
  = (Returned tt, done_)
  ∧ pollTransactionConfirmation (λ _, Scenario.pollNow) "tx9" "filecoin" done_
    = (Returned tt, done_).
Proof.
  intros done_. split.
  - apply (pollTransactionConfirmation_settled _ "tx1" "filecoin" done_).
    intros tx [= <-]. right. by left.
  - apply (pollTransactionConfirmation_settled _ "tx9" "filecoin" done_).
    intros tx Htx. done.
Defined.

(** One polling iteration on a transaction in flight, up to the probe. *)
Lemma pollIteration_probe env txId providerSlug w tx adapter st :
  blockchainTransactions (db w) !! txId = Some tx →
  truthy (BlockchainTransaction.txHash tx) = true →
  BlockchainTransaction.status tx ≠ TransactionStatus.CONFIRMED →
  BlockchainTransaction.status tx ≠ TransactionStatus.FAILED →
  pollRegistry env !! providerSlug = Some adapter →
  checkTransactionStatus adapter (default "" (BlockchainTransaction.txHash tx))
  = Returned st →
  let probed :=
    BlockchainTransaction.with_statusMessage
      (ITransactionStatusResult.error st)
      (BlockchainTransaction.with_probe
         (ITransactionStatusResult.confirmations st)
         (ITransactionStatusResult.blockNumber st)
         (ITransactionStatusResult.blockHash st)
         (ITransactionStatusResult.gasUsed st)
         (if isConfirmed (ITransactionStatusResult.status st)
          then Some (tConfirmed env) else None)
         (BlockchainTransaction.with_status
            (ITransactionStatusResult.status st) tx)) in
  let w1 :=
    mkWorld
      (set_blockchainTransactions
         (<[txId := probed]> (blockchainTransactions (db w))) (db w))
      (adapterCalls w)
      (statusProbes w
         ++ [(slug adapter, default "" (BlockchainTransaction.txHash tx))])
      (triggered w) (pollers w) in
  pollIteration env txId providerSlug w
  = tryCatch
      (if isConfirmed (ITransactionStatusResult.status st) then
         let* order := deref "order"
             (orders (db w) !! BlockchainTransaction.orderId tx) in
         let* expires := prisma.dateArgument "expiresAt"
             (addDays (pollZone env) (tExpiryBase env)
                      (Order.durationDays order)) in
         let* _ := prisma.order.update (BlockchainTransaction.orderId tx)
             (λ o, Order.with_allocation (tAllocated env) expires
                     (Order.with_status OrderStatus.COMPLETED o)) in
         ret Stop
       else if bool_decide (ITransactionStatusResult.status st
                            = TransactionStatus.FAILED) then
         let* _ := prisma.order.update (BlockchainTransaction.orderId tx)
             (λ o, Order.with_statusMessage
                     (Some (orElse (ITransactionStatusResult.error st)
                                   "Transaction failed"))
                     (Order.with_status OrderStatus.BLOCKCHAIN_FAILED o)) in
         ret Stop
       else ret Continue)
      (λ _, ret Continue) w1.
Proof.
  intros Htx Hhash Hnc Hnf Hreg Hcheck probed w1.
  rewrite pollIteration_unfold. rewrite Htx. cbn [mbind option_bind].
  unfold tryCatch, pollRow. rewrite Hhash. cbn [negb].
  rewrite bool_decide_eq_false_2 by (by intros [?|?]).
  rewrite (bind_returned _ _ _ _ _ (getAdapter_returned _ _ _ _ Hreg)).
  unfold bind at 1. rewrite invokeCheck_run, Hcheck.
  erewrite bind_returned; [ | by apply tx_update_returned ].
  done.
Qed.

(** X6. When the adapter reports [FAILED] for a live row with a hash,
    the iteration ends the polling.  The row becomes [FAILED], its
    message the adapter's error (kept as it was when the adapter gives
    none), and no [confirmedAt] is written; the order becomes
    [BLOCKCHAIN_FAILED] with the adapter's error (or "Transaction
    failed") as its message, [allocatedAt] and [expiresAt] untouched. *)
Theorem pollIteration_failed env txId providerSlug w tx adapter st order :
  blockchainTransactions (db w) !! txId = Some tx →
  truthy (BlockchainTransaction.txHash tx) = true →
  BlockchainTransaction.status tx ≠ TransactionStatus.CONFIRMED →
  BlockchainTransaction.status tx ≠ TransactionStatus.FAILED →
  pollRegistry env !! providerSlug = Some adapter →
  checkTransactionStatus adapter (default "" (BlockchainTransaction.txHash tx))
  = Returned st →
  ITransactionStatusResult.status st = TransactionStatus.FAILED →
  orders (db w) !! BlockchainTransaction.orderId tx = Some order →
  ∃ w' x o,
    pollIteration env txId providerSlug w = (Returned Stop, w')
    ∧ blockchainTransactions (db w') !! txId = Some x
    ∧ BlockchainTransaction.status x = TransactionStatus.FAILED
    ∧ BlockchainTransaction.confirmedAt x = BlockchainTransaction.confirmedAt tx
    ∧ BlockchainTransaction.statusMessage x
      = assign (ITransactionStatusResult.error st)
               (BlockchainTransaction.statusMessage tx)
    ∧ orders (db w') !! BlockchainTransaction.orderId tx = Some o
    ∧ o = Order.with_statusMessage
            (Some (orElse (ITransactionStatusResult.error st)
                          "Transaction failed"))
            (Order.with_status OrderStatus.BLOCKCHAIN_FAILED order)
    ∧ Order.allocatedAt o = Order.allocatedAt order
    ∧ Order.expiresAt o = Order.expiresAt order.
Proof.
  intros Htx Hhash Hnc Hnf Hreg Hcheck Hst Horder.
  rewrite (pollIteration_probe _ _ _ _ _ _ _ Htx Hhash Hnc Hnf Hreg Hcheck).
  cbv zeta. rewrite Hst.
  change (isConfirmed TransactionStatus.FAILED) with false. cbn iota.
  rewrite bool_decide_eq_true_2 by done.
  unfold tryCatch.
  erewrite bind_returned; [ | by apply order_update_returned ].
  eexists _, _, _. split; [reflexivity|].
  cbn [db with_db blockchainTransactions orders set_orders
       set_blockchainTransactions].
  rewrite !lookup_insert_eq.
  repeat (split; [reflexivity|]). reflexivity.
Qed.

Lemma pollIteration_failed_witness :
  let reverting := Scenario.adapterReplying (Thrown (JsError "unused"))
      (Returned (ITransactionStatusResult.mk TransactionStatus.FAILED 2
                   (Some 100) (Some "0xB10C") (Some "21000")
                   (Some "Transaction reverted"))) in
  let env := mkPollEnv (Scenario.registryOf reverting)
               1700000010000 1700000010002 1700000010002 utc in
  ∃ w' x o,
    pollIteration env "tx1" "filecoin" Scenario.submitted = (Returned Stop, w')
    ∧ blockchainTransactions (db w') !! "tx1" = Some x
    ∧ BlockchainTransaction.status x = TransactionStatus.FAILED
    ∧ BlockchainTransaction.statusMessage x = Some "Transaction reverted"
    ∧ orders (db w') !! "o1" = Some o
    ∧ Order.status o = OrderStatus.BLOCKCHAIN_FAILED
    ∧ Order.statusMessage o = Some "Transaction reverted".
Proof.
  intros reverting env.
  destruct (pollIteration_failed env "tx1" "filecoin" Scenario.submitted
              (Scenario.txIn "tx1" "o1" TransactionStatus.SUBMITTED
                             (Some "0xDEAD"))
              reverting _
              (Scenario.orderIn "o1" OrderStatus.BLOCKCHAIN_PROCESSING)
              eq_refl eq_refl ltac:(discriminate) ltac:(discriminate)
              eq_refl eq_refl eq_refl eq_refl)
    as (w' & x & o & Hrun & Hx & Hst & _ & Hmsg & Ho & Heq & _).
  exists w', x, o. subst o.
  repeat (split; [first [assumption | reflexivity]|]). reflexivity.
Defined.

(** X7. An iteration in which the adapter cannot be asked, because the
    registry has none under the slug or because its probe raises,
    changes nothing in the store, and polling goes on; in the second
    case the probe is the only outward call made. *)
Theorem pollIteration_adapter_failure env txId providerSlug w tx :
  blockchainTransactions (db w) !! txId = Some tx →
  truthy (BlockchainTransaction.txHash tx) = true →
  BlockchainTransaction.status tx ≠ TransactionStatus.CONFIRMED →
  BlockchainTransaction.status tx ≠ TransactionStatus.FAILED →
  (pollRegistry env !! providerSlug = None →
   pollIteration env txId providerSlug w = (Returned Continue, w))
  ∧ (∀ adapter e,
       pollRegistry env !! providerSlug = Some adapter →
       checkTransactionStatus adapter
         (default "" (BlockchainTransaction.txHash tx)) = Thrown e →
       pollIteration env txId providerSlug w
       = (Returned Continue,
          mkWorld (db w) (adapterCalls w)
            (statusProbes w
               ++ [(slug adapter,
                    default "" (BlockchainTransaction.txHash tx))])
            (triggered w) (pollers w))).
Proof.
  intros Htx Hhash Hnc Hnf.
  split.
  - intros Hreg. rewrite pollIteration_unfold, Htx.
    unfold tryCatch, pollRow. rewrite Hhash. cbn [negb].
    rewrite bool_decide_eq_false_2 by (by intros [?|?]).
    by rewrite (bind_thrown _ _ _ _ _ (getAdapter_thrown _ _ _ Hreg)).
  - intros adapter e Hreg Hcheck. rewrite pollIteration_unfold, Htx.
    unfold tryCatch, pollRow. rewrite Hhash. cbn [negb].
    rewrite bool_decide_eq_false_2 by (by intros [?|?]).
    rewrite (bind_returned _ _ _ _ _ (getAdapter_returned _ _ _ _ Hreg)).
    unfold bind at 1. by rewrite invokeCheck_run, Hcheck.
Qed.


Lemma pollIteration_adapter_failure_witness :
  let down := Scenario.adapterReplying (Thrown (JsError "unused"))
                (Thrown (JsError "connect ECONNREFUSED")) in
  let env := mkPollEnv (Scenario.registryOf down)
               1700000010000 1700000010002 1700000010002 utc in
  pollIteration (mkPollEnv ∅ 0 0 0 utc) "tx1" "filecoin" Scenario.submitted
  = (Returned Continue, Scenario.submitted)
  ∧ pollIteration env "tx1" "filecoin" Scenario.submitted
    = (Returned Continue,
       mkWorld (db Scenario.submitted) [] [("filecoin", "0xDEAD")] [] []).
Proof.
  intros down env.
  pose proof (pollIteration_adapter_failure (mkPollEnv ∅ 0 0 0 utc) "tx1"
                "filecoin" Scenario.submitted
                (Scenario.txIn "tx1" "o1" TransactionStatus.SUBMITTED
                               (Some "0xDEAD"))
                eq_refl eq_refl ltac:(discriminate) ltac:(discriminate))
    as [Hnone _].
  pose proof (pollIteration_adapter_failure env "tx1"
                "filecoin" Scenario.submitted
                (Scenario.txIn "tx1" "o1" TransactionStatus.SUBMITTED
                               (Some "0xDEAD"))
                eq_refl eq_refl ltac:(discriminate) ltac:(discriminate))
    as [_ Hthrown].
  split.
  - apply Hnone. reflexivity.
  - apply (Hthrown down (JsError "connect ECONNREFUSED")); reflexivity.
Defined.

(** A row in flight: it has a hash and is neither [CONFIRMED] nor
    [FAILED]. *)
Lemma pollAttempts_in_flight envs txId providerSlug hash_ :
  truthy (Some hash_) = true →
  (∀ k, ∃ adapter st,
     pollRegistry (envs k) !! providerSlug = Some adapter
     ∧ checkTransactionStatus adapter hash_ = Returned st
     ∧ ITransactionStatusResult.status st ≠ TransactionStatus.CONFIRMED
     ∧ ITransactionStatusResult.status st ≠ TransactionStatus.FAILED) →
  ∀ remaining attempt w tx,
    blockchainTransactions (db w) !! txId = Some tx →
    BlockchainTransaction.txHash tx = Some hash_ →
    BlockchainTransaction.status tx ≠ TransactionStatus.CONFIRMED →
    BlockchainTransaction.status tx ≠ TransactionStatus.FAILED →
    ∃ w' x,
      pollAttempts remaining attempt envs txId providerSlug w
      = (Returned tt, w')
      ∧ orders (db w') = orders (db w)
      ∧ payments (db w') = payments (db w)
      ∧ length (statusProbes w') = (length (statusProbes w) + remaining)%nat
      ∧ blockchainTransactions (db w') !! txId = Some x
      ∧ BlockchainTransaction.txHash x = Some hash_
      ∧ BlockchainTransaction.status x ≠ TransactionStatus.CONFIRMED
      ∧ BlockchainTransaction.status x ≠ TransactionStatus.FAILED
      ∧ BlockchainTransaction.confirmedAt x
        = BlockchainTransaction.confirmedAt tx.
Proof.
  intros Hhash Hreplies.
  induction remaining as [|remaining IH]; intros attempt w tx Htx Hh Hnc Hnf.
  - exists w, tx. cbn [pollAttempts]. rewrite Nat.add_0_r. by repeat split.
  - cbn [pollAttempts].
    destruct (Hreplies attempt) as (adapter & st & Hreg & Hcheck & Hsc & Hsf).
    assert (Hhash' : truthy (BlockchainTransaction.txHash tx) = true)
      by (by rewrite Hh).
    assert (Hcheck' : checkTransactionStatus adapter
              (default "" (BlockchainTransaction.txHash tx)) = Returned st)
      by (by rewrite Hh).
    pose proof (pollIteration_probe _ _ _ _ _ _ _ Htx Hhash' Hnc Hnf Hreg
                  Hcheck') as Hrun.
    cbv zeta in Hrun.
    unfold isConfirmed in Hrun.
    rewrite !(bool_decide_eq_false_2 _ Hsc) in Hrun.
    rewrite (bool_decide_eq_false_2 _ Hsf) in Hrun.
    unfold tryCatch, ret in Hrun.
    unfold bind at 1. rewrite Hrun.
    match type of Hrun with _ = (_, ?v) => set (w1 := v) in * end.
    eassert (Hrow : blockchainTransactions (db w1) !! txId = Some _)
      by (subst w1; cbn [db blockchainTransactions set_blockchainTransactions];
          apply lookup_insert_eq).
    destruct (IH (S attempt) w1 _ Hrow Hh Hsc Hsf)
      as (w' & x & Hloop & Ho & Hp & Hlen & Hx & Hxh & Hxc & Hxf & Hxa).
    exists w', x. rewrite Hloop. split; [done|].
    rewrite Ho, Hp, Hlen. subst w1.
    cbn [db orders payments statusProbes set_blockchainTransactions].
    rewrite length_app. cbn [length].
    repeat split; try done. lia.
Qed.

(** X8. While the adapter keeps answering a status that is neither
    [CONFIRMED] nor [FAILED], the poller probes exactly thirty times and
    then returns normally.  Giving up writes no failure: the orders
    table is as before, the row is still neither [CONFIRMED] nor
    [FAILED] and its [confirmedAt] is unchanged. *)
Theorem pollTransactionConfirmation_gives_up
    envs txId providerSlug w tx hash_ :
  blockchainTransactions (db w) !! txId = Some tx →
  BlockchainTransaction.txHash tx = Some hash_ →
  hash_ ≠ "" →
  BlockchainTransaction.status tx ≠ TransactionStatus.CONFIRMED →
  BlockchainTransaction.status tx ≠ TransactionStatus.FAILED →
  (∀ k, ∃ adapter st,
     pollRegistry (envs k) !! providerSlug = Some adapter
     ∧ checkTransactionStatus adapter hash_ = Returned st
     ∧ ITransactionStatusResult.status st ≠ TransactionStatus.CONFIRMED
     ∧ ITransactionStatusResult.status st ≠ TransactionStatus.FAILED) →
  ∃ w' x,
    pollTransactionConfirmation envs txId providerSlug w = (Returned tt, w')
    ∧ orders (db w') = orders (db w)
    ∧ length (statusProbes w') = (length (statusProbes w) + 30)%nat
    ∧ blockchainTransactions (db w') !! txId = Some x
    ∧ BlockchainTransaction.status x ≠ TransactionStatus.CONFIRMED
    ∧ BlockchainTransaction.status x ≠ TransactionStatus.FAILED
    ∧ BlockchainTransaction.confirmedAt x
      = BlockchainTransaction.confirmedAt tx.
Proof.
  intros Htx Hh Hne Hnc Hnf Hreplies.
  assert (Hhash : truthy (Some hash_) = true).
  { cbn. destruct (String.eqb hash_ "") eqn:E; [|done].
    by apply String.eqb_eq in E. }
  destruct (pollAttempts_in_flight envs txId providerSlug hash_ Hhash Hreplies
              maxAttempts 0%nat w tx Htx Hh Hnc Hnf)
    as (w' & x & Hloop & Ho & _ & Hlen & Hx & _ & Hxc & Hxf & Hxa).
  exists w', x. by repeat split.
Qed.


Lemma pollTransactionConfirmation_gives_up_witness :
  let slow := Scenario.adapterReplying (Thrown (JsError "unused"))
      (Returned (Scenario.probeOf TransactionStatus.CONFIRMING 1)) in
  let envs := λ _ : nat, mkPollEnv (Scenario.registryOf slow)
                           1700000010000 1700000010002 1700000010002 utc in
  ∃ w' x,
    pollTransactionConfirmation envs "tx1" "filecoin" Scenario.submitted
    = (Returned tt, w')
    ∧ orders (db w') = orders (db Scenario.submitted)
    ∧ length (statusProbes w') = 30%nat
    ∧ blockchainTransactions (db w') !! "tx1" = Some x
    ∧ BlockchainTransaction.status x ≠ TransactionStatus.CONFIRMED
    ∧ BlockchainTransaction.status x ≠ TransactionStatus.FAILED.
Proof.
  intros slow envs.
  destruct (pollTransactionConfirmation_gives_up envs "tx1" "filecoin"
              Scenario.submitted
              (Scenario.txIn "tx1" "o1" TransactionStatus.SUBMITTED
                             (Some "0xDEAD"))
              "0xDEAD" eq_refl eq_refl ltac:(discriminate)
              ltac:(discriminate) ltac:(discriminate))
    as (w' & x & Hrun & Ho & Hlen & Hx & Hxc & Hxf & _).
  { intros k. exists slow, (Scenario.probeOf TransactionStatus.CONFIRMING 1).
    repeat split; discriminate. }
  exists w', x. by repeat split.
Defined.

End Poller.

(** ** The sweep *)

Section Sweep.
Import BlockchainService.







End Sweep.

(** ** The other webhook handlers *)

(** ** The other webhook handlers *)

Section Handlers.
Import PaymentService.

(** One [withTransaction] block that updates a payment and then an
    order, run to its end. *)
Lemma payment_then_order_run pid oid (f : Payment.t → Payment.t)
    (g : Order.t → Order.t) w :
  withTransaction
    (let* _ := prisma.payment.update pid f in prisma.order.update oid g) w
  = match payments (db w) !! pid with
    | None => (Thrown (PrismaNotFound "Payment"), w)
    | Some p =>
        match prisma.payment.clashes pid (f p) (payments (db w)) with
        | Some target => (Thrown (PrismaUniqueConstraint target), w)
        | None =>
            match orders (db w) !! oid with
            | None => (Thrown (PrismaNotFound "Order"), w)
            | Some o =>
                (Returned (g o),
                 with_db (set_orders (<[oid := g o]> (orders (db w)))
                            (set_payments (<[pid := f p]> (payments (db w)))
                                          (db w))) w)
            end
        end
    end.
Proof.
  destruct (payments (db w) !! pid) as [p|] eqn:Hp.
  - destruct (prisma.payment.clashes pid (f p) _) as [target|] eqn:Hclash.
    + erewrite withTransaction_thrown;
        [ | by erewrite bind_thrown; [ | by eapply payment_update_clash ] ].
      by rewrite with_db_same.
    + destruct (orders (db w) !! oid) as [o|] eqn:Ho.
      * erewrite withTransaction_returned; [reflexivity|].
        erewrite bind_returned; [ | by apply payment_update_returned ].
        by erewrite order_update_returned.
      * erewrite withTransaction_thrown.
        2: { erewrite bind_returned; [ | by apply payment_update_returned ].
             by apply order_update_thrown. }
        by destruct w.
  - erewrite withTransaction_thrown;
      [ | by erewrite bind_thrown; [ | by apply payment_update_missing ] ].
    by rewrite with_db_same.
Qed.

(** [handleCheckoutExpired], run to its end. *)
Lemma handleCheckoutExpired_run session w :
  let orderId := default "" (Stripe.Session.metadata_orderId session) in
  let paymentId := default "" (Stripe.Session.metadata_paymentId session) in
  let expired (p : Payment.t) :=
    Payment.with_statusMessage (Some "Checkout session expired")
      (Payment.with_status PaymentStatus.CANCELLED p) in
  handleCheckoutExpired session w =
  if negb (truthy (Stripe.Session.metadata_orderId session))
     || negb (truthy (Stripe.Session.metadata_paymentId session))
  then (Returned tt, w)
  else
    match payments (db w) !! paymentId with
    | None => (Thrown (PrismaNotFound "Payment"), w)
    | Some p =>
        match prisma.payment.clashes paymentId (expired p)
                (payments (db w)) with
        | Some target => (Thrown (PrismaUniqueConstraint target), w)
        | None =>
            match orders (db w) !! orderId with
            | None => (Thrown (PrismaNotFound "Order"), w)
            | Some o =>
                (Returned tt,
                 with_db
                   (set_orders
                      (<[orderId :=
                           Order.with_statusMessage
                             (Some "Payment session expired")
                             (Order.with_status OrderStatus.CANCELLED o)]>
                         (orders (db w)))
                      (set_payments (<[paymentId := expired p]>
                                       (payments (db w)))
                                    (db w))) w)
            end
        end
    end.
Proof.
  intros orderId paymentId expired. unfold handleCheckoutExpired.
  destruct (negb _ || negb _); [done|].
  fold orderId paymentId. unfold bind at 1.
  rewrite payment_then_order_run.
  destruct (payments (db w) !! paymentId) as [p|]; [|done].
  destruct (prisma.payment.clashes _ _ _); [done|].
  by destruct (orders (db w) !! orderId).
Qed.

(** X10. [handleCheckoutExpired] is all or nothing.  If it throws, the
    world is unchanged.  If it returns, either the session names no
    order or no payment in its metadata and the world is unchanged, or
    both rows existed and both are now [CANCELLED], the payment with
    "Checkout session expired" and the order with "Payment session
    expired", nothing else having changed. *)
Theorem handleCheckoutExpired_atomic session w :
  let orderId := default "" (Stripe.Session.metadata_orderId session) in
  let paymentId := default "" (Stripe.Session.metadata_paymentId session) in
  let r := handleCheckoutExpired session w in
  (∀ e, fst r = Thrown e → snd r = w)
  ∧ (fst r = Returned tt →
     (snd r = w
      ∧ (truthy (Stripe.Session.metadata_orderId session) = false
         ∨ truthy (Stripe.Session.metadata_paymentId session) = false))
     ∨ ∃ p o,
         payments (db w) !! paymentId = Some p
         ∧ orders (db w) !! orderId = Some o
         ∧ snd r
           = with_db
               (set_orders
                  (<[orderId :=
                       Order.with_statusMessage (Some "Payment session expired")
                         (Order.with_status OrderStatus.CANCELLED o)]>
                     (orders (db w)))
                  (set_payments
                     (<[paymentId :=
                          Payment.with_statusMessage
                            (Some "Checkout session expired")
                            (Payment.with_status PaymentStatus.CANCELLED p)]>
                        (payments (db w)))
                     (db w))) w).
Proof.
  intros orderId paymentId r. subst r.
  rewrite handleCheckoutExpired_run. cbv zeta. fold orderId paymentId.
  destruct (truthy (Stripe.Session.metadata_orderId session)) eqn:Ho;
    cbn [negb orb].
  2: { split; [done|]. intros _. left. split; [done|by left]. }
  destruct (truthy (Stripe.Session.metadata_paymentId session)) eqn:Hp;
    cbn [negb orb].
  2: { split; [done|]. intros _. left. split; [done|by right]. }
  destruct (payments (db w) !! paymentId) as [p|]; [|by split].
  destruct (prisma.payment.clashes _ _ _); [by split|].
  destruct (orders (db w) !! orderId) as [o|]; [|by split].
  split; [done|]. intros _. right. by exists p, o.
Qed.

(** [handlePaymentFailed], run to its end. *)
Lemma handlePaymentFailed_run paymentIntent w :
  handlePaymentFailed paymentIntent w
  = match findBy Payment.stripePaymentIntentId
            (Stripe.PaymentIntent.id paymentIntent) (payments (db w)) with
    | None => (Returned tt, w)
    | Some payment =>
        let failedPayment (p : Payment.t) :=
          Payment.with_statusMessage
            (Some (orElse (Stripe.PaymentIntent.last_payment_error_message
                             paymentIntent) "Payment failed"))
            (Payment.with_status PaymentStatus.FAILED p) in
        match payments (db w) !! Payment.id payment with
        | None => (Thrown (PrismaNotFound "Payment"), w)
        | Some p =>
            match prisma.payment.clashes (Payment.id payment)
                    (failedPayment p) (payments (db w)) with
            | Some target => (Thrown (PrismaUniqueConstraint target), w)
            | None =>
                match orders (db w) !! Payment.orderId payment with
                | None => (Thrown (PrismaNotFound "Order"), w)
                | Some o =>
                    (Returned tt,
                     with_db
                       (set_orders
                          (<[Payment.orderId payment :=
                               Order.with_statusMessage (Some "Payment failed")
                                 (Order.with_status OrderStatus.PAYMENT_FAILED
                                                    o)]>
                             (orders (db w)))
                          (set_payments
                             (<[Payment.id payment := failedPayment p]>
                                (payments (db w)))
                             (db w))) w)
                end
            end
        end
    end.
Proof.
  unfold handlePaymentFailed, prisma.payment.findUniqueByStripePaymentIntentId,
    prisma.get.
  unfold bind at 1.
  destruct (findBy _ _ _) as [payment|]; [|done].
  unfold bind at 1. rewrite payment_then_order_run. cbv zeta.
  destruct (payments (db w) !! Payment.id payment) as [p|]; [|done].
  destruct (prisma.payment.clashes _ _ _); [done|].
  by destruct (orders (db w) !! Payment.orderId payment).
Qed.

(** X11. [handlePaymentFailed] is all or nothing.  If it throws, the
    world is unchanged; with no payment recorded under the intent's id
    it returns and changes nothing; otherwise the payment is [FAILED]
    with the processor's error message (or "Payment failed") and its
    order is [PAYMENT_FAILED], nothing else having changed. *)
Theorem handlePaymentFailed_atomic paymentIntent w :
  let r := handlePaymentFailed paymentIntent w in
  (∀ e, fst r = Thrown e → snd r = w)
  ∧ (findBy Payment.stripePaymentIntentId
       (Stripe.PaymentIntent.id paymentIntent) (payments (db w)) = None →
     r = (Returned tt, w))
  ∧ (fst r = Returned tt →
     ∀ payment,
       findBy Payment.stripePaymentIntentId
         (Stripe.PaymentIntent.id paymentIntent) (payments (db w))
       = Some payment →
       ∃ p o,
         payments (db w) !! Payment.id payment = Some p
         ∧ orders (db w) !! Payment.orderId payment = Some o
         ∧ snd r
           = with_db
               (set_orders
                  (<[Payment.orderId payment :=
                       Order.with_statusMessage (Some "Payment failed")
                         (Order.with_status OrderStatus.PAYMENT_FAILED o)]>
                     (orders (db w)))
                  (set_payments
                     (<[Payment.id payment :=
                          Payment.with_statusMessage
                            (Some (orElse
                               (Stripe.PaymentIntent.last_payment_error_message
                                  paymentIntent) "Payment failed"))
                            (Payment.with_status PaymentStatus.FAILED p)]>
                        (payments (db w)))
                     (db w))) w).
Proof.
  intros r. subst r. rewrite handlePaymentFailed_run. cbv zeta.
  destruct (findBy _ _ _) as [payment|]; [|by repeat split].
  destruct (payments (db w) !! Payment.id payment) as [p|] eqn:Hp;
    [|by repeat split].
  destruct (prisma.payment.clashes _ _ _); [by repeat split|].
  destruct (orders (db w) !! Payment.orderId payment) as [o|] eqn:Ho;
    [|by repeat split].
  split; [done|]. split; [done|]. intros _ ? [= <-]. by exists p, o.
Qed.

(** [handlePaymentSucceeded], run to its end. *)
Lemma handlePaymentSucceeded_run env paymentIntent w :
  handlePaymentSucceeded env paymentIntent w
  = match findBy Payment.stripePaymentIntentId
            (Stripe.PaymentIntent.id paymentIntent) (payments (db w)) with
    | None => (Returned tt, w)
    | Some payment =>
        if bool_decide (Payment.status payment ≠ PaymentStatus.SUCCEEDED)
        then
          let succeeded (p : Payment.t) :=
            Payment.with_processedAt (tProcessed env)
              (Payment.with_status PaymentStatus.SUCCEEDED p) in
          match payments (db w) !! Payment.id payment with
          | None => (Thrown (PrismaNotFound "Payment"), w)
          | Some p =>
              match prisma.payment.clashes (Payment.id payment) (succeeded p)
                      (payments (db w)) with
              | Some target => (Thrown (PrismaUniqueConstraint target), w)
              | None =>
                  (Returned tt,
                   with_db (set_payments
                              (<[Payment.id payment := succeeded p]>
                                 (payments (db w))) (db w)) w)
              end
          end
        else (Returned tt, w)
    end.
Proof.
  unfold handlePaymentSucceeded,
    prisma.payment.findUniqueByStripePaymentIntentId, prisma.get.
  unfold bind at 1.
  destruct (findBy _ _ _) as [payment|]; [|done].
  destruct (bool_decide _); [|done]. cbv zeta.
  destruct (payments (db w) !! Payment.id payment) as [p|] eqn:Hp.
  - destruct (prisma.payment.clashes _ _ _) as [target|] eqn:Hclash.
    + by erewrite bind_thrown; [ | by eapply payment_update_clash ].
    + by erewrite bind_returned; [ | by apply payment_update_returned ].
  - by erewrite bind_thrown; [ | by apply payment_update_missing ].
Qed.

(** A handler that raises has changed nothing. *)
Lemma dispatch_failure_changes_nothing env event w :
  ∀ e, fst (dispatch env event w) = Thrown e → snd (dispatch env event w) = w.
Proof.
  intros e. destruct event as [s|s|p|p|t]; cbn [dispatch].
  - rewrite handleCheckoutCompleted_run. cbv zeta.
    destruct (negb _ || negb _); [done|].
    destruct (payments (db w) !! _); [|done].
    destruct (bool_decide _); [done|].
    destruct (prisma.payment.clashes _ _ _); [done|].
    by destruct (orders (db w) !! _).
  - rewrite handleCheckoutExpired_run. cbv zeta.
    destruct (negb _ || negb _); [done|].
    destruct (payments (db w) !! _); [|done].
    destruct (prisma.payment.clashes _ _ _); [done|].
    by destruct (orders (db w) !! _).
  - rewrite handlePaymentSucceeded_run.
    destruct (findBy _ _ _) as [payment|]; [|done].
    destruct (bool_decide _); [|done]. cbv zeta.
    destruct (payments (db w) !! _); [|done].
    by destruct (prisma.payment.clashes _ _ _).
  - rewrite handlePaymentFailed_run.
    destruct (findBy _ _ _) as [payment|]; [|done]. cbv zeta.
    destruct (payments (db w) !! _); [|done].
    destruct (prisma.payment.clashes _ _ _); [done|].
    by destruct (orders (db w) !! _).
  - done.
Qed.

(** X12. A delivery that the webhook route does not answer with status
    200 has changed nothing: the store and the logs of outward calls are
    as before. *)
Theorem postWebhook_error_changes_nothing env req w resp w' :
  PaymentController.postWebhook env req w = (Returned resp, w') →
  PaymentController.statusCode resp ≠ 200 →
  w' = w.
Proof.
  destruct (truthy (PaymentController.stripe_signature req)) eqn:Hsig.
  2: { rewrite (postWebhook_missing_header _ _ _ Hsig).
       by intros [= <- <-]. }
  destruct (constructEvent env (PaymentController.rawBody req)
              (default "" (PaymentController.stripe_signature req)))
    as [event|e] eqn:Hevent.
  - rewrite (postWebhook_after_verification _ _ _ _ Hsig Hevent).
    pose proof (dispatch_failure_changes_nothing env event w) as Hsame.
    destruct (dispatch env event w) as [[[]|e] w1].
    + by intros [= <- <-].
    + intros [= <- <-] _. by apply (Hsame e).
  - unfold PaymentController.postWebhook, handleWebhook, tryCatch, bind,
      callStripe, ret.
    rewrite Hsig, Hevent. cbn [negb].
    destruct (instanceofStripeSignatureVerificationError e);
      by intros [= <- <-].
Qed.

Lemma postWebhook_error_changes_nothing_witness :
  let event := Stripe.checkout_session_completed
                 (Scenario.completedSession "o1" "pay1") in
  let r := PaymentController.postWebhook (Scenario.verifiedAs event)
             Scenario.signedRequest Scenario.unknownPayment in
  fst r = Returned (PaymentController.mkResponse 400
            (PaymentController.failure
               (Some (message (PrismaNotFound "Payment")))))
  ∧ snd r = Scenario.unknownPayment.
Proof.
  intros event r. split; [reflexivity|].
  apply (postWebhook_error_changes_nothing (Scenario.verifiedAs event)
           Scenario.signedRequest Scenario.unknownPayment
           (PaymentController.mkResponse 400
              (PaymentController.failure
                 (Some (message (PrismaNotFound "Payment")))))
           (snd r)); [reflexivity|]. cbn. lia.
Defined.

(** X13. Only [checkout.session.completed] triggers an allocation or
    moves an order to [PAYMENT_COMPLETED]: after any other event the
    allocation triggers are as before, and every order that is
    [PAYMENT_COMPLETED] was the same row before the event. *)
Theorem only_completed_event_pays env event w :
  (∀ session, event ≠ Stripe.checkout_session_completed session) →
  let w' := snd (dispatch env event w) in
  triggered w' = triggered w
  ∧ ∀ k o', orders (db w') !! k = Some o' →
            Order.status o' = OrderStatus.PAYMENT_COMPLETED →
            orders (db w) !! k = Some o'.
Proof.
  intros Hother w'. subst w'.
  destruct event as [s|s|p|p|t]; cbn [dispatch].
  - by destruct (Hother s).
  - rewrite handleCheckoutExpired_run. cbv zeta.
    destruct (negb _ || negb _); [done|].
    destruct (payments (db w) !! _); [|done].
    destruct (prisma.payment.clashes _ _ _); [done|].
    destruct (orders (db w) !! _) as [o|] eqn:Ho; [|done].
    split; [done|]. intros k o'. cbn [snd db with_db orders set_orders].
    destruct (decide (default "" (Stripe.Session.metadata_orderId s) = k))
      as [<-|Hne].
    + rewrite lookup_insert_eq. by intros [= <-].
    + by rewrite lookup_insert_ne.
  - rewrite handlePaymentSucceeded_run.
    destruct (findBy _ _ _) as [payment|]; [|done].
    destruct (bool_decide _); [|done]. cbv zeta.
    destruct (payments (db w) !! _); [|done].
    by destruct (prisma.payment.clashes _ _ _).
  - rewrite handlePaymentFailed_run.
    destruct (findBy _ _ _) as [payment|]; [|done]. cbv zeta.
    destruct (payments (db w) !! _); [|done].
    destruct (prisma.payment.clashes _ _ _); [done|].
    destruct (orders (db w) !! _) as [o|] eqn:Ho; [|done].
    split; [done|]. intros k o'. cbn [snd db with_db orders set_orders].
    destruct (decide (Payment.orderId payment = k)) as [<-|Hne].
    + rewrite lookup_insert_eq. by intros [= <-].
    + by rewrite lookup_insert_ne.
  - done.
Qed.

Lemma only_completed_event_pays_witness :
  let event := Stripe.checkout_session_expired Scenario.expiredSession in
  let w' := snd (dispatch (Scenario.verifiedAs event) event
                   Scenario.awaitingPayment) in
  triggered w' = []
  ∧ Order.status <$> orders (db w') !! "o1" = Some OrderStatus.CANCELLED
  ∧ ∀ k o', orders (db w') !! k = Some o' →
            Order.status o' = OrderStatus.PAYMENT_COMPLETED →
            orders (db Scenario.awaitingPayment) !! k = Some o'.
Proof.
  intros event w'.
  destruct (only_completed_event_pays (Scenario.verifiedAs event) event
              Scenario.awaitingPayment ltac:(discriminate)) as [Ht Ho].
  split; [exact Ht|]. split; [reflexivity|exact Ho].
Defined.

End Handlers.

Section WebhookService.
Import PaymentService.

(** At the service, [handleWebhook] never throws: an event of a type it
    does not handle is acknowledged without any change, and a payload
    that cannot be verified gives an error result, [INVALID_SIGNATURE]
    exactly for signature errors. *)
Lemma handleWebhook_acknowledges env payload signature w :
  (∃ result, fst (handleWebhook env payload signature w) = Returned result)
  ∧ (∀ type,
       constructEvent env payload signature = Returned (Stripe.other type) →
       handleWebhook env payload signature w
       = (Returned (successResult (true, type)), w))
  ∧ (∀ e,
       constructEvent env payload signature = Thrown e →
       ∃ code_ text,
         handleWebhook env payload signature w
         = (Returned (errorResult code_ text), w)
         ∧ (code_ = "INVALID_SIGNATURE"
            ↔ instanceofStripeSignatureVerificationError e = true)).
Proof.
  split; [|split].
  - unfold handleWebhook, tryCatch.
    destruct (bind _ _ w) as [[result|e] w1]; [by eexists|].
    destruct (instanceofStripeSignatureVerificationError e); by eexists.
  - intros type Hevent.
    unfold handleWebhook, tryCatch, bind, callStripe, ret.
    by rewrite Hevent.
  - intros e Hevent.
    unfold handleWebhook, tryCatch, bind, callStripe, ret.
    rewrite Hevent.
    destruct (instanceofStripeSignatureVerificationError e);
      eexists _, _; (split; [reflexivity|]); by split.
Qed.

End WebhookService.

(** ** Cancelling an order *)

Section Cancel.
Import OrderService.

(** X14. [cancelOrder] returns an order exactly when the stored order
    is [PENDING_PAYMENT].  For an unknown id it throws [NotFoundError];
    whenever it throws, the world is unchanged.  The order it returns is
    the stored row, now [CANCELLED] with message "Cancelled by user",
    and cancelling it again throws "Cannot cancel order with status:
    CANCELLED" and changes nothing. *)
Theorem cancelOrder_only_pending orderId w :
  let r := cancelOrder orderId w in
  ((∃ o', fst r = Returned o')
   ↔ Order.status <$> orders (db w) !! orderId
     = Some OrderStatus.PENDING_PAYMENT)
  ∧ (orders (db w) !! orderId = None →
     r = (Thrown (NotFoundError "Order" orderId), w))
  ∧ (∀ e, fst r = Thrown e → snd r = w)
  ∧ (∀ o', fst r = Returned o' →
       orders (db (snd r)) !! orderId = Some o'
       ∧ Order.status o' = OrderStatus.CANCELLED
       ∧ Order.statusMessage o' = Some "Cancelled by user"
       ∧ cancelOrder orderId (snd r)
         = (Thrown (JsError "Cannot cancel order with status: CANCELLED"),
            snd r)).
Proof.
  intros r. subst r.
  destruct (orders (db w) !! orderId) as [order|] eqn:Ho.
  - destruct (decide (Order.status order = OrderStatus.PENDING_PAYMENT))
      as [Hst|Hst].
    + rewrite (cancelOrder_pending _ _ _ Ho Hst). cbn [fst snd fmap option_fmap
        option_map].
      split; [split; [by rewrite Hst|by eexists]|].
      split; [done|]. split; [done|]. intros o' [= <-].
      cbn [db with_db orders set_orders]. rewrite lookup_insert_eq.
      do 3 (split; [done|]).
      unfold cancelOrder, prisma.order.findUnique, prisma.get.
      unfold bind at 1. cbn [db with_db orders set_orders].
      rewrite lookup_insert_eq.
      by rewrite bool_decide_eq_true_2.
    + unfold cancelOrder, prisma.order.findUnique, prisma.get.
      unfold bind at 1 2 3 4 5 6. rewrite Ho.
      rewrite !bool_decide_eq_true_2 by done. cbn.
      split; [split; [by intros [? ?]|by intros [= ?]]|].
      by repeat split.
  - unfold cancelOrder, prisma.order.findUnique, prisma.get.
    unfold bind. rewrite Ho. cbn.
    split; [split; [by intros [? ?]|done]|].
    by repeat split.
Qed.

End Cancel.

(** ** A first checkout *)

(** ** Unique indexes on a table that lacks the value *)

Section Indexes.
Context {A : Type}.
Implicit Types (m : gmap string A) (key : A → option string).

Lemma findBy_absent key v m :
  (∀ k row, m !! k = Some row → key row ≠ Some v) → findBy key v m = None.
Proof.
  intros Habsent. unfold findBy.
  destruct (list_find _ _) as [[i row]|] eqn:Hfind; [|done].
  apply list_find_Some in Hfind as (Hi & Hrow & _).
  apply list_elem_of_lookup_2, list_elem_of_fmap in Hi as [[k row'] [-> Hin]].
  apply elem_of_map_to_list in Hin. by destruct (Habsent k row' Hin).
Qed.

Lemma taken_absent key self v m :
  (∀ k row, m !! k = Some row → key row ≠ v) → taken key self v m = false.
Proof.
  intros Habsent. unfold taken. destruct v as [v|]; [|done].
  apply bool_decide_eq_false_2. intros (k & row & Hk & _ & Hrow).
  by destruct (Habsent k row Hk).
Qed.

(** The row under [self] does not count against itself. *)
Lemma taken_insert_self key self v row m :
  taken key self v (<[self := row]> m) = taken key self v m.
Proof.
  unfold taken. destruct v as [v|]; [|done].
  apply bool_decide_ext. split.
  - intros (k & row' & Hk & Hne & Hrow).
    rewrite lookup_insert_ne in Hk by done. by exists k, row'.
  - intros (k & row' & Hk & Hne & Hrow).
    exists k, row'. by rewrite lookup_insert_ne.
Qed.

End Indexes.

(** ** A first checkout *)

Section FirstCheckout.
Import PaymentService.

Lemma truthy_orElse (s : option string) (d : string) :
  truthy s = true → orElse s d = default "" s.
Proof.
  destruct s as [v|]; [|done]. cbn. by destruct (String.eqb v "").
Qed.

Lemma order_create_returned o w :
  orders (db w) !! Order.id o = None →
  (∀ k row, orders (db w) !! k = Some row →
            Order.orderNumber row ≠ Order.orderNumber o) →
  (∀ k row, orders (db w) !! k = Some row →
            Order.idempotencyKey row ≠ Order.idempotencyKey o) →
  prisma.order.create o w
  = (Returned o,
     with_db (set_orders (<[Order.id o := o]> (orders (db w))) (db w)) w).
Proof.
  intros Hid Hnumber Hkey.
  unfold prisma.order.create, prisma.get, prisma.put, bind, ret. cbv [id].
  rewrite bool_decide_eq_false_2 by (rewrite Hid; by intros [? ?]).
  rewrite bool_decide_eq_false_2.
  2: { intros (k & row & Hk & Hrow). by destruct (Hnumber k row Hk). }
  by rewrite (taken_absent _ _ _ _ Hkey).
Qed.

Lemma payment_create_returned p w :
  payments (db w) !! Payment.id p = None →
  prisma.payment.clashes (Payment.id p) p (payments (db w)) = None →
  prisma.payment.create p w
  = (Returned p,
     with_db (set_payments (<[Payment.id p := p]> (payments (db w))) (db w)) w).
Proof.
  intros Hid Hfree.
  unfold prisma.payment.create, prisma.get, prisma.put, bind, ret. cbv [id].
  rewrite bool_decide_eq_false_2 by (rewrite Hid; by intros [? ?]).
  by rewrite Hfree.
Qed.

Lemma checkIdempotency_new_key env key w d :
  (∀ k o, orders (db w) !! k = Some o →
          Order.idempotencyKey o ≠ Some (orElse key d)) →
  checkIdempotency env key w = (Returned None, w).
Proof.
  intros Hnew. unfold checkIdempotency.
  destruct (truthy key) eqn:Hkey; [|done].
  unfold prisma.order.findUniqueByIdempotencyKey, prisma.get.
  unfold bind at 1. rewrite findBy_absent; [done|].
  intros k o Ho. rewrite <- (truthy_orElse _ d Hkey). by apply (Hnew k).
Qed.

(** The rows are inserted and the processor is asked for a session. *)
Lemma createCheckoutSession_first env params w plan provider user :
  FreshCheckout.t env params w plan provider user →
  let order := FreshCheckout.newOrder env params plan provider user in
  let payment := FreshCheckout.newPayment env plan user in
  let w1 :=
    with_db (set_payments (<[newPaymentId env := payment]> (payments (db w)))
               (set_orders (<[newOrderId env := order]> (orders (db w)))
                           (db w))) w in
  createCheckoutSession env params w =
  match sessions_create env (newOrderId env) (newPaymentId env) with
  | Thrown e =>
      (Returned (if instanceofStripeError e
                 then errorResult "STRIPE_ERROR" (message e)
                 else errorResult "CHECKOUT_FAILED"
                        (if instanceofError e then message e
                         else "Failed to create checkout session")), w1)
  | Returned session =>
      if taken Payment.stripeSessionId (newPaymentId env)
           (Some (Stripe.Session.id session)) (payments (db w))
      then
        (Returned (errorResult "CHECKOUT_FAILED"
                     (message (PrismaUniqueConstraint "stripe_session_id"))),
         w1)
      else
        (Returned (successResult
                     (mkCheckoutResult (Stripe.Session.id session)
                        (orElse (Stripe.Session.url session) "")
                        (newOrderId env) (newPaymentId env))),
         with_db (set_payments
                    (<[newPaymentId env :=
                         Payment.with_stripeSessionId
                           (Stripe.Session.id session) payment]>
                       (payments (db w)))
                    (set_orders (<[newOrderId env := order]> (orders (db w)))
                                (db w))) w)
  end.
Proof.
  intros [Hplan Hav Hact Hprov Huser Hcust Hoid Hnum Hkey Hpid Hpkey]
    order payment w1.
  unfold createCheckoutSession, tryCatch.
  rewrite (bind_returned _ _ _ _ _
             (checkIdempotency_new_key env _ w _ Hkey)).
  unfold prisma.storagePlan.findUnique, prisma.user.findUnique, prisma.get.
  unfold bind at 1. rewrite Hplan. unfold bind at 1.
  cbn [mbind option_bind]. rewrite Hprov.
  rewrite Hav, Hact.
  rewrite bool_decide_eq_false_2 by (intros Hne; by apply Hne).
  cbn [negb orb].
  unfold bind at 1. rewrite Huser, Hcust.
  unfold bind at 1, ret at 1.
  assert (Hrows : withTransaction
            (let* provider0 := deref "provider" (Some provider) in
             let* order0 := prisma.order.create
                 (Order.mk (newOrderId env) (generatedOrderNumber env)
                    (User.id user) (Provider.id provider0)
                    (StoragePlan.id plan) (StoragePlan.storageSizeGb plan)
                    (StoragePlan.durationDays plan)
                    (StoragePlan.priceUsdCents plan)
                    None None None OrderStatus.PENDING_PAYMENT None
                    (Some (orElse (idempotencyKey params)
                                  (generatedOrderKey env)))
                    None None None) in
             let* payment0 := prisma.payment.create
                 (Payment.mk (newPaymentId env) (Order.id order0)
                    (User.id user) None None
                    (StoragePlan.priceUsdCents plan) "usd"
                    PaymentStatus.PENDING None []
                    (Some (generatedPaymentKey env)) None) in
             ret (order0, payment0)) w
          = (Returned (order, payment), w1)).
  { apply withTransaction_returned. cbn [deref].
    unfold bind at 1, ret at 1.
    erewrite bind_returned; [ | by apply order_create_returned ].
    erewrite bind_returned.
    2: { apply payment_create_returned;
           cbn [db with_db payments set_orders Payment.id]; [done|].
         unfold prisma.payment.clashes.
         cbn [Payment.id Payment.stripePaymentIntentId Payment.stripeSessionId
              Payment.idempotencyKey taken].
         rewrite bool_decide_eq_false_2; [done|].
         intros (k & row & Hk & _ & Hrow). by destruct (Hpkey k row Hk). }
    done. }
  rewrite (bind_returned _ _ _ _ _ Hrows). cbn [fst snd].
  unfold bind at 1, callStripe at 1.
  change (Order.id order) with (newOrderId env).
  change (Payment.id payment) with (newPaymentId env).
  destruct (sessions_create env (newOrderId env) (newPaymentId env))
    as [session|e].
  2: { by destruct (instanceofStripeError e). }
  assert (Hthere : payments (db w1) !! newPaymentId env = Some payment)
    by (subst w1; cbn [db with_db payments set_payments];
        apply lookup_insert_eq).
  assert (Hclash : prisma.payment.clashes (newPaymentId env)
            (Payment.with_stripeSessionId (Stripe.Session.id session) payment)
            (payments (db w1))
          = if taken Payment.stripeSessionId (newPaymentId env)
                 (Some (Stripe.Session.id session)) (payments (db w))
            then Some "stripe_session_id" else None).
  { unfold prisma.payment.clashes. subst w1.
    cbn [db with_db payments set_payments].
    rewrite !taken_insert_self.
    cbn [Payment.stripePaymentIntentId Payment.with_stripeSessionId
         Payment.stripeSessionId Payment.idempotencyKey payment
         FreshCheckout.newPayment].
    change (taken Payment.stripePaymentIntentId (newPaymentId env) None
              (payments (db w))) with false. cbn iota.
    destruct (taken Payment.stripeSessionId _ _ _); [done|].
    by rewrite (taken_absent _ _ _ _ Hpkey). }
  destruct (taken Payment.stripeSessionId _ _ _).
  - by erewrite bind_thrown; [ | by eapply payment_update_clash ].
  - erewrite bind_returned; [ | by apply payment_update_returned ].
    unfold ret. subst w1. cbn [db with_db payments set_payments orders
      set_orders adapterCalls statusProbes triggered pollers].
    by rewrite insert_insert_eq.
Qed.


(** The first checkout of the seeded store. *)
Lemma first_checkout_is_fresh env key :
  FreshCheckout.t env
    (mkCheckoutParams "u1" "fil-starter-1gb" "https://app/orders/success"
                      "https://app/orders/cancel" key)
    Scenario.unknownPayment Scenario.starter Scenario.filecoin Scenario.u1.
Proof.
  split; try reflexivity.
  - intros k o Hk.
    change ((∅ : gmap string Order.t) !! k = Some o) in Hk.
    by rewrite lookup_empty in Hk.
  - intros k o Hk.
    change ((∅ : gmap string Order.t) !! k = Some o) in Hk.
    by rewrite lookup_empty in Hk.
  - intros k p Hk.
    change ((∅ : gmap string Payment.t) !! k = Some p) in Hk.
    by rewrite lookup_empty in Hk.
Qed.

(** X15. A checkout under a new key by a buyer who already has a
    customer id at the processor, so that no customer is created (plan
    available and active, provider and user present, generated ids and
    keys new to the store), whose session the processor creates under
    an id new to the store, returns the session id and url with the new
    order and payment ids.  It has inserted one [PENDING_PAYMENT] order
    carrying the plan's price, size and duration, and one [PENDING]
    payment of that order with the same amount and the session id; every
    other order and payment, the users and the transactions are
    unchanged, and no allocation is triggered. *)
Theorem createCheckoutSession_first_success
    env params w plan provider user session :
  FreshCheckout.t env params w plan provider user →
  sessions_create env (newOrderId env) (newPaymentId env) = Returned session →
  (∀ k p, payments (db w) !! k = Some p →
          Payment.stripeSessionId p ≠ Some (Stripe.Session.id session)) →
  ∃ w' o p,
    createCheckoutSession env params w
    = (Returned (successResult
                   (mkCheckoutResult (Stripe.Session.id session)
                      (orElse (Stripe.Session.url session) "")
                      (newOrderId env) (newPaymentId env))), w')
    ∧ orders (db w') !! newOrderId env = Some o
    ∧ o = FreshCheckout.newOrder env params plan provider user
    ∧ Order.status o = OrderStatus.PENDING_PAYMENT
    ∧ Order.priceUsdCents o = StoragePlan.priceUsdCents plan
    ∧ Order.storageSizeGb o = StoragePlan.storageSizeGb plan
    ∧ Order.durationDays o = StoragePlan.durationDays plan
    ∧ payments (db w') !! newPaymentId env = Some p
    ∧ p = Payment.with_stripeSessionId (Stripe.Session.id session)
            (FreshCheckout.newPayment env plan user)
    ∧ Payment.orderId p = newOrderId env
    ∧ Payment.amountCents p = Order.priceUsdCents o
    ∧ Payment.status p = PaymentStatus.PENDING
    ∧ Payment.stripeSessionId p = Some (Stripe.Session.id session)
    ∧ (∀ k, k ≠ newOrderId env → orders (db w') !! k = orders (db w) !! k)
    ∧ (∀ k, k ≠ newPaymentId env →
            payments (db w') !! k = payments (db w) !! k)
    ∧ users (db w') = users (db w)
    ∧ blockchainTransactions (db w') = blockchainTransactions (db w)
    ∧ triggered w' = triggered w.
Proof.
  intros Hfresh Hsession Hsid.
  pose proof (createCheckoutSession_first _ _ _ _ _ _ Hfresh) as Hrun.
  cbv zeta in Hrun. rewrite Hsession in Hrun.
  rewrite (taken_absent _ _ _ _ Hsid) in Hrun.
  eexists _, _, _. split; [exact Hrun|].
  cbn [db with_db orders payments users blockchainTransactions triggered
       set_orders set_payments].
  rewrite !lookup_insert_eq.
  do 12 (split; [reflexivity|]).
  split; [intros k Hk; by rewrite lookup_insert_ne|].
  split; [intros k Hk; by rewrite lookup_insert_ne|].
  by destruct w.
Qed.

Lemma createCheckoutSession_first_success_witness :
  let env := Scenario.processor Scenario.noSuchSession in
  let params := mkCheckoutParams "u1" "fil-starter-1gb"
                  "https://app/orders/success" "https://app/orders/cancel"
                  (Some "key-o2") in
  ∃ w' o p,
    createCheckoutSession env params Scenario.unknownPayment
    = (Returned (successResult
         (mkCheckoutResult "cs_2" "https://checkout/cs_2" "o2" "pay2")), w')
    ∧ orders (db w') !! "o2" = Some o
    ∧ Order.status o = OrderStatus.PENDING_PAYMENT
    ∧ Order.priceUsdCents o = 99
    ∧ Order.idempotencyKey o = Some "key-o2"
    ∧ payments (db w') !! "pay2" = Some p
    ∧ Payment.amountCents p = 99
    ∧ Payment.stripeSessionId p = Some "cs_2".
Proof.
  intros env params.
  destruct (createCheckoutSession_first_success env params
              Scenario.unknownPayment _ _ _
              (Stripe.Session.mk "cs_2" (Some "https://checkout/cs_2")
                 (Some "o2") (Some "pay2") None None None)
              (first_checkout_is_fresh _ _) eq_refl)
    as (w' & o & p & Hrun & Ho & Heq & Hst & _ & _ & _ & Hp & Hpeq & _).
  { intros k p Hk.
    change ((∅ : gmap string Payment.t) !! k = Some p) in Hk.
    by rewrite lookup_empty in Hk. }
  exists w', o, p. subst o p. by repeat split.
Defined.

(** X16. When the processor fails to create the session of such a
    checkout (new key, buyer already a customer of the processor, plan
    on sale, generated ids and keys new to the store),
    [createCheckoutSession] answers an error ([STRIPE_ERROR], with the
    processor's message, exactly for processor errors), and the rows
    inserted before the call stay in the store: a [PENDING_PAYMENT]
    order and a payment without session id. *)
Theorem createCheckoutSession_session_failure
    env params w plan provider user e :
  FreshCheckout.t env params w plan provider user →
  sessions_create env (newOrderId env) (newPaymentId env) = Thrown e →
  ∃ w' code_ text,
    createCheckoutSession env params w
    = (Returned (errorResult code_ text), w')
    ∧ (code_ = "STRIPE_ERROR" ↔ instanceofStripeError e = true)
    ∧ (instanceofStripeError e = true → text = message e)
    ∧ orders (db w') !! newOrderId env
      = Some (FreshCheckout.newOrder env params plan provider user)
    ∧ payments (db w') !! newPaymentId env
      = Some (FreshCheckout.newPayment env plan user)
    ∧ Payment.stripeSessionId (FreshCheckout.newPayment env plan user) = None
    ∧ Order.status (FreshCheckout.newOrder env params plan provider user)
      = OrderStatus.PENDING_PAYMENT.
Proof.
  intros Hfresh Hsession.
  pose proof (createCheckoutSession_first _ _ _ _ _ _ Hfresh) as Hrun.
  cbv zeta in Hrun. rewrite Hsession in Hrun.
  destruct (instanceofStripeError e) eqn:Hstripe;
    eexists _, _, _; (split; [exact Hrun|]);
    cbn [db with_db orders payments set_orders set_payments];
    rewrite !lookup_insert_eq; by repeat split.
Qed.

Lemma createCheckoutSession_session_failure_witness :
  let env := mkCheckoutEnv (λ _, Scenario.noSuchSession)
               (λ _, Returned "cus_2")
               (λ _ _, Thrown (StripeError "api_connection_error"))
               "o2" "pay2" "ORD-o2" "idem_order2" "idem_pay2" in
  let params := mkCheckoutParams "u1" "fil-starter-1gb"
                  "https://app/orders/success" "https://app/orders/cancel"
                  (Some "key-o2") in
  ∃ w',
    createCheckoutSession env params Scenario.unknownPayment
    = (Returned (errorResult "STRIPE_ERROR" "api_connection_error"), w')
    ∧ Order.status <$> orders (db w') !! "o2"
      = Some OrderStatus.PENDING_PAYMENT
    ∧ Payment.stripeSessionId <$> payments (db w') !! "pay2" = Some None.
Proof.
  intros env params.
  assert (Hfresh : FreshCheckout.t env params Scenario.unknownPayment
                     Scenario.starter Scenario.filecoin Scenario.u1)
    by apply first_checkout_is_fresh.
  destruct (createCheckoutSession_session_failure env params
              Scenario.unknownPayment _ _ _
              (StripeError "api_connection_error") Hfresh eq_refl)
    as (w' & code_ & text & Hrun & Hcode & Htext & Ho & Hp & _).
  exists w'.
  change (orders (db w') !! "o2"
          = Some (FreshCheckout.newOrder env params Scenario.starter
                    Scenario.filecoin Scenario.u1)) in Ho.
  change (payments (db w') !! "pay2"
          = Some (FreshCheckout.newPayment env Scenario.starter Scenario.u1))
    in Hp.
  rewrite Ho, Hp. split; [|by split].
  rewrite Hrun. by rewrite (proj2 Hcode eq_refl), (Htext eq_refl).
Defined.

(** X17. When no order bears the request's idempotency key, an
    unknown plan gives [PLAN_NOT_FOUND], a plan that is not [AVAILABLE]
    or not active gives [PLAN_UNAVAILABLE], and an unknown user gives
    [USER_NOT_FOUND]; each answer leaves the world unchanged. *)
Theorem createCheckoutSession_guards env params w :
  (∀ key, idempotencyKey params = Some key →
          ∀ k o, orders (db w) !! k = Some o →
                 Order.idempotencyKey o ≠ Some key) →
  (storagePlans (db w) !! planId params = None →
   createCheckoutSession env params w
   = (Returned (errorResult "PLAN_NOT_FOUND" "Storage plan not found"), w))
  ∧ (∀ plan,
       storagePlans (db w) !! planId params = Some plan →
       (StoragePlan.status plan ≠ PlanStatus.AVAILABLE
        ∨ StoragePlan.isActive plan = false →
        createCheckoutSession env params w
        = (Returned (errorResult "PLAN_UNAVAILABLE"
                       "This storage plan is no longer available"), w))
       ∧ (StoragePlan.status plan = PlanStatus.AVAILABLE →
          StoragePlan.isActive plan = true →
          users (db w) !! userId params = None →
          createCheckoutSession env params w
          = (Returned (errorResult "USER_NOT_FOUND" "User not found"), w))).
Proof.
  intros Hnew.
  assert (Hearly : checkIdempotency env (idempotencyKey params) w
                   = (Returned None, w)).
  { destruct (idempotencyKey params) as [key|] eqn:Hkey; [|done].
    destruct (truthy (Some key)) eqn:Htruthy.
    - apply (checkIdempotency_new_key env (Some key) w "").
      rewrite (truthy_orElse _ _ Htruthy). by apply Hnew.
    - unfold checkIdempotency. by rewrite Htruthy. }
  split; [|intros plan Hplan; split].
  - intros Hplan. unfold createCheckoutSession, tryCatch.
    rewrite (bind_returned _ _ _ _ _ Hearly).
    unfold prisma.storagePlan.findUnique, prisma.get.
    unfold bind at 1. rewrite Hplan. by unfold bind at 1.
  - intros Hoff. unfold createCheckoutSession, tryCatch.
    rewrite (bind_returned _ _ _ _ _ Hearly).
    unfold prisma.storagePlan.findUnique, prisma.get.
    unfold bind at 1. rewrite Hplan. unfold bind at 1.
    destruct Hoff as [Hst| ->].
    + by rewrite bool_decide_eq_true_2.
    + by rewrite orb_true_r.
  - intros Hst Hact Huser. unfold createCheckoutSession, tryCatch.
    rewrite (bind_returned _ _ _ _ _ Hearly).
    unfold prisma.storagePlan.findUnique, prisma.user.findUnique, prisma.get.
    unfold bind at 1. rewrite Hplan. unfold bind at 1.
    rewrite Hact, bool_decide_eq_false_2 by (intros Hne; by apply Hne).
    cbn [negb orb]. unfold bind at 1. by rewrite Huser.
Qed.

Lemma createCheckoutSession_guards_witness :
  let env := Scenario.processor Scenario.noSuchSession in
  let w := Scenario.unknownPayment in
  createCheckoutSession env
    (mkCheckoutParams "u1" "fil-legacy" "s" "c" None) w
  = (Returned (errorResult "PLAN_NOT_FOUND" "Storage plan not found"), w)
  ∧ createCheckoutSession env
      (mkCheckoutParams "u7" "fil-starter-1gb" "s" "c" None) w
    = (Returned (errorResult "USER_NOT_FOUND" "User not found"), w).
Proof.
  intros env w. split.
  - apply (proj1 (createCheckoutSession_guards env
                    (mkCheckoutParams "u1" "fil-legacy" "s" "c" None) w
                    ltac:(discriminate))).
    reflexivity.
  - apply (proj2 (proj2 (createCheckoutSession_guards env
                           (mkCheckoutParams "u7" "fil-starter-1gb" "s" "c"
                                             None) w
                           ltac:(discriminate))
                    Scenario.starter eq_refl)); reflexivity.
Defined.

Lemma createCheckoutSession_returns env params w :
  ∃ result, fst (createCheckoutSession env params w) = Returned result.
Proof.
  unfold createCheckoutSession, tryCatch.
  destruct (bind _ _ w) as [[result|e] w1]; [by eexists|].
  destruct (instanceofStripeError e); by eexists.
Qed.

End FirstCheckout.

(** ** Routes and the error middleware *)

Section Routes.
Import IApiResponse.

(** X18. [POST /checkout] answers 400 [VALIDATION_ERROR] with
    "userId is required", or "planId is required" when only the plan id
    is missing or empty, and then touches nothing.  It always responds,
    with status 200 or 400, and with 200 exactly when the body carries
    the checkout data. *)
Theorem postCheckout_status cfg env body_ w :
  (truthy (CheckoutRoute.userId body_) = false →
   CheckoutRoute.postCheckout cfg env body_ w
   = (Returned (mk 400 (failed (mkErrorBody "VALIDATION_ERROR"
                                  (Some "userId is required")))), w))
  ∧ (truthy (CheckoutRoute.userId body_) = true →
     truthy (CheckoutRoute.planId body_) = false →
     CheckoutRoute.postCheckout cfg env body_ w
     = (Returned (mk 400 (failed (mkErrorBody "VALIDATION_ERROR"
                                    (Some "planId is required")))), w))
  ∧ ∃ resp,
      fst (CheckoutRoute.postCheckout cfg env body_ w) = Returned resp
      ∧ (statusCode resp = 200 ∨ statusCode resp = 400)
      ∧ (statusCode resp = 200 ↔ ∃ data, body resp = ok data).
Proof.
  unfold CheckoutRoute.postCheckout, tryCatch.
  destruct (truthy (CheckoutRoute.userId body_)); cbn [negb].
  2: { split; [done|]. split; [done|]. eexists. split; [reflexivity|].
       cbn. split; [by right|]. split; [done|by intros [? ?]]. }
  destruct (truthy (CheckoutRoute.planId body_)); cbn [negb].
  2: { split; [done|]. split; [done|]. eexists. split; [reflexivity|].
       cbn. split; [by right|]. split; [done|by intros [? ?]]. }
  split; [done|]. split; [done|].
  unfold bind.
  destruct (createCheckoutSession_returns env
              (PaymentService.mkCheckoutParams
                 (default "" (CheckoutRoute.userId body_))
                 (default "" (CheckoutRoute.planId body_))
                 (config.frontendUrl cfg ++ "/orders/success")
                 (config.frontendUrl cfg ++ "/orders/cancel")
                 (CheckoutRoute.idempotencyKey body_)) w) as [result Hr].
  destruct (PaymentService.createCheckoutSession _ _ w) as [r w1].
  cbn [fst] in Hr. subst r.
  destruct result as [data|code_ msg]; eexists; (split; [reflexivity|]); cbn.
  - split; [by left|]. split; [by eexists|done].
  - split; [by right|]. split; [done|by intros [? ?]].
Qed.

(** X19. The cancel route always responds: with 404 [NOT_FOUND] and
    an unchanged world for an unknown order; with 200 for a
    [PENDING_PAYMENT] order, which is [CANCELLED] afterwards; and with
    500 [INTERNAL_ERROR] and an unchanged world for an order in any
    other status. *)
Theorem postCancel_status cfg orderId w :
  ∃ resp w',
    OrderController.postCancel cfg orderId w = (Returned resp, w')
    ∧ match orders (db w) !! orderId with
      | None =>
          w' = w
          ∧ resp = mk 404 (failed (mkErrorBody "NOT_FOUND"
                     (Some ("Order with identifier '" ++ orderId
                              ++ "' not found"))))
      | Some order =>
          if bool_decide (Order.status order = OrderStatus.PENDING_PAYMENT)
          then
            statusCode resp = 200
            ∧ Order.status <$> orders (db w') !! orderId
              = Some OrderStatus.CANCELLED
          else
            w' = w
            ∧ statusCode resp = 500
            ∧ ∃ text, body resp = failed (mkErrorBody "INTERNAL_ERROR" text)
      end.
Proof.
  unfold OrderController.postCancel, tryCatch.
  destruct (orders (db w) !! orderId) as [order|] eqn:Ho.
  - case_bool_decide as Hst.
    + erewrite bind_returned; [ | by apply cancelOrder_pending ].
      eexists _, _. split; [reflexivity|]. split; [done|].
      cbn [db with_db orders set_orders]. by rewrite lookup_insert_eq.
    + unfold OrderService.cancelOrder, prisma.order.findUnique, prisma.get.
      unfold bind, throw, ret. rewrite Ho.
      rewrite bool_decide_eq_true_2 by done.
      eexists _, _. split; [reflexivity|]. split; [done|]. split; [done|].
      by eexists.
  - unfold OrderService.cancelOrder, prisma.order.findUnique, prisma.get.
    unfold bind, throw, ret. rewrite Ho.
    eexists _, _. split; [reflexivity|]. by split.
Qed.

End Routes.

(** ** Submission through the Filecoin adapter *)

(** ** The Filecoin adapter: submission *)

Section FilecoinSubmission.
Import BaseStorageProviderAdapter.

Lemma gasPriceOf_nonzero feeData : Filecoin.gasPriceOf feeData ≠ 0.
Proof.
  unfold Filecoin.gasPriceOf, Filecoin.oneGwei.
  destruct feeData as [p|]; [|done]. by case_bool_decide.
Qed.

Lemma executeStorageTransaction_uninitialized node params :
  Filecoin.initialized node = false →
  Filecoin.executeStorageTransaction node params
  = Thrown (ProviderError "filecoin" "Provider adapter not initialized").
Proof.
  intros Hinit.
  unfold Filecoin.executeStorageTransaction, ensureInitialized.
  by rewrite Hinit.
Qed.

Lemma executeStorageTransaction_walletless node params :
  Filecoin.initialized node = true →
  Filecoin.wallet node = None ∨ Filecoin.hasProvider node = false →
  Filecoin.executeStorageTransaction node params
  = Returned (createFailedTransaction "Wallet not configured").
Proof.
  intros Hinit Hnone.
  unfold Filecoin.executeStorageTransaction, ensureInitialized.
  rewrite Hinit. destruct (Filecoin.wallet node) as [address|]; [|done].
  destruct Hnone as [?| ->]; done.
Qed.

(** X20. The Filecoin adapter's [executeStorageTransaction] throws
    exactly when the adapter is not initialised; otherwise it returns a
    result, whatever the node does.  Without wallet or provider the
    result is the failure "Wallet not configured"; a successful result
    is [SUBMITTED] with a hash, no error and the storage id and gateway
    endpoint made from the order id; an unsuccessful one is [FAILED]
    with an error text and neither hash nor storage id. *)
Theorem executeStorageTransaction_outcome node params :
  (Filecoin.initialized node = false →
   Filecoin.executeStorageTransaction node params
   = Thrown (ProviderError "filecoin" "Provider adapter not initialized"))
  ∧ (Filecoin.initialized node = true →
     ∃ r,
       Filecoin.executeStorageTransaction node params = Returned r
       ∧ (Filecoin.wallet node = None ∨ Filecoin.hasProvider node = false →
          r = createFailedTransaction "Wallet not configured")
       ∧ (ITransactionResult.success r = true →
          ITransactionResult.status r = TransactionStatus.SUBMITTED
          ∧ is_Some (ITransactionResult.txHash r)
          ∧ ITransactionResult.error r = None
          ∧ ITransactionResult.storageId r
            = Some (Filecoin.storageIdOf node params)
          ∧ ITransactionResult.storageEndpoint r
            = Some ("https://gateway.lighthouse.storage/ipfs/"
                      ++ Filecoin.storageIdOf node params))
       ∧ (ITransactionResult.success r = false →
          ITransactionResult.status r = TransactionStatus.FAILED
          ∧ ITransactionResult.txHash r = None
          ∧ is_Some (ITransactionResult.error r)
          ∧ ITransactionResult.storageId r = None)).
Proof.
  split; [apply executeStorageTransaction_uninitialized|].
  unfold Filecoin.executeStorageTransaction, ensureInitialized.
  intros ->.
  destruct (Filecoin.wallet node) as [address|].
  2: { eexists. split; [reflexivity|]. by repeat split. }
  destruct (Filecoin.hasProvider node); cbn [negb].
  2: { eexists. split; [reflexivity|]. by repeat split. }
  destruct (Filecoin.provider_estimateGas node _) as [gasEstimate|e].
  2: { eexists. split; [reflexivity|].
       split; [by intros [?|?]|]. by repeat split. }
  destruct (Filecoin.provider_getFeeData node) as [feeData|e].
  2: { eexists. split; [reflexivity|].
       split; [by intros [?|?]|]. by repeat split. }
  destruct (Filecoin.wallet_sendTransaction node _) as [tx|e].
  2: { eexists. split; [reflexivity|].
       split; [by intros [?|?]|]. by repeat split. }
  eexists. split; [reflexivity|].
  split; [by intros [?|?]|]. by repeat split.
Qed.

(** X21. When the node estimates the gas, reports its fees and
    accepts the transaction, the transaction is sent with twice the
    estimate as gas limit, while the result records the estimate itself
    as [gasLimit]; the gas price used and recorded is the node's, or one
    gwei when the node reports none or zero, and so never zero.  The
    result carries the hash and nonce of the sent transaction, the
    wallet as sender and recipient, and value "0". *)
Theorem executeStorageTransaction_gas node params address gasEstimate
    feeData tx :
  Filecoin.initialized node = true →
  Filecoin.hasProvider node = true →
  Filecoin.wallet node = Some address →
  Filecoin.provider_estimateGas node
    (Filecoin.mkTransactionRequest (Some address) address 0
       (Filecoin.hexlify node (Filecoin.txData node params)) None None)
  = Returned gasEstimate →
  Filecoin.provider_getFeeData node = Returned feeData →
  Filecoin.wallet_sendTransaction node
    (Filecoin.mkTransactionRequest None address 0
       (Filecoin.hexlify node (Filecoin.txData node params))
       (Some (2 * gasEstimate)) (Some (Filecoin.gasPriceOf feeData)))
  = Returned tx →
  Filecoin.gasPriceOf feeData ≠ 0
  ∧ ∃ r,
      Filecoin.executeStorageTransaction node params = Returned r
      ∧ ITransactionResult.success r = true
      ∧ ITransactionResult.txHash r = Some (Filecoin.hash tx)
      ∧ ITransactionResult.nonce r = Some (Filecoin.tx_nonce tx)
      ∧ ITransactionResult.gasLimit r = Some (pretty gasEstimate)
      ∧ ITransactionResult.gasPrice r
        = Some (pretty (Filecoin.gasPriceOf feeData))
      ∧ ITransactionResult.fromAddress r = Some address
      ∧ ITransactionResult.toAddress r = Some address
      ∧ ITransactionResult.value r = Some "0".
Proof.
  intros Hinit Hprov Hwallet Hgas Hfee Hsend.
  split; [apply gasPriceOf_nonzero|].
  unfold Filecoin.executeStorageTransaction, ensureInitialized,
    Filecoin.submission.
  rewrite Hinit, Hwallet, Hprov. cbn [negb].
  rewrite Hgas, Hfee.
  replace (gasEstimate * 2) with (2 * gasEstimate) by lia.
  rewrite Hsend.
  eexists. split; [reflexivity|]. by repeat split.
Qed.

Lemma executeStorageTransaction_gas_witness :
  let params := mkParams "o1" "fil-starter-1gb" 1073741824 180 None in
  ∃ r,
    Filecoin.executeStorageTransaction Calibration.funded params = Returned r
    ∧ ITransactionResult.txHash r = Some "0xDEAD"
    ∧ ITransactionResult.gasLimit r = Some "21000"
    ∧ ITransactionResult.gasPrice r = Some "1000000000".
Proof.
  intros params.
  destruct (executeStorageTransaction_gas Calibration.funded params "0xf1a7"
              21000 (Some 0) (Filecoin.mkTransactionResponse "0xDEAD" 7)
              eq_refl eq_refl eq_refl eq_refl eq_refl eq_refl)
    as (_ & r & Hrun & _ & Hhash & _ & Hlimit & Hprice & _).
  exists r. repeat split; assumption.
Defined.

(** X22. [processOrder] with the Filecoin adapter registered for the
    order's provider.  Initialised without a wallet, it answers
    [TRANSACTION_FAILED] "Wallet not configured"; the new row is
    [FAILED] and the order [BLOCKCHAIN_FAILED], both with that message.
    Not initialised, it answers [PROCESSING_FAILED]; the order is
    [BLOCKCHAIN_FAILED] while the new row stays [PENDING].  No poller is
    started in either case. *)
Theorem processOrder_through_filecoin
    env orderId w order provider plan user node receipts :
  BlockchainService.Dispatchable orderId w order provider plan user →
  BlockchainService.registry env !! Provider.slug provider
  = Some (Filecoin.asAdapter node receipts) →
  blockchainTransactions (db w) !! BlockchainService.newTxId env = None →
  (Filecoin.initialized node = true →
   Filecoin.wallet node = None →
   ∃ w' x o,
     BlockchainService.processOrder env orderId w
     = (Returned (errorResult "TRANSACTION_FAILED" "Wallet not configured"),
        w')
     ∧ blockchainTransactions (db w') !! BlockchainService.newTxId env = Some x
     ∧ BlockchainTransaction.status x = TransactionStatus.FAILED
     ∧ BlockchainTransaction.statusMessage x = Some "Wallet not configured"
     ∧ orders (db w') !! orderId = Some o
     ∧ Order.status o = OrderStatus.BLOCKCHAIN_FAILED
     ∧ Order.statusMessage o = Some "Wallet not configured"
     ∧ pollers w' = pollers w)
  ∧ (Filecoin.initialized node = false →
     ∃ w' x o,
       BlockchainService.processOrder env orderId w
       = (Returned (errorResult "PROCESSING_FAILED"
                      "[filecoin] Provider adapter not initialized"), w')
       ∧ blockchainTransactions (db w') !! BlockchainService.newTxId env
         = Some x
       ∧ BlockchainTransaction.status x = TransactionStatus.PENDING
       ∧ orders (db w') !! orderId = Some o
       ∧ Order.status o = OrderStatus.BLOCKCHAIN_FAILED
       ∧ Order.statusMessage o
         = Some "[filecoin] Provider adapter not initialized"
       ∧ pollers w' = pollers w).
Proof.
  intros Hready Hreg Hfresh.
  pose proof (processOrder_dispatch _ _ _ _ _ _ _ _ Hready Hreg Hfresh) as Hrun.
  cbv zeta in Hrun.
  change (executeStorageTransaction (Filecoin.asAdapter node receipts))
    with (Filecoin.executeStorageTransaction node) in Hrun.
  split.
  - intros Hinit Hwallet.
    rewrite (executeStorageTransaction_walletless _ _ Hinit
               (or_introl Hwallet)) in Hrun.
    eexists _, _, _. split; [exact Hrun|].
    cbn [db blockchainTransactions orders set_blockchainTransactions
         set_orders pollers].
    rewrite !lookup_insert_eq. by repeat split.
  - intros Hinit.
    rewrite (executeStorageTransaction_uninitialized _ _ Hinit) in Hrun.
    eexists _, _, _. split; [exact Hrun|].
    cbn [db blockchainTransactions orders set_blockchainTransactions
         set_orders pollers].
    rewrite !lookup_insert_eq. by repeat split.
Qed.

Lemma processOrder_through_filecoin_witness :
  let env := Scenario.envOf (Calibration.adapter Calibration.walletless)
                            "tx1" in
  ∃ w' x o,
    BlockchainService.processOrder env "o1" Scenario.paid
    = (Returned (errorResult "TRANSACTION_FAILED" "Wallet not configured"), w')
    ∧ blockchainTransactions (db w') !! "tx1" = Some x
    ∧ BlockchainTransaction.status x = TransactionStatus.FAILED
    ∧ orders (db w') !! "o1" = Some o
    ∧ Order.status o = OrderStatus.BLOCKCHAIN_FAILED
    ∧ Order.statusMessage o = Some "Wallet not configured".
Proof.
  intros env.
  destruct (proj1 (processOrder_through_filecoin env "o1" Scenario.paid
                     _ _ _ _ Calibration.walletless
                     (λ _ _, Returned (Some Scenario.minedAt100))
                     paid_dispatchable eq_refl eq_refl) eq_refl eq_refl)
    as (w' & x & o & Hrun & Hx & Hst & _ & Ho & Hos & Hmsg & _).
  exists w', x, o. by repeat split.
Defined.

End FilecoinSubmission.

(** ** The answers of the Filecoin probe *)

(** ** The Filecoin adapter: what a probe can answer *)

Section FilecoinProbe.
Import FilecoinAdapter.

(** X23. The Filecoin adapter's [checkTransactionStatus] throws when
    the adapter is not initialised and otherwise always returns a
    status.  Without provider it is [FAILED] "Provider not available".
    It is [CONFIRMED] only for a receipt that is not reverted and at
    least 5 blocks deep, the depth being the reported confirmations; it
    is [FAILED] only without provider or for a reverted receipt; and
    when the receipt requests or the block-number request fail, it is
    [PENDING] with 0 confirmations and an error text. *)
Theorem checkTransactionStatus_answers (rpc : Rpc) (txHash : string) :
  (initialized rpc = false →
   checkTransactionStatus rpc txHash
   = Thrown (ProviderError "filecoin" "Provider adapter not initialized"))
  ∧ (initialized rpc = true →
     ∃ r,
       checkTransactionStatus rpc txHash = Returned r
       ∧ (hasProvider rpc = false →
          ITransactionStatusResult.status r = TransactionStatus.FAILED
          ∧ ITransactionStatusResult.error r = Some "Provider not available")
       ∧ (ITransactionStatusResult.status r = TransactionStatus.CONFIRMED →
          ∃ receipt head,
            retry (getTransactionReceipt rpc txHash) 3
            = Returned (Some receipt)
            ∧ getBlockNumber rpc = Returned head
            ∧ r_status receipt ≠ Some 0
            ∧ head - r_blockNumber receipt >= 5
            ∧ ITransactionStatusResult.confirmations r
              = head - r_blockNumber receipt)
       ∧ (ITransactionStatusResult.status r = TransactionStatus.FAILED →
          hasProvider rpc = false
          ∨ ∃ receipt,
              retry (getTransactionReceipt rpc txHash) 3
              = Returned (Some receipt)
              ∧ r_status receipt = Some 0)
       ∧ (hasProvider rpc = true →
          (∃ e, retry (getTransactionReceipt rpc txHash) 3 = Thrown e)
          ∨ (∃ e, getBlockNumber rpc = Thrown e)
            ∧ (∃ receipt, retry (getTransactionReceipt rpc txHash) 3
                          = Returned (Some receipt)) →
          ITransactionStatusResult.status r = TransactionStatus.PENDING
          ∧ ITransactionStatusResult.confirmations r = 0
          ∧ is_Some (ITransactionStatusResult.error r))).
Proof.
  unfold checkTransactionStatus.
  split; [by intros ->|]. intros ->. cbn [negb].
  destruct (hasProvider rpc).
  2: { eexists. split; [reflexivity|]. cbn. split; [done|].
       split; [done|]. split; [by left|done]. }
  cbn [negb].
  destruct (retry (getTransactionReceipt rpc txHash) 3)
    as [[receipt|]|e].
  - destruct (getBlockNumber rpc) as [head|e].
    + case_bool_decide as Hreverted.
      * eexists. split; [reflexivity|]. cbn. split; [done|].
        split; [done|]. split; [intros _; right; by exists receipt|].
        intros _ [[? [=]]|[[? [=]] _]].
      * eexists. split; [reflexivity|]. cbn. split; [done|].
        split; [|split].
        -- case_bool_decide; [|done]. intros _. by exists receipt, head.
        -- by case_bool_decide.
        -- intros _ [[? [=]]|[[? [=]] _]].
    + eexists. split; [reflexivity|]. cbn. by repeat split.
  - eexists. split; [reflexivity|]. cbn. split; [done|].
    split; [done|]. split; [done|].
    intros _ [[? [=]]|[_ [? [=]]]].
  - eexists. split; [reflexivity|]. cbn. by repeat split.
Qed.

End FilecoinProbe.

(** ** The [retry] helper *)

(** ** The [retry] helper *)

Section Retry.
Import Helpers.
Context {A : Type}.
Implicit Types (fn : nat → Outcome A).

Lemma calls_step k (b : bool) e ms rest :
  calls (Called k :: (if b then [OnRetry e k] else []) ++ Slept ms :: rest)
  = k :: calls rest.
Proof. by destruct b. Qed.

Lemma sleeps_step k (b : bool) e ms rest :
  sleeps (Called k :: (if b then [OnRetry e k] else []) ++ Slept ms :: rest)
  = ms :: sleeps rest.
Proof. by destruct b. Qed.

(** The loop, by the number [n] of calls it makes: every call but the
    last one raised, and either the last call returned, or the attempts
    ran out with the last error. *)
Lemma retryLoop_run fn (maxRetries_ : nat) delay_ backoff_ onRetry_ :
  ∀ remaining attempt lastError,
    (attempt + remaining = S maxRetries_)%nat →
    let r := retryLoop fn maxRetries_ delay_ backoff_ onRetry_ remaining
               attempt lastError in
    ∃ n : nat,
      (n ≤ remaining)%nat
      ∧ calls (fst r) = seq attempt n
      ∧ sleeps (fst r)
        = (λ k : nat, delay_ * backoff_ ^ (Z.of_nat k - 1))
            <$> seq attempt (pred n)
      ∧ (∀ j, (attempt ≤ j < attempt + pred n)%nat → ∃ e, fn j = Thrown e)
      ∧ match snd r with
        | Returned a =>
            (0 < n)%nat ∧ fn (attempt + pred n)%nat = Returned a
        | Thrown e =>
            n = remaining
            ∧ ((n = 0)%nat → e = lastError)
            ∧ ((0 < n)%nat →
               ∃ e', fn (attempt + pred n)%nat = Thrown e' ∧ e = toError e')
        end.
Proof.
  induction remaining as [|remaining IH]; intros attempt lastError Hsum r.
  - exists 0%nat. subst r. cbn. repeat split; try done; lia.
  - subst r. cbn [retryLoop].
    destruct (fn attempt) as [a|error] eqn:Hcall.
    + exists 1%nat. cbn. rewrite Nat.add_0_r.
      repeat split; try done; lia.
    + destruct (Nat.eqb_spec attempt maxRetries_) as [Hlast|Hmore].
      * exists 1%nat. cbn. rewrite Nat.add_0_r.
        repeat split; try done; try lia. intros _. by exists error.
      * destruct (IH (S attempt) (toError error) ltac:(lia))
          as (n & Hn & Hcalls & Hsleeps & Hthrown & Hlast).
        cbv zeta in Hcalls, Hsleeps, Hlast.
        assert (Hpos : (0 < n)%nat).
        { destruct (snd (retryLoop _ _ _ _ _ remaining _ _)); lia. }
        exists (S n). cbn [fst snd].
        rewrite calls_step, sleeps_step, Hcalls, Hsleeps.
        destruct n as [|n]; [lia|]. cbn [pred] in *.
        split; [lia|]. split; [done|]. split; [done|].
        split.
        { intros j Hj. destruct (decide (j = attempt)) as [->|Hne].
          - by exists error.
          - apply Hthrown. lia. }
        replace (attempt + S n)%nat with (S attempt + n)%nat by lia.
        destruct (snd (retryLoop _ _ _ _ _ remaining _ _)) as [a|e].
        -- split; [lia|]. by destruct Hlast.
        -- destruct Hlast as (-> & _ & Hlast).
           split; [done|]. split; [lia|]. intros _. apply Hlast. lia.
Qed.

(** X24. [retry] returns a value exactly when some attempt within
    the budget (3 by default) returns it and every earlier attempt
    threw. *)
Theorem retry_first_success fn options (a : A) :
  snd (retry fn options) = Returned a
  ↔ ∃ i : nat,
      (1 ≤ i ≤ default 3 (maxRetries options))%nat
      ∧ fn i = Returned a
      ∧ ∀ j, (1 ≤ j < i)%nat → ∃ e, fn j = Thrown e.
Proof.
  unfold retry. cbv zeta.
  set (maxRetries_ := default 3%nat (maxRetries options)).
  destruct (retryLoop_run fn maxRetries_ (default 1000 (delay options))
              (default 2 (backoff options)) (onRetry options)
              maxRetries_ 1 (JsError "Unknown error") ltac:(lia))
    as (n & Hn & _ & _ & Hthrown & Hlast).
  cbv zeta in Hlast.
  destruct (snd (retryLoop _ _ _ _ _ _ _ _)) as [a'|e].
  - destruct Hlast as [Hpos Hcall].
    replace (1 + pred n)%nat with n in * by lia.
    split.
    + intros [= ->]. exists n. split; [lia|]. split; [done|].
      intros j Hj. apply Hthrown. lia.
    + intros (i & Hi & Hret & Hbefore).
      destruct (Nat.lt_total i n) as [Hlt|[->|Hgt]].
      * destruct (Hthrown i ltac:(lia)) as [e He]. congruence.
      * congruence.
      * destruct (Hbefore n ltac:(lia)) as [e He]. congruence.
  - destruct Hlast as (-> & _ & Hlast).
    split; [done|]. intros (i & Hi & Hret & _).
    destruct (decide (i = maxRetries_)) as [->|Hne].
    + destruct (Hlast ltac:(lia)) as (e' & He' & _).
      replace (1 + pred maxRetries_)%nat with maxRetries_ in He' by lia.
      congruence.
    + destruct (Hthrown i ltac:(lia)) as [e' He']. congruence.
Qed.

(** X25. [retry] calls the function for the attempts 1, 2, ..., n in
    order, with n at most the budget, and sleeps after each of them but
    the last, for delay * backoff ^ (attempt - 1) milliseconds (1000 and
    2 by default).  If it throws, it has used the whole budget and
    throws what the last attempt threw, made an [Error]; with a budget
    of 0 it calls nothing and throws "Unknown error". *)
Theorem retry_schedule fn options :
  let maxRetries_ := default 3%nat (maxRetries options) in
  let r := retry fn options in
  ∃ n : nat,
    (n ≤ maxRetries_)%nat
    ∧ calls (fst r) = seq 1 n
    ∧ sleeps (fst r)
      = (λ k : nat, default 1000 (delay options)
                    * default 2 (backoff options) ^ (Z.of_nat k - 1))
          <$> seq 1 (pred n)
    ∧ ∀ e, snd r = Thrown e →
           n = maxRetries_
           ∧ (maxRetries_ = 0%nat → e = JsError "Unknown error")
           ∧ ((0 < maxRetries_)%nat →
              ∃ e', fn maxRetries_ = Thrown e' ∧ e = toError e').
Proof.
  intros maxRetries_ r. subst r. unfold retry. cbv zeta.
  fold maxRetries_.
  destruct (retryLoop_run fn maxRetries_ (default 1000 (delay options))
              (default 2 (backoff options)) (onRetry options)
              maxRetries_ 1 (JsError "Unknown error") ltac:(lia))
    as (n & Hn & Hcalls & Hsleeps & _ & Hlast).
  cbv zeta in Hcalls, Hsleeps, Hlast.
  exists n. split; [done|]. split; [done|]. split; [done|].
  intros e He. rewrite He in Hlast. destruct Hlast as (-> & Hzero & Hpos).
  split; [done|]. split; [done|]. intros Hgt.
  destruct (Hpos Hgt) as (e' & He' & ->). exists e'. split; [|done].
  by replace (1 + pred maxRetries_)%nat with maxRetries_ in He' by lia.
Qed.

(** The adapter's use of [retry] is the helper's outcome. *)
Lemma retry_agrees fn (n : nat) :
  snd (retry fn (mkRetryOptions (Some n) (Some 1000) None false))
  = FilecoinAdapter.retry fn n.
Proof.
  unfold retry, FilecoinAdapter.retry. cbn [default maxRetries].
  assert (Hgen : ∀ remaining attempt lastError,
            (attempt + remaining = S n)%nat →
            snd (retryLoop fn n 1000 2 false remaining attempt lastError)
            = FilecoinAdapter.retryFrom remaining attempt fn lastError).
  { induction remaining as [|remaining IH]; intros attempt lastError Hsum;
      cbn [retryLoop FilecoinAdapter.retryFrom]; [done|].
    destruct (fn attempt) as [a|error]; [done|].
    destruct (Nat.eqb_spec attempt n) as [Hlast|Hmore].
    - assert (remaining = 0%nat) as -> by lia. done.
    - cbn [snd]. apply IH. lia. }
  apply (Hgen n 1%nat (JsError "Unknown error")). lia.
Qed.

End Retry.

(** ** Order statistics *)

(** ** Order statistics *)

Section Statistics.
Import OrderStatistics.





Lemma sum_Permutation (l l' : list Z) :
  l ≡ₚ l' → foldr Z.add 0 l = foldr Z.add 0 l'.
Proof.
  induction 1 as [|x l l' _ IH|x y l|l l' l'' _ IH1 _ IH2]; cbn; lia.
Qed.

(** The rows of the table before and after one row is rewritten. *)
Lemma rowsWhere_update (P : Order.t → Prop) `{!∀ o, Decision (P o)}
    k o o' s s' :
  orders s !! k = Some o →
  orders s' = <[k := o']> (orders s) →
  rowsWhere P s ≡ₚ filter P (o :: (map_to_list (delete k (orders s))).*2)
  ∧ rowsWhere P s'
    ≡ₚ filter P (o' :: (map_to_list (delete k (orders s))).*2).
Proof.
  intros Ho Hs'. unfold rowsWhere. rewrite Hs'. split.
  - by rewrite <- (map_to_list_delete _ _ _ Ho).
  - rewrite <- (insert_delete_eq (orders s)).
    by rewrite map_to_list_insert by apply lookup_delete_eq.
Qed.

Lemma count_update (P : Order.t → Prop) `{!∀ o, Decision (P o)}
    k o o' s s' :
  orders s !! k = Some o →
  orders s' = <[k := o']> (orders s) →
  count P s'
  = count P s - (if decide (P o) then 1 else 0)
    + (if decide (P o') then 1 else 0).
Proof.
  intros Ho Hs'. unfold count.
  destruct (rowsWhere_update P k o o' s s' Ho Hs') as [-> ->].
  rewrite !filter_cons. repeat case_decide; cbn [length]; lia.
Qed.

Lemma revenue_update k o o' s s' :
  orders s !! k = Some o →
  orders s' = <[k := o']> (orders s) →
  revenue s'
  = revenue s
    - (if decide (isCompleted o) then Order.priceUsdCents o else 0)
    + (if decide (isCompleted o') then Order.priceUsdCents o' else 0).
Proof.
  intros Ho Hs'. unfold revenue.
  destruct (rowsWhere_update isCompleted k o o' s s' Ho Hs') as [H1 H2].
  rewrite (sum_Permutation _ _ (fmap_Permutation _ _ _ H1)).
  rewrite (sum_Permutation _ _ (fmap_Permutation _ _ _ H2)).
  rewrite !filter_cons. repeat case_decide; cbn; lia.
Qed.

(** What a rewrite of one order row does to the statistics. *)
Lemma getOrderStats_update k o o' w w' :
  orders (db w) !! k = Some o →
  orders (db w') = <[k := o']> (orders (db w)) →
  ∃ s s',
    fst (getOrderStats w) = Returned s
    ∧ fst (getOrderStats w') = Returned s'
    ∧ totalOrders s' = totalOrders s
    ∧ completedOrders s'
      = completedOrders s - (if decide (isCompleted o) then 1 else 0)
        + (if decide (isCompleted o') then 1 else 0)
    ∧ pendingOrders s'
      = pendingOrders s - (if decide (isPending o) then 1 else 0)
        + (if decide (isPending o') then 1 else 0)
    ∧ failedOrders s'
      = failedOrders s - (if decide (isFailed o) then 1 else 0)
        + (if decide (isFailed o') then 1 else 0)
    ∧ totalRevenueCents s'
      = totalRevenueCents s
        - (if decide (isCompleted o) then Order.priceUsdCents o else 0)
        + (if decide (isCompleted o') then Order.priceUsdCents o' else 0).
Proof.
  intros Ho Hdb. eexists _, _.
  split; [reflexivity|]. split; [reflexivity|].
  cbn [fst snd totalOrders completedOrders pendingOrders failedOrders
       totalRevenueCents].
  rewrite !(count_update _ k o o' _ _ Ho Hdb), (revenue_update k o o' _ _ Ho Hdb).
  repeat split. repeat case_decide; lia.
Qed.

(** X27. Cancelling a [PENDING_PAYMENT] order takes one from the
    pending count of [getOrderStats] and changes nothing else: the
    total, the completed and failed counts and the revenue stay. *)
Theorem cancelOrder_statistics orderId w order :
  orders (db w) !! orderId = Some order →
  Order.status order = OrderStatus.PENDING_PAYMENT →
  ∃ s s',
    fst (getOrderStats w) = Returned s
    ∧ fst (getOrderStats (snd (OrderService.cancelOrder orderId w)))
      = Returned s'
    ∧ totalOrders s' = totalOrders s
    ∧ pendingOrders s' = pendingOrders s - 1
    ∧ completedOrders s' = completedOrders s
    ∧ failedOrders s' = failedOrders s
    ∧ totalRevenueCents s' = totalRevenueCents s.
Proof.
  intros Ho Hst.
  destruct (getOrderStats_update orderId order
              (Order.with_statusMessage (Some "Cancelled by user")
                 (Order.with_status OrderStatus.CANCELLED order))
              w (snd (OrderService.cancelOrder orderId w)) Ho)
    as (s & s' & Hs & Hs' & Ht & Hc & Hp & Hf & Hr).
  { by rewrite (cancelOrder_pending _ _ _ Ho Hst). }
  exists s, s'. split; [done|]. split; [done|]. split; [done|].
  set (cancelled := Order.with_statusMessage _ _) in *.
  assert (Hpending : isPending order).
  { unfold isPending. rewrite Hst. apply (bool_decide_unpack _). by vm_compute. }
  assert (Hnc : ¬ isCompleted order)
    by (unfold isCompleted; rewrite Hst; discriminate).
  assert (Hnf : ¬ isFailed order).
  { unfold isFailed. rewrite Hst. apply (bool_decide_unpack _). by vm_compute. }
  assert (Hcc : ¬ isCompleted cancelled) by (by intros [=]).
  assert (Hcp : ¬ isPending cancelled).
  { unfold isPending. cbn. apply (bool_decide_unpack _). by vm_compute. }
  assert (Hcf : ¬ isFailed cancelled).
  { unfold isFailed. cbn. apply (bool_decide_unpack _). by vm_compute. }
  repeat case_decide; try tauto. lia.
Qed.


(** Scenario 6: the one order of the store is cancelled. *)
Lemma cancelOrder_statistics_witness :
  ∃ s s',
    fst (getOrderStats Scenario.awaitingPayment) = Returned s
    ∧ fst (getOrderStats
             (snd (OrderService.cancelOrder "o1" Scenario.awaitingPayment)))
      = Returned s'
    ∧ totalOrders s' = totalOrders s
    ∧ pendingOrders s' = pendingOrders s - 1
    ∧ completedOrders s' = completedOrders s
    ∧ failedOrders s' = failedOrders s
    ∧ totalRevenueCents s' = totalRevenueCents s.
Proof.
  apply (cancelOrder_statistics "o1" Scenario.awaitingPayment
           (Scenario.orderIn "o1" OrderStatus.PENDING_PAYMENT));
    by vm_compute.
Defined.

(** X28. When the poller sees the confirmation of the transaction of
    a [BLOCKCHAIN_PROCESSING] order and the order's expiry date is a
    valid [Date], [getOrderStats] moves one order from the pending to
    the completed count and the revenue grows by the order's price; the
    total and the failed count stay. *)
Theorem confirmation_statistics
    env txId providerSlug w tx adapter st order expires :
  blockchainTransactions (db w) !! txId = Some tx →
  truthy (BlockchainTransaction.txHash tx) = true →
  BlockchainTransaction.status tx ≠ TransactionStatus.CONFIRMED →
  BlockchainTransaction.status tx ≠ TransactionStatus.FAILED →
  BlockchainService.pollRegistry env !! providerSlug = Some adapter →
  checkTransactionStatus adapter (default "" (BlockchainTransaction.txHash tx))
  = Returned st →
  ITransactionStatusResult.status st = TransactionStatus.CONFIRMED →
  orders (db w) !! BlockchainTransaction.orderId tx = Some order →
  Order.status order = OrderStatus.BLOCKCHAIN_PROCESSING →
  addDays (BlockchainService.pollZone env)
          (BlockchainService.tExpiryBase env) (Order.durationDays order)
  = Some expires →
  ∃ s s',
    fst (getOrderStats w) = Returned s
    ∧ fst (getOrderStats
             (snd (BlockchainService.pollIteration env txId providerSlug w)))
      = Returned s'
    ∧ totalOrders s' = totalOrders s
    ∧ pendingOrders s' = pendingOrders s - 1
    ∧ completedOrders s' = completedOrders s + 1
    ∧ failedOrders s' = failedOrders s
    ∧ totalRevenueCents s' = totalRevenueCents s + Order.priceUsdCents order.
Proof.
  intros Htx Hhash Hnc Hnf Hreg Hcheck Hst Ho Hos Hexpires.
  rewrite (pollIteration_confirmed _ _ _ _ _ _ _ _ _ Htx Hhash Hnc Hnf Hreg
             Hcheck Hst Ho Hexpires).
  cbn [snd].
  match goal with |- context [getOrderStats ?v] =>
    lazymatch v with w => fail | _ => set (w' := v) end end.
  destruct (getOrderStats_update (BlockchainTransaction.orderId tx) order
              (Order.with_allocation (BlockchainService.tAllocated env)
                 expires
                 (Order.with_status OrderStatus.COMPLETED order))
              w w' Ho eq_refl)
    as (s & s' & Hs & Hs' & Ht & Hc & Hp & Hf & Hr).
  exists s, s'. split; [done|]. split; [done|]. split; [done|].
  set (completed := Order.with_allocation _ _ _) in *.
  assert (Hpending : isPending order).
  { unfold isPending. rewrite Hos. apply (bool_decide_unpack _). by vm_compute. }
  assert (Hoc : ¬ isCompleted order)
    by (unfold isCompleted; rewrite Hos; discriminate).
  assert (Hof : ¬ isFailed order).
  { unfold isFailed. rewrite Hos. apply (bool_decide_unpack _). by vm_compute. }
  assert (Hcc : isCompleted completed) by done.
  assert (Hcp : ¬ isPending completed).
  { unfold isPending. cbn. apply (bool_decide_unpack _). by vm_compute. }
  assert (Hcf : ¬ isFailed completed).
  { unfold isFailed. cbn. apply (bool_decide_unpack _). by vm_compute. }
  change (Order.priceUsdCents completed) with (Order.priceUsdCents order) in Hr.
  repeat case_decide; try tauto. lia.
Qed.

(** Scenario 1: the poller sees the confirmation of [tx1]. *)
Lemma confirmation_statistics_witness :
  ∃ s s',
    fst (getOrderStats Scenario.submitted) = Returned s
    ∧ fst (getOrderStats
             (snd (BlockchainService.pollIteration Scenario.pollNow "tx1"
                     "filecoin" Scenario.submitted)))
      = Returned s'
    ∧ totalOrders s' = totalOrders s
    ∧ pendingOrders s' = pendingOrders s - 1
    ∧ completedOrders s' = completedOrders s + 1
    ∧ failedOrders s' = failedOrders s
    ∧ totalRevenueCents s' = totalRevenueCents s + 99.
Proof.
  apply (confirmation_statistics Scenario.pollNow "tx1" "filecoin"
           Scenario.submitted
           (Scenario.txIn "tx1" "o1" TransactionStatus.SUBMITTED
              (Some "0xDEAD"))
           Scenario.confirming
           (Scenario.probeOf TransactionStatus.CONFIRMED 6)
           (Scenario.orderIn "o1" OrderStatus.BLOCKCHAIN_PROCESSING)
           (1700000010002 + 180 * msPerDay));
    by vm_compute.
Defined.

End Statistics.

(** ** Confirmed rows *)

(** ** A confirmed transaction is final *)

(** Writers of the transactions table that address a row other than
    the one held. *)
Ltac hold_other :=
  repeat first
    [ lazymatch goal with
      | |- preserves _ (bind (prisma.blockchainTransaction.create _) _) =>
          apply holdsRow_bind_tx_create; intros ?
      end
    | preserve_step
    | apply holdsRow_order_update
    | apply holdsRow_order_create
    | apply holdsRow_payment_update
    | apply holdsRow_payment_create
    | apply holdsRow_user_update
    | apply holdsRow_tx_update; [assumption | by intros ?] ].

Section ConfirmedRow.
Import BlockchainService.
Variable k : string.
Variable x : BlockchainTransaction.t.
Hypothesis x_confirmed :
  BlockchainTransaction.status x = TransactionStatus.CONFIRMED.

Lemma retryTransaction_holdsConfirmed tRetry env txId :
  preserves (holdsRow k x) (retryTransaction tRetry env txId).
Proof.
  destruct (decide (txId = k)) as [->|Hne].
  - intros w Hw. pose proof Hw as [_ Hrow].
    rewrite (retryTransaction_not_failed _ _ _ _ _ Hrow); [done|].
    rewrite x_confirmed. discriminate.
  - unfold retryTransaction, prisma.blockchainTransaction.findUnique.
    hold_other. apply processOrder_holdsRow.
Qed.

Lemma pollIteration_holdsConfirmed env txId providerSlug :
  preserves (holdsRow k x) (pollIteration env txId providerSlug).
Proof.
  destruct (decide (txId = k)) as [->|Hne].
  - intros w Hw. pose proof Hw as [_ Hrow].
    rewrite pollIteration_unfold, Hrow.
    unfold pollRow, tryCatch. destruct (negb _); [done|].
    by rewrite bool_decide_eq_true_2 by (by left).
  - unfold pollIteration, pollRow, prisma.blockchainTransaction.findUnique.
    hold_other.
Qed.

Lemma processPendingConfirmations_holdsConfirmed envs :
  preserves (holdsRow k x) (processPendingConfirmations envs).
Proof.
  intros w Hw.
  change (processPendingConfirmations envs w)
    with (sweepAll 0 envs
            ((λ y, (y, orders (db w) !! BlockchainTransaction.orderId y,
                       providers (db w) !! BlockchainTransaction.providerId y))
               <$> filter (λ y, BlockchainTransaction.status y
                                = TransactionStatus.SUBMITTED
                                ∨ BlockchainTransaction.status y
                                  = TransactionStatus.CONFIRMING)
                     (map_to_list (blockchainTransactions (db w))).*2) w).
  apply sweepAll_holdsRow; [|done].
  apply Forall_fmap, Forall_forall. intros y Hy. cbn.
  apply list_elem_of_filter in Hy as [Hstatus Hy].
  apply list_elem_of_fmap in Hy as [[j z] [-> Hy]].
  apply elem_of_map_to_list in Hy. cbn in *.
  destruct Hw as [Hkeyed Hrow].
  intros Hid. rewrite (Hkeyed _ _ Hy) in Hid. subst j.
  rewrite Hrow in Hy. injection Hy as <-.
  rewrite x_confirmed in Hstatus. by destruct Hstatus.
Qed.

Lemma run_holdsConfirmed op w :
  holdsRow k x (db w) → holdsRow k x (db (run op w)).
Proof.
  intros Hw. destruct op; cbn [run].
  - by apply createCheckoutSession_holdsRow.
  - by apply postWebhook_holdsRow.
  - by apply cancelOrder_holdsRow.
  - by apply processOrder_holdsRow.
  - by apply pollIteration_holdsConfirmed.
  - by apply retryTransaction_holdsConfirmed.
  - by apply processPendingConfirmations_holdsConfirmed.
Qed.

End ConfirmedRow.

Section LateWrites.
Import BlockchainService.
Variable k : string.
Variable x : BlockchainTransaction.t.
Hypothesis x_confirmed :
  BlockchainTransaction.status x = TransactionStatus.CONFIRMED.

(** The writes of an iteration that read the row as it is, or another
    row. *)
Lemma pollWrite_holdsConfirmed env txId providerSlug found order_ :
  (txId = k → found = Some x) →
  preserves (holdsRow k x)
    (tryCatch (pollRow env txId providerSlug found order_)
              (λ _, ret Continue)).
Proof.
  intros Hread. destruct (decide (txId = k)) as [->|Hne].
  - rewrite (Hread eq_refl). intros w Hw.
    unfold pollRow, tryCatch. destruct (negb _); [done|].
    by rewrite bool_decide_eq_true_2 by (by left).
  - unfold pollRow. hold_other.
Qed.

Lemma sweepOne_holdsConfirmed env tx order_ provider_ :
  BlockchainTransaction.id tx ≠ k →
  preserves (holdsRow k x) (sweepOne env tx order_ provider_).
Proof. intros Hne. unfold sweepOne. hold_other. Qed.

(** A row the sweep's query returns is not the confirmed one. *)
Lemma pending_is_other seen tx txs :
  holdsRow k x (db seen) →
  fst (getPendingTransactions seen) = Returned txs → tx ∈ txs →
  BlockchainTransaction.id tx ≠ k.
Proof.
  intros [Hkeyed Hrow] [= <-] Htx.
  apply list_elem_of_filter in Htx as [Hstatus Htx].
  apply list_elem_of_fmap in Htx as [[j z] [-> Hz]].
  apply elem_of_map_to_list in Hz. cbn in *.
  intros Hid. rewrite (Hkeyed _ _ Hz) in Hid. subst j.
  rewrite Hrow in Hz. injection Hz as <-.
  rewrite x_confirmed in Hstatus. by destruct Hstatus.
Qed.

Lemma step_holdsConfirmed st seen w :
  holdsRow k x (db seen) → readFrom seen st →
  holdsRow k x (db w) → holdsRow k x (db (step st w)).
Proof.
  intros Hseen Hread Hw. destruct st as [op|env txId sl found o_|env tx o_ p_];
    cbn [step readFrom] in *.
  - by apply run_holdsConfirmed.
  - apply pollWrite_holdsConfirmed; [|done].
    intros ->. destruct Hread as [-> _]. by destruct Hseen.
  - destruct Hread as ((txs & Htxs & Htx) & _).
    apply sweepOne_holdsConfirmed; [|done].
    exact (pending_is_other seen tx txs Hseen Htxs Htx).
Qed.

Lemma interleaved_holdsConfirmed w0 past :
  holdsRow k x (db w0) → interleaved w0 past →
  Forall (λ w, holdsRow k x (db w)) past.
Proof.
  intros Hstart. induction 1 as [|w past st seen _ IH Hseen Hread].
  - by apply Forall_singleton.
  - apply Forall_cons. split; [|done].
    rewrite Forall_forall in IH.
    apply (step_holdsConfirmed st seen); [by apply IH|done|].
    apply IH, list_elem_of_here.
Qed.

(** The writes of an iteration that read the row before it was
    confirmed: the status the adapter gave that iteration replaces the
    row's. *)
Lemma pollWrite_overwrites env providerSlug w tx order_ adapter st :
  blockchainTransactions (db w) !! k = Some x →
  truthy (BlockchainTransaction.txHash tx) = true →
  BlockchainTransaction.status tx ≠ TransactionStatus.CONFIRMED →
  BlockchainTransaction.status tx ≠ TransactionStatus.FAILED →
  pollRegistry env !! providerSlug = Some adapter →
  checkTransactionStatus adapter (default "" (BlockchainTransaction.txHash tx))
  = Returned st →
  ITransactionStatusResult.status st ≠ TransactionStatus.CONFIRMED →
  blockchainTransactions
    (db (step (PollWrite env k providerSlug (Some tx) order_) w)) !! k
  = Some (BlockchainTransaction.with_statusMessage
            (ITransactionStatusResult.error st)
            (BlockchainTransaction.with_probe
               (ITransactionStatusResult.confirmations st)
               (ITransactionStatusResult.blockNumber st)
               (ITransactionStatusResult.blockHash st)
               (ITransactionStatusResult.gasUsed st)
               None
               (BlockchainTransaction.with_status
                  (ITransactionStatusResult.status st) x))).
Proof.
  intros Hrow Hhash Hnc Hnf Hreg Hcheck Hst.
  cbn [step]. unfold tryCatch, pollRow. rewrite Hhash. cbn [negb].
  rewrite bool_decide_eq_false_2 by (by intros [?|?]).
  rewrite (bind_returned _ _ _ _ _ (getAdapter_returned _ _ _ _ Hreg)).
  unfold bind at 1. rewrite invokeCheck_run, Hcheck.
  erewrite bind_returned; [ | by apply tx_update_returned ].
  assert (Hnot : isConfirmed (ITransactionStatusResult.status st) = false)
    by (by apply bool_decide_eq_false_2).
  rewrite Hnot.
  match goal with |- context [with_db ?s ?v] => set (w1 := with_db s v) end.
  assert (Hw1 : blockchainTransactions (db w1) !! k = Some
            (BlockchainTransaction.with_statusMessage
               (ITransactionStatusResult.error st)
               (BlockchainTransaction.with_probe
                  (ITransactionStatusResult.confirmations st)
                  (ITransactionStatusResult.blockNumber st)
                  (ITransactionStatusResult.blockHash st)
                  (ITransactionStatusResult.gasUsed st)
                  None
                  (BlockchainTransaction.with_status
                     (ITransactionStatusResult.status st) x))))
    by apply lookup_insert_eq.
  case_bool_decide; [|done].
  destruct (orders (db w1) !! BlockchainTransaction.orderId tx) as [o|] eqn:Ho.
  - erewrite bind_returned; [ | by apply order_update_returned ].
    done.
  - erewrite bind_thrown; [ | by apply order_update_thrown ].
    done.
Qed.

End LateWrites.

(** X29. A [CONFIRMED] transaction row is final against whatever reads
    it from then on: in every run of whole operations and of late writes
    of polling iterations and sweep steps, each computed from a read of
    a world of the run, the row stays in the store exactly as it is.
    It is not final against a polling iteration that read the row
    before the confirmation and writes after it: that write puts the
    status its adapter reported, and the rest of its probe, on the
    confirmed row. *)
Theorem confirmed_transaction_is_final w0 k x :
  keyed (db w0) →
  blockchainTransactions (db w0) !! k = Some x →
  BlockchainTransaction.status x = TransactionStatus.CONFIRMED →
  (∀ past w, interleaved w0 past → w ∈ past →
             blockchainTransactions (db w) !! k = Some x)
  ∧ (∀ env providerSlug tx order_ adapter st,
       truthy (BlockchainTransaction.txHash tx) = true →
       BlockchainTransaction.status tx ≠ TransactionStatus.CONFIRMED →
       BlockchainTransaction.status tx ≠ TransactionStatus.FAILED →
       BlockchainService.pollRegistry env !! providerSlug = Some adapter →
       checkTransactionStatus adapter
         (default "" (BlockchainTransaction.txHash tx)) = Returned st →
       ITransactionStatusResult.status st ≠ TransactionStatus.CONFIRMED →
       ∃ x',
         blockchainTransactions
           (db (step (PollWrite env k providerSlug (Some tx) order_) w0)) !! k
         = Some x'
         ∧ BlockchainTransaction.status x' = ITransactionStatusResult.status st
         ∧ BlockchainTransaction.confirmations x'
           = ITransactionStatusResult.confirmations st
         ∧ BlockchainTransaction.confirmedAt x'
           = BlockchainTransaction.confirmedAt x).
Proof.
  intros Hkeyed Hrow Hst. split.
  - intros past w Hrun Hw.
    pose proof (interleaved_holdsConfirmed k x Hst w0 past
                  (conj Hkeyed Hrow) Hrun) as Hall.
    rewrite Forall_forall in Hall. by destruct (Hall w Hw).
  - intros env providerSlug tx order_ adapter st
      Hhash Hnc Hnf Hreg Hcheck Hstale.
    eexists. split.
    { by apply (pollWrite_overwrites k x env providerSlug w0 tx order_
                  adapter st). }
    by repeat split.
Qed.

Lemma allocated_keyed : keyed (db Allocated.world).
Proof.
  intros j y Hj.
  change (({["tx1" := Allocated.tx1]} : gmap string BlockchainTransaction.t)
            !! j = Some y) in Hj.
  apply lookup_singleton_Some in Hj as [<- <-]. reflexivity.
Qed.

(** Scenario 1 at its end.  A sweep, then the writes of a polling
    iteration that read the confirmed row before the sweep, leave the
    row; the writes of an iteration that had read it as [SUBMITTED] and
    was told [CONFIRMING] make it [CONFIRMING]. *)
Lemma confirmed_transaction_is_final_witness :
  let w0 := Allocated.world in
  let w1 := step (Whole (Sweep (λ _, BlockchainService.mkSweepEnv
                                      (Scenario.registryOf Scenario.confirming)
                                      0 0 0 utc))) w0 in
  let found := blockchainTransactions (db w0) !! "tx1" in
  let order_ := found ≫= λ y, orders (db w0)
                                !! BlockchainTransaction.orderId y in
  let w2 := step (PollWrite Scenario.pollNow "tx1" "filecoin" found order_)
                 w1 in
  let stale := Scenario.txIn "tx1" "o1" TransactionStatus.SUBMITTED
                             (Some "0xDEAD") in
  let slow := Scenario.adapterReplying
                (Thrown (JsError "unused"))
                (Returned (Scenario.probeOf TransactionStatus.CONFIRMING 3)) in
  let env := BlockchainService.mkPollEnv (Scenario.registryOf slow)
               1700000020000 1700000020002 1700000020002 utc in
  blockchainTransactions (db w2) !! "tx1" = Some Allocated.tx1
  ∧ ∃ x',
      blockchainTransactions
        (db (step (PollWrite env "tx1" "filecoin" (Some stale) None) w0))
        !! "tx1" = Some x'
      ∧ BlockchainTransaction.status x' = TransactionStatus.CONFIRMING.
Proof.
  intros w0 w1 found order_ w2 stale slow env.
  destruct (confirmed_transaction_is_final w0 "tx1" Allocated.tx1
              allocated_keyed eq_refl eq_refl) as [Hfinal Hstale].
  split.
  - apply (Hfinal [w2; w1; w0]); [|apply list_elem_of_here].
    apply (interleaved_step w0 w1 [w0] _ w0);
      [|apply list_elem_of_further, list_elem_of_here|by split].
    apply (interleaved_step w0 w0 [] _ w0);
      [apply interleaved_start|apply list_elem_of_here|exact I].
  - destruct (Hstale env "filecoin" stale None slow
                (Scenario.probeOf TransactionStatus.CONFIRMING 3)
                eq_refl ltac:(discriminate) ltac:(discriminate)
                eq_refl eq_refl ltac:(discriminate))
      as (x' & Hx' & Hstatus & _).
    exists x'. by split.
Defined.


(** ** The retry budget *)

Section Budget.
Import BlockchainService.
Variable P : BlockchainTransaction.t → Prop.

Lemma txwise_frame {A} (m : M A) :
  (∀ w, blockchainTransactions (db (snd (m w)))
        = blockchainTransactions (db w)) →
  preserves (txwise P) m.
Proof. intros Hframe w Hw k x. rewrite Hframe. apply Hw. Qed.

Lemma txwise_order_update i f : preserves (txwise P) (prisma.order.update i f).
Proof.
  apply txwise_frame. intros w.
  unfold prisma.order.update, prisma.get, prisma.put, bind, ret, throw.
  by destruct (orders (db w) !! i).
Qed.

Lemma txwise_order_create o : preserves (txwise P) (prisma.order.create o).
Proof.
  apply txwise_frame. intros w.
  unfold prisma.order.create, prisma.get, prisma.put, bind, ret, throw.
  cbv [id].
  by repeat (match goal with |- context [if ?b then _ else _] => destruct b end;
             [done|]).
Qed.

Lemma txwise_payment_update i f :
  preserves (txwise P) (prisma.payment.update i f).
Proof.
  apply txwise_frame. intros w.
  unfold prisma.payment.update, prisma.get, prisma.put, bind, ret, throw.
  cbv [id].
  destruct (payments (db w) !! i); [|done].
  by destruct (prisma.payment.clashes _ _ _).
Qed.

Lemma txwise_payment_create p :
  preserves (txwise P) (prisma.payment.create p).
Proof.
  apply txwise_frame. intros w.
  unfold prisma.payment.create, prisma.get, prisma.put, bind, ret, throw.
  cbv [id].
  destruct (bool_decide _); [done|].
  by destruct (prisma.payment.clashes _ _ _).
Qed.

Lemma txwise_user_update i f : preserves (txwise P) (prisma.user.update i f).
Proof.
  apply txwise_frame. intros w.
  unfold prisma.user.update, prisma.get, prisma.put, bind, ret, throw.
  destruct (users (db w) !! i); [|done].
  by destruct (taken _ _ _ _).
Qed.

Lemma txwise_tx_update i f :
  (∀ y, P y → P (f y)) →
  preserves (txwise P) (prisma.blockchainTransaction.update i f).
Proof.
  intros Hf w Hw.
  destruct (blockchainTransactions (db w) !! i) as [y|] eqn:Hy.
  - rewrite (tx_update_returned _ _ _ _ Hy).
    intros j z. cbn [snd db with_db blockchainTransactions
                     set_blockchainTransactions].
    destruct (decide (i = j)) as [->|Hne].
    + rewrite lookup_insert_eq. intros [= <-]. apply Hf. by apply (Hw j).
    + rewrite lookup_insert_ne by done. apply Hw.
  - unfold prisma.blockchainTransaction.update, prisma.get, bind, throw.
    by rewrite Hy.
Qed.

Lemma txwise_tx_create y :
  P y → preserves (txwise P) (prisma.blockchainTransaction.create y).
Proof.
  intros Hy w Hw.
  unfold prisma.blockchainTransaction.create, prisma.get, prisma.put, bind,
    ret, throw. cbv [id].
  destruct (bool_decide _); [done|].
  intros j z. cbn [snd db with_db blockchainTransactions
                   set_blockchainTransactions].
  destruct (decide (BlockchainTransaction.id y = j)) as [<-|Hne].
  - rewrite lookup_insert_eq. by intros [= <-].
  - rewrite lookup_insert_ne by done. apply Hw.
Qed.

End Budget.

(** Every update but the one of [retryTransaction] leaves [retryCount]
    and [maxRetries] alone, and a new row starts at 0 of 3. *)
Ltac keep_budget :=
  repeat first
    [ preserve_step
    | apply txwise_order_update
    | apply txwise_order_create
    | apply txwise_payment_update
    | apply txwise_payment_create
    | apply txwise_user_update
    | apply txwise_tx_update; by intros ?
    | apply txwise_tx_create; by cbv ].

Section BudgetOperations.
Import BlockchainService PaymentService.

Lemma processOrder_budget env orderId :
  preserves (txwise withinBudget) (processOrder env orderId).
Proof.
  unfold processOrder, failSubmission, prisma.order.findUnique. keep_budget.
Qed.

Lemma retryTransaction_budget tRetry env txId :
  preserves (txwise withinBudget) (retryTransaction tRetry env txId).
Proof.
  intros w Hw.
  pose proof (retryTransaction_guards tRetry env txId w) as Hguards.
  destruct (blockchainTransactions (db w) !! txId) as [x|] eqn:Hx;
    [|by rewrite Hguards].
  destruct Hguards as [Hlive Hbudget].
  destruct (decide (BlockchainTransaction.status x = TransactionStatus.FAILED))
    as [Hst|Hst]; [|by rewrite Hlive].
  destruct (decide (BlockchainTransaction.retryCount x
                    >= BlockchainTransaction.maxRetries x))
    as [Hge|Hlt]; [by rewrite Hbudget|].
  rewrite (retryTransaction_reenters _ _ _ _ _ Hx Hst) by lia.
  apply processOrder_budget.
  intros j z. cbn [db with_db blockchainTransactions
                   set_blockchainTransactions].
  destruct (decide (txId = j)) as [->|Hne].
  - rewrite lookup_insert_eq. intros [= <-]. unfold withinBudget. cbn. lia.
  - rewrite lookup_insert_ne by done. apply Hw.
Qed.

Lemma pollIteration_budget env txId providerSlug :
  preserves (txwise withinBudget) (pollIteration env txId providerSlug).
Proof.
  unfold pollIteration, pollRow, prisma.blockchainTransaction.findUnique.
  keep_budget.
Qed.

Lemma sweepAll_budget envs rows :
  ∀ n, preserves (txwise withinBudget) (sweepAll n envs rows).
Proof.
  induction rows as [|[[tx order_] provider_] rows IH]; intros n;
    cbn [sweepAll].
  - apply preserves_ret.
  - apply preserves_bind; [|intros _; apply IH].
    unfold sweepOne. keep_budget.
Qed.

Lemma processPendingConfirmations_budget envs :
  preserves (txwise withinBudget) (processPendingConfirmations envs).
Proof.
  unfold processPendingConfirmations, getPendingTransactions.
  keep_budget. apply sweepAll_budget.
Qed.

Lemma createCheckoutSession_budget env params :
  preserves (txwise withinBudget) (createCheckoutSession env params).
Proof.
  unfold createCheckoutSession, checkIdempotency,
    prisma.order.findUniqueByIdempotencyKey, prisma.storagePlan.findUnique,
    prisma.user.findUnique.
  keep_budget.
Qed.

Lemma postWebhook_budget env req :
  preserves (txwise withinBudget) (PaymentController.postWebhook env req).
Proof.
  unfold PaymentController.postWebhook, handleWebhook, dispatch,
    handleCheckoutCompleted, handleCheckoutExpired, handlePaymentSucceeded,
    handlePaymentFailed, triggerBlockchainTransaction,
    prisma.payment.findUnique,
    prisma.payment.findUniqueByStripePaymentIntentId.
  keep_budget.
Qed.

Lemma cancelOrder_budget orderId :
  preserves (txwise withinBudget) (OrderService.cancelOrder orderId).
Proof.
  unfold OrderService.cancelOrder, prisma.order.findUnique. keep_budget.
Qed.

Lemma run_budget op w :
  txwise withinBudget (db w) → txwise withinBudget (db (run op w)).
Proof.
  intros Hw. destruct op; cbn [run].
  - by apply createCheckoutSession_budget.
  - by apply postWebhook_budget.
  - by apply cancelOrder_budget.
  - by apply processOrder_budget.
  - by apply pollIteration_budget.
  - by apply retryTransaction_budget.
  - by apply processPendingConfirmations_budget.
Qed.

(** X30. The retry budget is an invariant of the store: if no
    transaction row has [retryCount] above [maxRetries], then none has
    after any sequence of checkouts, webhook deliveries, cancellations,
    allocations, polls, retries and sweeps. *)
Theorem retry_budget_is_respected allowed w0 w :
  txwise withinBudget (db w0) →
  reachableBy allowed w0 w →
  ∀ k x, blockchainTransactions (db w) !! k = Some x →
         BlockchainTransaction.retryCount x
         <= BlockchainTransaction.maxRetries x.
Proof.
  intros Hstart Hreach.
  change (txwise withinBudget (db w)).
  induction Hreach as [|w op _ IH _]; [done|].
  by apply run_budget.
Qed.

(** The first retry of scenario 3 spends one of the three retries. *)
Lemma retry_budget_is_respected_witness :
  let w0 := Scenario.afterFailure in
  let w := run (Retry 1700000060000
                  (Scenario.envOf Scenario.outOfFunds "tx2") "tx1") w0 in
  blockchainTransactions (db w) !! "tx1" = Some Scenario.retryingRow
  ∧ BlockchainTransaction.retryCount Scenario.retryingRow
    <= BlockchainTransaction.maxRetries Scenario.retryingRow.
Proof.
  intros w0 w.
  assert (Hrow : blockchainTransactions (db w) !! "tx1"
                 = Some Scenario.retryingRow) by (vm_compute; reflexivity).
  split; [exact Hrow|].
  apply (λ Hstart Hreach,
           retry_budget_is_respected (λ _, True) w0 w Hstart Hreach "tx1"
             Scenario.retryingRow Hrow).
  - intros j y.
    assert (Hrows : ∃ row, blockchainTransactions (db w0) = {["tx1" := row]}
                           ∧ withinBudget row).
    { eexists. split; [vm_compute; reflexivity|]. by vm_compute. }
    destruct Hrows as (row & -> & Hok).
    by intros [_ <-]%lookup_singleton_Some.
  - apply reachable_run; [|exact I]. apply reachable_start.
Defined.

End BudgetOperations.
